(** * Lucid Motors appointment-booking chatbot: conversation core

    A shallow embedding of the conversation core of the chatbot
    (models.py, appointment_service.py, context_manager.py) and the
    properties of its specification that were checked against it.

    Conventions of the embedding.
    - A Python [str] is a Rocq [string]; the embedding is exact on ASCII
      text (case mapping and character classes of other characters are
      left alone).
    - [None] for an optional field is [None]; a Python condition
      [if x:] on an optional string is [truthy x].
    - Mutation of the context object is a function from the old record
      to the new one; the clock ([datetime.now()]) is an argument.
    - Calls of the Appointment Recorder are kept in a trace, one row per
      call, in call order.
    - A file of the history directory holds a JSON document; what
      [json.dump] writes and [json.load] reads back is that document. *)

From Stdlib Require Import String Ascii List ZArith QArith Bool Lia.
From stdpp Require Import gmap strings list.
Import ListNotations.

Local Open Scope string_scope.
Local Open Scope list_scope.

Set Warnings "-register-all".

(* ===================================================================== *)
(** * Python strings *)
(* ===================================================================== *)

Module PyStr.

Definition is_upper (c : ascii) : bool :=
  let n := nat_of_ascii c in (65 <=? n)%nat && (n <=? 90)%nat.

Definition is_lower (c : ascii) : bool :=
  let n := nat_of_ascii c in (97 <=? n)%nat && (n <=? 122)%nat.

Definition is_digit (c : ascii) : bool :=
  let n := nat_of_ascii c in (48 <=? n)%nat && (n <=? 57)%nat.

Definition is_alpha (c : ascii) : bool := is_upper c || is_lower c.

(** [str.isspace] on one character. *)
Definition is_space (c : ascii) : bool :=
  let n := nat_of_ascii c in
  ((9 <=? n)%nat && (n <=? 13)%nat) || ((28 <=? n)%nat && (n <=? 32)%nat).

Definition lower_char (c : ascii) : ascii :=
  if is_upper c then ascii_of_nat (nat_of_ascii c + 32) else c.

Definition upper_char (c : ascii) : ascii :=
  if is_lower c then ascii_of_nat (nat_of_ascii c - 32) else c.

(** [s.lower()] *)
Fixpoint lower (s : string) : string :=
  match s with
  | EmptyString => EmptyString
  | String c s' => String (lower_char c) (lower s')
  end.

(** [s.startswith(p)] *)
Fixpoint startswith (p s : string) : bool :=
  match p, s with
  | EmptyString, _ => true
  | String a p', String b s' => Ascii.eqb a b && startswith p' s'
  | String _ _, EmptyString => false
  end.

(** [sub in s] *)
Fixpoint contains (sub s : string) : bool :=
  startswith sub s ||
  match s with
  | EmptyString => false
  | String _ s' => contains sub s'
  end.

(** [s.title()]: a cased character is upper-cased when the character
    before it is not cased, and lower-cased when it is. *)
Fixpoint title_from (prev_cased : bool) (s : string) : string :=
  match s with
  | EmptyString => EmptyString
  | String c s' =>
      String (if prev_cased then lower_char c else upper_char c)
             (title_from (is_alpha c) s')
  end.

Definition title (s : string) : string := title_from false s.

Fixpoint lstrip_by (p : ascii -> bool) (s : string) : string :=
  match s with
  | EmptyString => EmptyString
  | String c s' => if p c then lstrip_by p s' else s
  end.

Fixpoint rstrip_by (p : ascii -> bool) (s : string) : string :=
  match s with
  | EmptyString => EmptyString
  | String c s' =>
      match rstrip_by p s' with
      | EmptyString => if p c then EmptyString else String c EmptyString
      | r => String c r
      end
  end.

(** [s.strip()] *)
Definition strip (s : string) : string := rstrip_by is_space (lstrip_by is_space s).

(** [s.strip(chars)] for a one-character [chars] *)
Definition strip_char (ch : ascii) (s : string) : string :=
  rstrip_by (Ascii.eqb ch) (lstrip_by (Ascii.eqb ch) s).

(** [x in [a, b, ...]] on strings *)
Definition in_list (x : string) (l : list string) : bool :=
  existsb (String.eqb x) l.

(** [any(keyword in s for keyword in keywords)] *)
Definition any_in (keywords : list string) (s : string) : bool :=
  existsb (fun keyword => contains keyword s) keywords.

(** Truth value of an [Optional[str]]: set and non-empty. *)
Definition truthy (o : option string) : bool :=
  match o with
  | Some s => negb (String.eqb s "")
  | None => false
  end.

(** [a or b] on optional strings *)
Definition or_else (a b : option string) : option string :=
  if truthy a then a else b.

(** The part of [s] after its last [sep], or all of [s] when it has
    none: [s.split(sep)[-1]]. *)
Fixpoint after_last (sep : ascii) (s : string) : string :=
  match s with
  | EmptyString => EmptyString
  | String c s' =>
      if Ascii.eqb c sep then after_last sep s'
      else if contains (String sep EmptyString) s' then after_last sep s'
      else s
  end.

End PyStr.

(* ===================================================================== *)
(** * Timestamps ([datetime]) *)
(* ===================================================================== *)

Module PyDatetime.

(** A naive [datetime]. *)
Record datetime : Type := mk_datetime {
  year : N; month : N; day : N;
  hour : N; minute : N; second : N; microsecond : N
}.

Definition is_leap (y : N) : bool :=
  ((y mod 4 =? 0) && negb (y mod 100 =? 0) || (y mod 400 =? 0))%N.

Definition days_in_month (y m : N) : N :=
  (if m =? 2 then (if is_leap y then 29 else 28)
   else if (m =? 4) || (m =? 6) || (m =? 9) || (m =? 11) then 30
   else 31)%N.

(** The values a [datetime] object can hold. *)
Definition valid (t : datetime) : bool :=
  ((1 <=? year t) && (year t <=? 9999) &&
   (1 <=? month t) && (month t <=? 12) &&
   (1 <=? day t) && (day t <=? days_in_month (year t) (month t)) &&
   (hour t <? 24) && (minute t <? 60) && (second t <? 60) &&
   (microsecond t <? 1000000))%N.

Definition digit_char (d : N) : ascii := ascii_of_N (48 + d mod 10).

Definition digit_value (c : ascii) : N := N_of_ascii c - 48.

(** [n] written with exactly [width] decimal digits. *)
Fixpoint digits (width : nat) (n : N) : string :=
  match width with
  | O => EmptyString
  | S w => digits w (n / 10) +:+ String (digit_char n) EmptyString
  end.

(** Reads exactly [width] decimal digits; [acc] is the value read so far. *)
Fixpoint read_digits (width : nat) (acc : N) (s : string) : option (N * string) :=
  match width with
  | O => Some (acc, s)
  | S w =>
      match s with
      | String c s' =>
          if PyStr.is_digit c
          then read_digits w (10 * acc + digit_value c) s'
          else None
      | EmptyString => None
      end
  end.

(** [t.isoformat(timespec="seconds")] *)
Definition isoformat_seconds (t : datetime) : string :=
  digits 4 (year t) +:+ "-" +:+ digits 2 (month t) +:+ "-" +:+ digits 2 (day t)
  +:+ "T" +:+ digits 2 (hour t) +:+ ":" +:+ digits 2 (minute t) +:+ ":"
  +:+ digits 2 (second t).

Definition expect (c : ascii) (s : string) : option string :=
  match s with
  | String c' s' => if Ascii.eqb c c' then Some s' else None
  | EmptyString => None
  end.

(** [t.isoformat()]: YYYY-MM-DDTHH:MM:SS, followed by .ffffff when the
    microsecond is not zero. *)
Definition isoformat (t : datetime) : string :=
  digits 4 (year t) +:+ "-" +:+ digits 2 (month t) +:+ "-" +:+ digits 2 (day t)
  +:+ "T" +:+ digits 2 (hour t) +:+ ":" +:+ digits 2 (minute t) +:+ ":"
  +:+ digits 2 (second t)
  +:+ (if (microsecond t =? 0)%N then "" else "." +:+ digits 6 (microsecond t)).

(** [datetime.fromisoformat(s)] on the two layouts [isoformat] writes;
    [None] is [ValueError]. *)
Definition fromisoformat (s : string) : option datetime :=
  '(y, s) ← read_digits 4 0 s; s ← expect "-" s;
  '(mo, s) ← read_digits 2 0 s; s ← expect "-" s;
  '(d, s) ← read_digits 2 0 s; s ← expect "T" s;
  '(h, s) ← read_digits 2 0 s; s ← expect ":" s;
  '(mi, s) ← read_digits 2 0 s; s ← expect ":" s;
  '(se, s) ← read_digits 2 0 s;
  '(us, s) ← match s with
             | EmptyString => Some (0%N, s)
             | _ => s ← expect "." s; read_digits 6 0 s
             end;
  let t := mk_datetime y mo d h mi se us in
  match s with
  | EmptyString => if valid t then Some t else None
  | _ => None
  end.

End PyDatetime.

(* ===================================================================== *)
(** * models.py *)
(* ===================================================================== *)

Module Models.

Import PyDatetime.

(** [class ConversationState(str, Enum)] *)
Inductive ConversationState : Type :=
| INITIAL
| WAITING_LOCATION
| WAITING_CENTER_SELECTION
| WAITING_TIME_SLOT
| CONFIRMING_APPOINTMENT
| COMPLETED.

(** [state.value] *)
Definition state_value (s : ConversationState) : string :=
  match s with
  | INITIAL => "initial"
  | WAITING_LOCATION => "waiting_location"
  | WAITING_CENTER_SELECTION => "waiting_center_selection"
  | WAITING_TIME_SLOT => "waiting_time_slot"
  | CONFIRMING_APPOINTMENT => "confirming_appointment"
  | COMPLETED => "completed"
  end.

Definition all_states : list ConversationState :=
  [INITIAL; WAITING_LOCATION; WAITING_CENTER_SELECTION; WAITING_TIME_SLOT;
   CONFIRMING_APPOINTMENT; COMPLETED].

(** [ConversationState(v)]; [None] is [ValueError]. *)
Definition state_of_value (v : string) : option ConversationState :=
  find (fun s => String.eqb (state_value s) v) all_states.

Definition state_eqb (a b : ConversationState) : bool :=
  String.eqb (state_value a) (state_value b).

Record ServiceCenter : Type := mk_ServiceCenter {
  sc_name : string;
  sc_city : string;
  sc_address : string;
  sc_phone : string
}.

(** [ServiceCenter.__str__] *)
Definition ServiceCenter_str (c : ServiceCenter) : string :=
  "Lucid Service Center - " +:+ sc_city c.

Record TimeSlot : Type := mk_TimeSlot {
  ts_time : string;
  ts_date : string;
  ts_available : bool
}.

(** [TimeSlot(time=..., date=...)], [available] defaulting to [True] *)
Definition TimeSlot_of (time date : string) : TimeSlot :=
  mk_TimeSlot time date true.

(** [TimeSlot.__str__] *)
Definition TimeSlot_str (t : TimeSlot) : string :=
  ts_date t +:+ " at " +:+ ts_time t.

Record AppointmentContext : Type := mk_AppointmentContext {
  user_id : string;
  state : ConversationState;
  city : option string;
  selected_center : option ServiceCenter;
  selected_time_slot : option TimeSlot;
  appointment_saved : bool;
  last_message_time : datetime
}.

(** [AppointmentContext(user_id=uid)] created at time [now] *)
Definition new_context (uid : string) (now : datetime) : AppointmentContext :=
  mk_AppointmentContext uid INITIAL None None None false now.

Definition set_state (s : ConversationState) (c : AppointmentContext) :=
  mk_AppointmentContext (user_id c) s (city c) (selected_center c)
    (selected_time_slot c) (appointment_saved c) (last_message_time c).

Definition set_city (v : option string) (c : AppointmentContext) :=
  mk_AppointmentContext (user_id c) (state c) v (selected_center c)
    (selected_time_slot c) (appointment_saved c) (last_message_time c).

Definition set_selected_center (v : option ServiceCenter) (c : AppointmentContext) :=
  mk_AppointmentContext (user_id c) (state c) (city c) v
    (selected_time_slot c) (appointment_saved c) (last_message_time c).

Definition set_selected_time_slot (v : option TimeSlot) (c : AppointmentContext) :=
  mk_AppointmentContext (user_id c) (state c) (city c) (selected_center c)
    v (appointment_saved c) (last_message_time c).

Definition set_appointment_saved (v : bool) (c : AppointmentContext) :=
  mk_AppointmentContext (user_id c) (state c) (city c) (selected_center c)
    (selected_time_slot c) v (last_message_time c).

Definition set_last_message_time (v : datetime) (c : AppointmentContext) :=
  mk_AppointmentContext (user_id c) (state c) (city c) (selected_center c)
    (selected_time_slot c) (appointment_saved c) v.

(** The static directory, keyed by lower-cased city, in definition order. *)
Definition SERVICE_CENTERS : list (string * list ServiceCenter) :=
  [ ("riyadh",
     [ mk_ServiceCenter "Lucid Service Center - Riyadh Downtown" "Riyadh"
         "King Fahd Road, Riyadh 12345" "+966-11-123-4567";
       mk_ServiceCenter "Lucid Service Center - Riyadh North" "Riyadh"
         "Olaya Street, Riyadh 12346" "+966-11-123-4568";
       mk_ServiceCenter "Lucid Service Center - Riyadh East" "Riyadh"
         "King Abdullah Road, Riyadh 12347" "+966-11-123-4569" ]);
    ("jeddah",
     [ mk_ServiceCenter "Lucid Service Center - Jeddah" "Jeddah"
         "Tahlia Street, Jeddah 21414" "+966-12-234-5678";
       mk_ServiceCenter "Lucid Service Center - Jeddah North" "Jeddah"
         "King Abdulaziz Road, Jeddah 21415" "+966-12-234-5679" ]);
    ("dammam",
     [ mk_ServiceCenter "Lucid Service Center - Dammam" "Dammam"
         "King Saud Road, Dammam 31411" "+966-13-345-6789";
       mk_ServiceCenter "Lucid Service Center - Dammam West" "Dammam"
         "King Fahd Road, Dammam 31412" "+966-13-345-6790" ]);
    ("makkah",
     [ mk_ServiceCenter "Lucid Service Center - Makkah" "Makkah"
         "King Abdulaziz Road, Makkah 21955" "+966-12-345-6789" ]);
    ("medina",
     [ mk_ServiceCenter "Lucid Service Center - Medina" "Medina"
         "King Fahd Road, Medina 42351" "+966-14-456-7890" ]);
    ("taif",
     [ mk_ServiceCenter "Lucid Service Center - Taif" "Taif"
         "King Khalid Road, Taif 21944" "+966-12-567-8901" ]);
    ("abha",
     [ mk_ServiceCenter "Lucid Service Center - Abha" "Abha"
         "King Faisal Road, Abha 61321" "+966-17-678-9012" ]);
    ("tabuk",
     [ mk_ServiceCenter "Lucid Service Center - Tabuk" "Tabuk"
         "King Abdulaziz Road, Tabuk 71491" "+966-14-789-0123" ]);
    ("jazan",
     [ mk_ServiceCenter "Lucid Service Center - Jazan" "Jazan"
         "King Fahd Road, Jazan 45142" "+966-17-890-1234" ]);
    ("hail",
     [ mk_ServiceCenter "Lucid Service Center - Hail" "Hail"
         "King Khalid Road, Hail 81451" "+966-16-901-2345" ]);
    ("al-ahsa",
     [ mk_ServiceCenter "Lucid Service Center - Al-Ahsa" "Al-Ahsa"
         "King Fahd Road, Al-Ahsa 31982" "+966-13-012-3456" ]);
    ("khamis-mushait",
     [ mk_ServiceCenter "Lucid Service Center - Khamis Mushait" "Khamis Mushait"
         "King Abdullah Road, Khamis Mushait 61961" "+966-17-123-4567" ]) ].

(** The slot catalogue. The module binds the name twice; this is the
    second binding, the one every reader of the name sees. *)
Definition AVAILABLE_TIME_SLOTS : list TimeSlot :=
  [ TimeSlot_of "10 AM" "July 17th";
    TimeSlot_of "11 AM" "July 17th";
    TimeSlot_of "2 PM" "July 17th";
    TimeSlot_of "3 PM" "July 17th";
    TimeSlot_of "10 AM" "July 18th";
    TimeSlot_of "1 PM" "July 18th";
    TimeSlot_of "4 PM" "July 18th" ].

(** [d.get(key, [])] on the directory *)
Fixpoint dict_get_centers (d : list (string * list ServiceCenter)) (key : string)
  : list ServiceCenter :=
  match d with
  | [] => []
  | (k, v) :: d' => if String.eqb k key then v else dict_get_centers d' key
  end.

Definition get_service_centers_by_city (city : string) : list ServiceCenter :=
  dict_get_centers SERVICE_CENTERS (PyStr.lower city).

(** The loop of [find_city_from_text] over the directory keys. *)
Fixpoint find_city_in (keys : list string) (text_lower : string) : option string :=
  match keys with
  | [] => None
  | city :: keys' =>
      if PyStr.contains city text_lower then Some (PyStr.title city)
      else find_city_in keys' text_lower
  end.

Definition find_city_from_text (text : string) : option string :=
  let text_lower := PyStr.lower text in
  find_city_in (map fst SERVICE_CENTERS) text_lower.

End Models.

(* ===================================================================== *)
(** * JSON values and [json.loads] *)
(* ===================================================================== *)

Module Json.

(** A Python [float]: finite values are kept exact. *)
Inductive pyfloat : Type :=
| Finite (q : Q)
| Infinity (negative : bool)
| NaN.

(** The decimal [m * 10^(-e)], as a float literal such as [0.8]. *)
Definition dec (m : Z) (e : nat) : pyfloat :=
  Finite (Qred (m # Pos.of_nat (10 ^ e))).

(** What [json.loads] can return. A [dict] keeps its keys in insertion
    order; each key occurs once. *)
Inductive json : Type :=
| JNull
| JBool (b : bool)
| JInt (z : Z)
| JFloat (f : pyfloat)
| JStr (s : string)
| JList (l : list json)
| JDict (d : list (string * json)).

(** [d[k] = v] *)
Fixpoint dict_set {V : Type} (k : string) (v : V) (d : list (string * V))
  : list (string * V) :=
  match d with
  | [] => [(k, v)]
  | (k', v') :: d' =>
      if String.eqb k' k then (k', v) :: d' else (k', v') :: dict_set k v d'
  end.

(** [d.get(k)] *)
Fixpoint dict_get {V : Type} (k : string) (d : list (string * V)) : option V :=
  match d with
  | [] => None
  | (k', v') :: d' => if String.eqb k' k then Some v' else dict_get k d'
  end.

(** [k in d] *)
Definition dict_has {V : Type} (k : string) (d : list (string * V)) : bool :=
  match dict_get k d with Some _ => true | None => false end.

Definition float_truthy (f : pyfloat) : bool :=
  match f with
  | Finite q => negb (Qeq_bool q 0)
  | _ => true
  end.

(** Truth value of a Python object, as [if value:] tests it. *)
Definition truthy (v : json) : bool :=
  match v with
  | JNull => false
  | JBool b => b
  | JInt z => negb (z =? 0)%Z
  | JFloat f => float_truthy f
  | JStr s => negb (String.eqb s "")
  | JList l => match l with [] => false | _ => true end
  | JDict d => match d with [] => false | _ => true end
  end.

(** ** Numbers *)

(** The least magnitude that rounds to an infinite float, 2^1024 -
    2^970, which is also the least magnitude of an [int] that
    [float(int)] refuses. *)
Definition float_overflow : Z := 2 ^ 1024 - 2 ^ 970.

(** The largest magnitude that rounds to zero, 2^-1075. *)
Definition float_underflow : Q := 1 # (2 ^ 1075).

(** The float a decimal text of value [q] is read as. Whether the
    result is infinite, zero or neither is as in Python; a value that
    is neither is kept exact, not rounded to the nearest float. *)
Definition to_float (q : Q) : pyfloat :=
  if Qle_bool (inject_Z float_overflow) q then Infinity false
  else if Qle_bool q (inject_Z (- float_overflow)) then Infinity true
  else if Qle_bool (- float_underflow) q && Qle_bool q float_underflow then Finite 0
  else Finite q.

Definition digit_value (c : ascii) : Z := Z.of_N (N_of_ascii c) - 48.

(** The longest prefix of decimal digits, and what follows it. *)
Fixpoint span_digits (s : string) : string * string :=
  match s with
  | String c s' =>
      if PyStr.is_digit c
      then let '(ds, rest) := span_digits s' in (String c ds, rest)
      else (EmptyString, s)
  | EmptyString => (EmptyString, EmptyString)
  end.

Fixpoint Z_of_digits_from (acc : Z) (ds : string) : Z :=
  match ds with
  | EmptyString => acc
  | String c ds' => Z_of_digits_from (10 * acc + digit_value c) ds'
  end.

Definition Z_of_digits (ds : string) : Z := Z_of_digits_from 0 ds.

(** The value of sign, integer digits, fraction digits and exponent. *)
Definition decimal_value (negative : bool) (int_ds frac_ds : string) (exp : Z) : Q :=
  let mant := Z_of_digits (int_ds +:+ frac_ds) in
  let mant := if negative then (- mant)%Z else mant in
  let e := (exp - Z.of_nat (String.length frac_ds))%Z in
  Qred (if (0 <=? e)%Z then (mant * 10 ^ e)%Z # 1
        else mant # Z.to_pos (10 ^ (- e))).

(** An optional fraction [.digits]: consumed only with a digit after
    the point. *)
Definition scan_frac (s : string) : string * string :=
  match s with
  | String "." s' =>
      match span_digits s' with
      | (EmptyString, _) => (EmptyString, s)
      | (ds, rest) => (ds, rest)
      end
  | _ => (EmptyString, s)
  end.

(** An optional exponent [e], [e+] or [e-] followed by digits: consumed
    only when the digits are there. *)
Definition scan_exp (s : string) : option Z * string :=
  match s with
  | String c s' =>
      if Ascii.eqb c "e" || Ascii.eqb c "E" then
        let '(negative, s'') :=
          match s' with
          | String "-" r => (true, r)
          | String "+" r => (false, r)
          | _ => (false, s')
          end in
        match span_digits s'' with
        | (EmptyString, _) => (None, s)
        | (ds, rest) =>
            (Some (if negative then (- Z_of_digits ds)%Z else Z_of_digits ds), rest)
        end
      else (None, s)
  | EmptyString => (None, s)
  end.

(** The integer part of a JSON number: [0], or a non-zero digit and
    more digits. *)
Definition scan_int (s : string) : option (string * string) :=
  match s with
  | String "0" s' => Some ("0", s')
  | String c _ =>
      if PyStr.is_digit c then Some (span_digits s) else None
  | EmptyString => None
  end.

(** A JSON number at the head of [s]: an [int] without fraction and
    exponent, a [float] with one of them. *)
Definition scan_number (s : string) : option (json * string) :=
  let '(negative, s1) :=
    match s with String "-" r => (true, r) | _ => (false, s) end in
  '(int_ds, s2) ← scan_int s1;
  let '(frac_ds, s3) := scan_frac s2 in
  let '(exp, s4) := scan_exp s3 in
  match frac_ds, exp with
  | EmptyString, None =>
      Some (JInt (if negative then - Z_of_digits int_ds else Z_of_digits int_ds)%Z, s4)
  | _, _ =>
      Some (JFloat (to_float (decimal_value negative int_ds frac_ds (default 0%Z exp))), s4)
  end.

(** ** Strings *)

Definition hex_value (c : ascii) : option N :=
  let n := N_of_ascii c in
  if PyStr.is_digit c then Some (n - 48)%N
  else if ((97 <=? n) && (n <=? 102))%N then Some (n - 87)%N
  else if ((65 <=? n) && (n <=? 70))%N then Some (n - 55)%N
  else None.

(** Four hexadecimal digits. *)
Definition scan_hex4 (s : string) : option (N * string) :=
  match s with
  | String a (String b (String c (String d rest))) =>
      a ← hex_value a; b ← hex_value b; c ← hex_value c; d ← hex_value d;
      Some (((a * 16 + b) * 16 + c) * 16 + d, rest)%N
  | _ => None
  end.

(** The UTF-8 bytes of a code point. *)
Definition utf8 (cp : N) : string :=
  let byte (n : N) := String (ascii_of_N n) EmptyString in
  (if cp <? 128 then byte cp
   else if cp <? 2048 then byte (192 + cp / 64) +:+ byte (128 + cp mod 64)
   else if cp <? 65536 then
     byte (224 + cp / 4096) +:+ byte (128 + (cp / 64) mod 64) +:+ byte (128 + cp mod 64)
   else
     byte (240 + cp / 262144) +:+ byte (128 + (cp / 4096) mod 64)
     +:+ byte (128 + (cp / 64) mod 64) +:+ byte (128 + cp mod 64))%N.

(** What follows [\u]: one code unit, or a surrogate pair. *)
Definition scan_unicode_escape (s : string) : option (string * string) :=
  '(hi, rest) ← scan_hex4 s;
  if ((55296 <=? hi) && (hi <=? 56319))%N then
    match rest with
    | String "\" (String "u" rest') =>
        match scan_hex4 rest' with
        | Some (lo, rest'') =>
            if ((56320 <=? lo) && (lo <=? 57343))%N
            then Some (utf8 (65536 + (hi - 55296) * 1024 + (lo - 56320))%N, rest'')
            else Some (utf8 hi, rest)
        | None => Some (utf8 hi, rest)
        end
    | _ => Some (utf8 hi, rest)
    end
  else Some (utf8 hi, rest).

(** The body of a string literal, after its opening quote, up to and
    including the closing quote. *)
Fixpoint scan_string (fuel : nat) (s : string) : option (string * string) :=
  match fuel with
  | O => None
  | S fuel' =>
      match s with
      | EmptyString => None
      | String c rest =>
          if Ascii.eqb c "034" then Some (EmptyString, rest)
          else if Ascii.eqb c "\" then
            match rest with
            | String e rest' =>
                let continue (decoded : string) (r : string) :=
                  '(tl, r') ← scan_string fuel' r; Some (decoded +:+ tl, r') in
                let one (n : nat) := String (ascii_of_nat n) EmptyString in
                if Ascii.eqb e "034" then continue (one 34) rest'
                else if Ascii.eqb e "\" then continue (one 92) rest'
                else if Ascii.eqb e "/" then continue (one 47) rest'
                else if Ascii.eqb e "b" then continue (one 8) rest'
                else if Ascii.eqb e "f" then continue (one 12) rest'
                else if Ascii.eqb e "n" then continue (one 10) rest'
                else if Ascii.eqb e "r" then continue (one 13) rest'
                else if Ascii.eqb e "t" then continue (one 9) rest'
                else if Ascii.eqb e "u" then
                  '(decoded, r) ← scan_unicode_escape rest'; continue decoded r
                else None
            | EmptyString => None
            end
          else if (nat_of_ascii c <? 32)%nat then None
          else '(tl, r') ← scan_string fuel' rest; Some (String c tl, r')
      end
  end.

(** ** Values *)

Definition is_ws (c : ascii) : bool :=
  Ascii.eqb c " " || Ascii.eqb c "009" || Ascii.eqb c "010" || Ascii.eqb c "013".

Definition skip_ws (s : string) : string := PyStr.lstrip_by is_ws s.

Definition literal (word : string) (v : json) (s : string) : option (json * string) :=
  if PyStr.startswith word s
  then Some (v, String.substring (String.length word) (String.length s) s)
  else None.

Fixpoint scan_value (fuel : nat) (s : string) : option (json * string) :=
  match fuel with
  | O => None
  | S fuel' =>
      match s with
      | EmptyString => None
      | String c rest =>
          if Ascii.eqb c "034" then
            '(str, r) ← scan_string (S (String.length rest)) rest; Some (JStr str, r)
          else if Ascii.eqb c "{" then
            match skip_ws rest with
            | String "}" r => Some (JDict [], r)
            | r => scan_members fuel' r []
            end
          else if Ascii.eqb c "[" then
            match skip_ws rest with
            | String "]" r => Some (JList [], r)
            | r => scan_elements fuel' r []
            end
          else if Ascii.eqb c "n" then literal "null" JNull s
          else if Ascii.eqb c "t" then literal "true" (JBool true) s
          else if Ascii.eqb c "f" then literal "false" (JBool false) s
          else if Ascii.eqb c "N" then literal "NaN" (JFloat NaN) s
          else if Ascii.eqb c "I" then literal "Infinity" (JFloat (Infinity false)) s
          else if PyStr.startswith "-Infinity" s
          then literal "-Infinity" (JFloat (Infinity true)) s
          else scan_number s
      end
  end

(** The elements of an array from the first one on; [acc] holds the
    elements read so far. *)
with scan_elements (fuel : nat) (s : string) (acc : list json)
  : option (json * string) :=
  match fuel with
  | O => None
  | S fuel' =>
      '(v, r) ← scan_value fuel' s;
      match skip_ws r with
      | String "]" r' => Some (JList (acc ++ [v]), r')
      | String "," r' => scan_elements fuel' (skip_ws r') (acc ++ [v])
      | _ => None
      end
  end

(** The members of an object from the first key on. *)
with scan_members (fuel : nat) (s : string) (acc : list (string * json))
  : option (json * string) :=
  match fuel with
  | O => None
  | S fuel' =>
      match s with
      | String c rest =>
          if Ascii.eqb c "034" then
            '(key, r) ← scan_string (S (String.length rest)) rest;
            match skip_ws r with
            | String ":" r1 =>
                '(v, r2) ← scan_value fuel' (skip_ws r1);
                match skip_ws r2 with
                | String "}" r3 => Some (JDict (dict_set key v acc), r3)
                | String "," r3 => scan_members fuel' (skip_ws r3) (dict_set key v acc)
                | _ => None
                end
            | _ => None
            end
          else None
      | EmptyString => None
      end
  end.

(** [json.loads(s)]; [None] is [json.JSONDecodeError]. Every nested
    call consumes a character, so twice the length of the text is fuel
    enough. *)
Definition loads (s : string) : option json :=
  '(v, rest) ← scan_value (2 * String.length s + 2) (skip_ws s);
  match skip_ws rest with
  | EmptyString => Some v
  | _ => None
  end.

(** ** [float(s)] *)

(** The longest prefix of decimal digits in which single underscores
    may stand between two digits; the digits without the underscores,
    and what follows. *)
Fixpoint span_grouped_digits (s : string) : string * string :=
  match s with
  | String c s' =>
      if PyStr.is_digit c then
        match s' with
        | String "_" (String d _ as s'') =>
            if PyStr.is_digit d
            then let '(ds, rest) := span_grouped_digits s'' in (String c ds, rest)
            else (String c EmptyString, s')
        | _ => let '(ds, rest) := span_grouped_digits s' in (String c ds, rest)
        end
      else (EmptyString, s)
  | EmptyString => (EmptyString, EmptyString)
  end.

(** The exponent of a float literal, as [scan_exp] with grouped
    digits. *)
Definition scan_float_exp (s : string) : option Z * string :=
  match s with
  | String c s' =>
      if Ascii.eqb c "e" || Ascii.eqb c "E" then
        let '(negative, s'') :=
          match s' with
          | String "-" r => (true, r)
          | String "+" r => (false, r)
          | _ => (false, s')
          end in
        match span_grouped_digits s'' with
        | (EmptyString, _) => (None, s)
        | (ds, rest) =>
            (Some (if negative then (- Z_of_digits ds)%Z else Z_of_digits ds), rest)
        end
      else (None, s)
  | EmptyString => (None, s)
  end.

(** The digits, point and exponent of a decimal literal, all of [s]:
    digits with an optional point and more digits, or a point and
    digits, then an optional exponent. *)
Definition scan_decimal (negative : bool) (s : string) : option pyfloat :=
  let '(int_ds, s1) := span_grouped_digits s in
  let '(frac_ds, s2) :=
    match s1 with
    | String "." r => span_grouped_digits r
    | _ => (EmptyString, s1)
    end in
  match int_ds +:+ frac_ds with
  | EmptyString => None
  | _ =>
      let '(exp, s3) := scan_float_exp s2 in
      match s3 with
      | EmptyString =>
          Some (to_float (decimal_value negative int_ds frac_ds (default 0%Z exp)))
      | _ => None
      end
  end.

(** [float(s)] on a string; [None] is [ValueError]. *)
Definition parse_float (s : string) : option pyfloat :=
  let s := PyStr.strip s in
  let '(negative, body) :=
    match s with
    | String "-" r => (true, r)
    | String "+" r => (false, r)
    | _ => (false, s)
    end in
  let word := PyStr.lower body in
  if String.eqb word "inf" || String.eqb word "infinity" then Some (Infinity negative)
  else if String.eqb word "nan" then Some NaN
  else scan_decimal negative body.

End Json.

(* ===================================================================== *)
(** * Regular expressions ([re]) *)
(* ===================================================================== *)

Module Re.

(** The patterns of the service, as syntax trees. A repetition is
    greedy or lazy; a group is numbered as in the pattern. *)
Inductive regex : Type :=
| Eps
| Chr (p : ascii -> bool)
| Seq (a b : regex)
| Alt (a b : regex)
| Star (greedy : bool) (a : regex)
| Group (i : nat) (a : regex).

Definition groups : Type := list (nat * string).

Fixpoint set_group (i : nat) (v : string) (g : groups) : groups :=
  match g with
  | [] => [(i, v)]
  | (j, w) :: g' => if (i =? j)%nat then (j, v) :: g' else (j, w) :: set_group i v g'
  end.

(** [m.group(i)] of a group that took part in the match *)
Fixpoint group (i : nat) (g : groups) : string :=
  match g with
  | [] => EmptyString
  | (j, w) :: g' => if (i =? j)%nat then w else group i g'
  end.

(** What was read from [s] when [rest] is left of it. *)
Definition consumed (s rest : string) : string :=
  String.substring 0 (String.length s - String.length rest) s.

(** Backtracking matcher: the alternatives are tried in the order of
    the [re] module (left branch first, longest repetition first when
    greedy, shortest first when lazy) and the first one the
    continuation [k] accepts is the match. *)
Fixpoint run {R : Type} (r : regex) (s : string) (g : groups)
    (k : string -> groups -> option R) : option R :=
  match r with
  | Eps => k s g
  | Chr p =>
      match s with
      | String c s' => if p c then k s' g else None
      | EmptyString => None
      end
  | Seq a b => run a s g (fun s1 g1 => run b s1 g1 k)
  | Alt a b =>
      match run a s g k with
      | Some x => Some x
      | None => run b s g k
      end
  | Star greedy a =>
      (fix loop (n : nat) (s : string) (g : groups) {struct n} : option R :=
         match n with
         | O => k s g
         | S n' =>
             let again :=
               run a s g (fun s1 g1 =>
                 if (String.length s1 <? String.length s)%nat
                 then loop n' s1 g1 else None) in
             if greedy
             then match again with Some x => Some x | None => k s g end
             else match k s g with Some x => Some x | None => again end
         end) (String.length s) s g
  | Group i a => run a s g (fun s1 g1 => k s1 (set_group i (consumed s s1) g1))
  end.

(** A match: its text, its groups, and the text after it. *)
Definition match_result : Type := (string * groups * string)%type.

(** [pattern.match(s)] at the head of [s] *)
Definition match_at (r : regex) (s : string) : option match_result :=
  run r s [] (fun rest g => Some (consumed s rest, g, rest)).

(** [re.search(pattern, s)]: the match at the leftmost position that
    has one. *)
Fixpoint search (r : regex) (s : string) : option match_result :=
  match match_at r s with
  | Some m => Some m
  | None =>
      match s with
      | EmptyString => None
      | String _ s' => search r s'
      end
  end.

(** [re.findall(pattern, s)] for a pattern without groups: the texts
    of the successive matches, left to right, without overlap. *)
Fixpoint findall_from (fuel : nat) (r : regex) (s : string) : list string :=
  match fuel with
  | O => []
  | S fuel' =>
      let skip :=
        match s with
        | EmptyString => []
        | String _ s' => findall_from fuel' r s'
        end in
      match match_at r s with
      | Some (EmptyString, _, _) => EmptyString :: skip
      | Some (m, _, rest) => m :: findall_from fuel' r rest
      | None => skip
      end
  end.

Definition findall (r : regex) (s : string) : list string :=
  findall_from (S (String.length s)) r s.

(** A replacement template: literal text and group references. *)
Inductive piece : Type :=
| Lit (text : string)
| Ref (i : nat).

Fixpoint expand (tmpl : list piece) (g : groups) : string :=
  match tmpl with
  | [] => EmptyString
  | Lit text :: t => text +:+ expand t g
  | Ref i :: t => group i g +:+ expand t g
  end.

(** [re.sub(pattern, repl, s)] *)
Fixpoint sub_from (fuel : nat) (r : regex) (tmpl : list piece) (s : string) : string :=
  match fuel with
  | O => s
  | S fuel' =>
      let skip (before : string) :=
        match s with
        | EmptyString => before
        | String c s' => before +:+ String c (sub_from fuel' r tmpl s')
        end in
      match match_at r s with
      | Some (EmptyString, g, _) => skip (expand tmpl g)
      | Some (_, g, rest) => expand tmpl g +:+ sub_from fuel' r tmpl rest
      | None => skip EmptyString
      end
  end.

Definition sub (r : regex) (tmpl : list piece) (s : string) : string :=
  sub_from (S (String.length s)) r tmpl s.

(** ** Pattern syntax *)

Fixpoint seq (rs : list regex) : regex :=
  match rs with
  | [] => Eps
  | [r] => r
  | r :: rs' => Seq r (seq rs')
  end.

(** [a?] *)
Definition opt (a : regex) : regex := Alt a Eps.

(** [a+] *)
Definition plus (a : regex) : regex := Seq a (Star true a).

(** [a*] *)
Definition star (a : regex) : regex := Star true a.

(** One literal character. *)
Definition chr (c : ascii) : regex := Chr (Ascii.eqb c).

(** One literal character under [re.IGNORECASE]. *)
Definition chr_i (c : ascii) : regex :=
  Chr (fun x => Ascii.eqb (PyStr.lower_char x) (PyStr.lower_char c)).

(** A literal word under [re.IGNORECASE]. *)
Fixpoint word_i (w : string) : regex :=
  match w with
  | EmptyString => Eps
  | String c EmptyString => chr_i c
  | String c w' => Seq (chr_i c) (word_i w')
  end.

(** [.] under [re.DOTALL] *)
Definition any : regex := Chr (fun _ => true).

(** [\s] *)
Definition space : regex := Chr PyStr.is_space.

(** [\w] *)
Definition word_char : regex :=
  Chr (fun c => PyStr.is_alpha c || PyStr.is_digit c || Ascii.eqb c "_").

(** [[...]] *)
Definition one_of (cs : list ascii) : regex :=
  Chr (fun c => existsb (Ascii.eqb c) cs).

(** [[^...]] *)
Definition none_of (cs : list ascii) : regex :=
  Chr (fun c => negb (existsb (Ascii.eqb c) cs)).

End Re.

(* ===================================================================== *)
(** * appointment_service.py *)
(* ===================================================================== *)

Module AppointmentService.

Import PyDatetime Models Json.

Definition dq : ascii := "034".

(** [class IntentAnalysis(BaseModel)] *)
Record IntentAnalysis : Type := mk_IntentAnalysis {
  intent : string;
  ia_city : option string;
  time_preference : option string;
  center_preference : option string;
  confidence : pyfloat;
  reasoning : option string
}.

(** [IntentAnalysis(intent=label, confidence=c)], the other fields at
    their defaults. *)
Definition IntentAnalysis_basic (label : string) (c : pyfloat) : IntentAnalysis :=
  mk_IntentAnalysis label None None None c None.

(** ** Structured-response recovery *)

(** The pattern of strategy 2: a fenced block, optionally tagged
    [json], holding a brace-delimited text (lazy), under
    [re.DOTALL | re.IGNORECASE]. *)
Definition code_block_pattern : Re.regex :=
  Re.seq [ Re.word_i "```"; Re.opt (Re.word_i "json"); Re.star Re.space;
           Re.Group 1 (Re.seq [Re.chr "{"; Re.Star false Re.any; Re.chr "}"]);
           Re.star Re.space; Re.word_i "```" ].

(** The pattern of strategy 3: braces with at most one level of
    nesting. *)
Definition json_pattern : Re.regex :=
  let plain := Re.star (Re.none_of ["{"; "}"]%char) in
  Re.seq [ Re.chr "{"; plain;
           Re.star (Re.seq [Re.chr "{"; plain; Re.chr "}"; plain]);
           Re.chr "}" ].

(** A comma, blanks, and a closing bracket (kept as group 1). *)
Definition trailing_comma_pattern : Re.regex :=
  Re.seq [ Re.chr ","; Re.star Re.space; Re.Group 1 (Re.one_of ["}"; "]"]%char) ].

(** A bare word (group 1), a colon, blanks. *)
Definition bare_key_pattern : Re.regex :=
  Re.seq [ Re.Group 1 (Re.plus Re.word_char); Re.chr ":"; Re.star Re.space ].

(** A quoted word (group 1), blanks, a colon, blanks. *)
Definition quoted_key_pattern : Re.regex :=
  Re.seq [ Re.chr dq; Re.Group 1 (Re.plus Re.word_char); Re.chr dq;
           Re.star Re.space; Re.chr ":"; Re.star Re.space ].

(** The replacement text of both key repairs: the word in quotes, a
    colon and one blank. *)
Definition quoted_key_template : list Re.piece :=
  [ Re.Lit (String dq EmptyString); Re.Ref 1; Re.Lit (String dq ": ") ].

(** The pattern of strategy 4 for the field [name]: the name with
    optional quotes, a colon, an optional quote, and a value (group 1)
    running up to a quote, comma or closing brace; case-insensitive. *)
Definition field_pattern (name : string) : Re.regex :=
  Re.seq [ Re.opt (Re.chr dq); Re.word_i name; Re.opt (Re.chr dq);
           Re.star Re.space; Re.chr ":"; Re.star Re.space; Re.opt (Re.chr dq);
           Re.Group 1 (Re.plus (Re.none_of [dq; ","; "}"]%char));
           Re.opt (Re.chr dq) ].

(** The pattern of strategy 4 for [confidence]: the value (group 1) is
    a run of digits and points. *)
Definition confidence_pattern : Re.regex :=
  Re.seq [ Re.opt (Re.chr dq); Re.word_i "confidence"; Re.opt (Re.chr dq);
           Re.star Re.space; Re.chr ":"; Re.star Re.space;
           Re.Group 1 (Re.plus (Re.Chr (fun c => PyStr.is_digit c || Ascii.eqb c "."))) ].

(** Strategy 1: the whole response, stripped, as JSON. *)
Definition parse_direct (response : string) : option json :=
  Json.loads (PyStr.strip response).

(** Strategy 2: the braces of the first fenced block, as JSON. *)
Definition parse_code_block (response : string) : option json :=
  match Re.search code_block_pattern response with
  | Some (_, g, _) => Json.loads (Re.group 1 g)
  | None => None
  end.

(** The three textual repairs of strategy 3, in sequence. *)
Definition repair (candidate : string) : string :=
  let cleaned := PyStr.strip candidate in
  let cleaned := Re.sub trailing_comma_pattern [Re.Ref 1] cleaned in
  let cleaned := Re.sub bare_key_pattern quoted_key_template cleaned in
  let cleaned := Re.sub quoted_key_pattern quoted_key_template cleaned in
  cleaned.

(** The loop of strategy 3: the first candidate that parses once
    repaired. *)
Fixpoint first_repaired (candidates : list string) : option json :=
  match candidates with
  | [] => None
  | candidate :: rest =>
      match Json.loads (repair candidate) with
      | Some v => Some v
      | None => first_repaired rest
      end
  end.

(** Strategy 3: brace-delimited candidates in the text. *)
Definition parse_json_like (response : string) : option json :=
  first_repaired (Re.findall json_pattern response).

(** Group 1 of a match, stripped of blanks and then of quote
    characters at both ends. *)
Definition field_text (g : Re.groups) : string :=
  PyStr.strip_char dq (PyStr.strip (Re.group 1 g)).

(** The guard of the three optional text fields: a match whose value,
    lower-cased, is none of [null], [none] and the empty text. *)
Definition extract_optional (name : string) (response : string)
    (extracted : list (string * json)) : list (string * json) :=
  match Re.search (field_pattern name) response with
  | Some (_, g, _) =>
      if negb (PyStr.in_list (PyStr.lower (Re.group 1 g)) ["null"; "none"; ""])
      then dict_set name (JStr (field_text g)) extracted
      else extracted
  | None => extracted
  end.

(** Strategy 4: field-by-field extraction; succeeds with an [intent]. *)
Definition extract_fields (response : string) : option (list (string * json)) :=
  let extracted : list (string * json) := [] in
  let extracted :=
    match Re.search (field_pattern "intent") response with
    | Some (_, g, _) => dict_set "intent" (JStr (field_text g)) extracted
    | None => extracted
    end in
  let extracted := extract_optional "city" response extracted in
  let extracted := extract_optional "time_preference" response extracted in
  let extracted := extract_optional "center_preference" response extracted in
  let extracted :=
    match Re.search confidence_pattern response with
    | Some (_, g, _) =>
        dict_set "confidence"
          (JFloat (default (dec 5 1) (Json.parse_float (Re.group 1 g)))) extracted
    | None => extracted
    end in
  if dict_has "intent" extracted then Some extracted else None.

(** [sanitize_llm_json_response(response)]. The Python [None] it
    returns is [JNull]. *)
Definition sanitize_llm_json_response (response : string) : json :=
  if String.eqb response "" then JNull
  else
    match parse_direct response with
    | Some v => v
    | None =>
        match parse_code_block response with
        | Some v => v
        | None =>
            match parse_json_like response with
            | Some v => v
            | None =>
                match extract_fields response with
                | Some extracted => JDict extracted
                | None => JNull
                end
            end
        end
    end.

(** ** Typed construction *)

(** Whether [str(value).lower()] is one of [null], [none] and the
    empty text, for a value that is true: only a string can print as
    one of these. *)
Definition prints_as_null (value : json) : bool :=
  match value with
  | JStr s => PyStr.in_list (PyStr.lower s) ["null"; "none"; ""]
  | _ => false
  end.

(** The cleaning loop of [analyze_intent]. *)
Definition clean_data (json_data : list (string * json)) : list (string * json) :=
  fold_left
    (fun cleaned_data '(key, value) =>
       if Json.truthy value && negb (prints_as_null value)
       then dict_set key value cleaned_data
       else cleaned_data)
    json_data [].

(** Validation of a field declared [str]. *)
Definition validate_str (v : json) : option string :=
  match v with
  | JStr s => Some s
  | _ => None
  end.

(** Validation of a field declared [Optional[str]] with default
    [None]; the outer [None] is a validation error. *)
Definition validate_optional_str (o : option json) : option (option string) :=
  match o with
  | None | Some JNull => Some None
  | Some (JStr s) => Some (Some s)
  | Some _ => None
  end.

(** Validation of a field declared [float]: a float as it is, an
    [int] converted unless it is too large for a float, booleans and
    numeric text converted. *)
Definition validate_float (v : json) : option pyfloat :=
  match v with
  | JFloat f => Some f
  | JInt z => if (Z.abs z <? Json.float_overflow)%Z then Some (Finite (z # 1)) else None
  | JBool b => Some (Finite (if b then 1 else 0))
  | JStr s => Json.parse_float s
  | _ => None
  end.

(** [IntentAnalysis] built from the keyword arguments [data]; [None]
    is [ValidationError]. Keys that are no field of the model are
    ignored. *)
Definition IntentAnalysis_validate (data : list (string * json)) : option IntentAnalysis :=
  label ← dict_get "intent" data ≫= validate_str;
  city ← validate_optional_str (dict_get "city" data);
  time ← validate_optional_str (dict_get "time_preference" data);
  center ← validate_optional_str (dict_get "center_preference" data);
  conf ← match dict_get "confidence" data with
         | None => Some (dec 5 1)
         | Some v => validate_float v
         end;
  why ← validate_optional_str (dict_get "reasoning" data);
  Some (mk_IntentAnalysis label city time center conf why).

(** ** Keyword heuristics *)

Definition booking_keywords : list string :=
  ["book"; "schedule"; "appointment"; "service"; "servicing"; "check-up"; "maintenance"].

Definition greeting_keywords : list string :=
  ["hello"; "hi"; "hey"; "good morning"; "good afternoon"].

Definition time_keywords : list string :=
  ["am"; "pm"; "morning"; "afternoon"; "evening"].

Definition _fallback_intent_analysis (message : string) (context : AppointmentContext)
  : IntentAnalysis :=
  let message_lower := PyStr.lower message in
  if PyStr.any_in booking_keywords message_lower then
    let city := find_city_from_text message in
    mk_IntentAnalysis "booking" city None None (dec 8 1) None
  else if PyStr.any_in greeting_keywords message_lower then
    IntentAnalysis_basic "greeting" (dec 9 1)
  else
    let city := find_city_from_text message in
    if PyStr.truthy city || state_eqb (state context) WAITING_LOCATION then
      mk_IntentAnalysis "location" city None None (dec 7 1) None
    else if PyStr.any_in time_keywords message_lower
            || state_eqb (state context) WAITING_TIME_SLOT then
      mk_IntentAnalysis "time_selection" None (Some message) None (dec 7 1) None
    else IntentAnalysis_basic "other" (dec 5 1).

(** [analyze_intent(message, context)]. The outcome of the call of the
    text-generation chain is the argument [llm]: [None] when the call
    raised, the response text otherwise. *)
Definition analyze_intent (llm : option string) (message : string)
    (context : AppointmentContext) : IntentAnalysis :=
  let fallback := _fallback_intent_analysis message context in
  match llm with
  | None => fallback
  | Some response =>
      let json_data := sanitize_llm_json_response response in
      if Json.truthy json_data then
        match json_data with
        | JDict d =>
            match IntentAnalysis_validate (clean_data d) with
            | Some analysis => analysis
            | None => fallback
            end
        | _ => fallback (* [.items()] raises, the outer handler catches *)
        end
      else fallback
  end.

(** ** The Appointment Recorder *)

(** One row of appointments.csv. *)
Record AppointmentRow : Type := mk_AppointmentRow {
  row_user_id : string;
  row_city : string;
  row_center : string;
  row_date : string;
  row_time : string;
  row_booking_timestamp : string
}.

(** The row [_record_appointment(context)] appends when the clock
    reads [now]. *)
Definition appointment_row (context : AppointmentContext) (now : datetime)
  : AppointmentRow :=
  mk_AppointmentRow
    (user_id context)
    (default "" (PyStr.or_else (city context) (Some "")))
    (match selected_center context with
     | Some c => ServiceCenter_str c
     | None => ""
     end)
    (match selected_time_slot context with Some t => ts_date t | None => "" end)
    (match selected_time_slot context with Some t => ts_time t | None => "" end)
    (isoformat_seconds now).

(** [_record_appointment(context)]: one more call in the trace. *)
Definition _record_appointment (context : AppointmentContext) (now : datetime)
    (calls : list AppointmentRow) : list AppointmentRow :=
  calls ++ [appointment_row context now].

(** ** The conversation state machine *)

(** The loop over the centres of the city: the first one whose
    lower-cased name contains the lower-cased preference. *)
Fixpoint match_center (pref_lower : string) (centers_in_city : list ServiceCenter)
  : option ServiceCenter :=
  match centers_in_city with
  | [] => None
  | center :: rest =>
      if PyStr.contains pref_lower (PyStr.lower (sc_name center)) then Some center
      else match_center pref_lower rest
  end.

(** The loop over the slots: the first one whose lower-cased time
    label is in the lower-cased preference or contains it. *)
Fixpoint match_slot (pref_lower : string) (slots : list TimeSlot) : option TimeSlot :=
  match slots with
  | [] => None
  | slot :: rest =>
      if PyStr.contains (PyStr.lower (ts_time slot)) pref_lower
         || PyStr.contains pref_lower (PyStr.lower (ts_time slot))
      then Some slot
      else match_slot pref_lower rest
  end.

(** Truth value of an optional model object: set. *)
Definition is_set {A : Type} (o : option A) : bool :=
  match o with Some _ => true | None => false end.

(** Rule 1: adopt the city of the intent when the context has none. *)
Definition adopt_city (intent_ : IntentAnalysis) (context : AppointmentContext)
  : AppointmentContext :=
  if PyStr.truthy (ia_city intent_) && negb (PyStr.truthy (city context))
  then set_city (ia_city intent_) context
  else context.

(** Rule 2: select the centre the preference names. *)
Definition adopt_center (intent_ : IntentAnalysis) (context : AppointmentContext)
  : AppointmentContext :=
  match center_preference intent_, city context with
  | Some pref, Some city_name =>
      if PyStr.truthy (Some pref) && PyStr.truthy (Some city_name) then
        let centers_in_city := get_service_centers_by_city city_name in
        match match_center (PyStr.lower pref) centers_in_city with
        | Some center => set_selected_center (Some center) context
        | None => context
        end
      else context
  | _, _ => context
  end.

(** Rule 3: select the slot the preference names. *)
Definition adopt_time_slot (intent_ : IntentAnalysis) (context : AppointmentContext)
  : AppointmentContext :=
  match time_preference intent_ with
  | Some pref =>
      if PyStr.truthy (Some pref) then
        match match_slot (PyStr.lower pref) AVAILABLE_TIME_SLOTS with
        | Some slot => set_selected_time_slot (Some slot) context
        | None => context
        end
      else context
  | None => context
  end.

(** Rule 4: advance the state by the intent label. *)
Definition advance_state (intent_ : IntentAnalysis) (context : AppointmentContext)
  : AppointmentContext :=
  if String.eqb (intent intent_) "greeting" then
    if PyStr.truthy (city context) && state_eqb (state context) INITIAL
    then set_state WAITING_CENTER_SELECTION context
    else context
  else if String.eqb (intent intent_) "booking" then
    if negb (PyStr.truthy (city context)) then set_state WAITING_LOCATION context
    else if negb (is_set (selected_center context))
    then set_state WAITING_CENTER_SELECTION context
    else if negb (is_set (selected_time_slot context))
    then set_state WAITING_TIME_SLOT context
    else context
  else if String.eqb (intent intent_) "location" then
    set_state WAITING_CENTER_SELECTION context
  else if String.eqb (intent intent_) "center_selection" then
    set_state WAITING_TIME_SLOT context
  else if String.eqb (intent intent_) "time_selection" then
    if is_set (selected_center context)
    then set_state CONFIRMING_APPOINTMENT context
    else context
  else if String.eqb (intent intent_) "confirmation" then
    set_state COMPLETED context
  else context.

(** Rules 1 to 4 in order. *)
Definition fill_slots (intent_ : IntentAnalysis) (context : AppointmentContext)
  : AppointmentContext :=
  advance_state intent_
    (adopt_time_slot intent_ (adopt_center intent_ (adopt_city intent_ context))).

(** The guard of rule 5. *)
Definition must_record (context : AppointmentContext) : bool :=
  state_eqb (state context) COMPLETED
  && is_set (selected_center context)
  && is_set (selected_time_slot context)
  && negb (appointment_saved context).

(** [update_context_state(context, intent)]. [record_time] and [now]
    are the readings of the clock in the Recorder and at the end of
    the turn; [calls] is the trace of Recorder calls so far. *)
Definition update_context_state (context : AppointmentContext)
    (intent_ : IntentAnalysis) (record_time now : datetime)
    (calls : list AppointmentRow) : AppointmentContext * list AppointmentRow :=
  let context := adopt_city intent_ context in
  let context := adopt_center intent_ context in
  let context := adopt_time_slot intent_ context in
  let context := advance_state intent_ context in
  let '(context, calls) :=
    if must_record context
    then (set_appointment_saved true context,
          _record_appointment context record_time calls)
    else (context, calls) in
  (set_last_message_time now context, calls).

(** ** The location handler *)

(** What a handler answers, without its wording. *)
Inductive Reply : Type :=
| AskCity
| NoCenterIn (city_name : string)
| OfferSlots (center : ServiceCenter)
| ListCenters (city_name : string) (centers : list ServiceCenter)
| AskBookingCity.

(** [_handle_location(intent, context)] *)
Definition _handle_location (intent_ : IntentAnalysis) (context : AppointmentContext)
  : AppointmentContext * Reply :=
  let city_ := PyStr.or_else (ia_city intent_) (city context) in
  match city_ with
  | Some city_name =>
      if negb (PyStr.truthy city_) then (context, AskCity)
      else
        let centers := get_service_centers_by_city city_name in
        match centers with
        | [] => (context, NoCenterIn city_name)
        | first :: others =>
            let context := set_city (Some city_name) context in
            let context := set_state WAITING_CENTER_SELECTION context in
            match others with
            | [] =>
                let context := set_selected_center (Some first) context in
                let context := set_state WAITING_TIME_SLOT context in
                (context, OfferSlots first)
            | _ => (context, ListCenters city_name centers)
            end
        end
  | None => (context, AskCity)
  end.

(** [_handle_booking_request(intent, context)] *)
Definition _handle_booking_request (intent_ : IntentAnalysis)
    (context : AppointmentContext) : AppointmentContext * Reply :=
  if PyStr.truthy (ia_city intent_)
  then _handle_location intent_ (set_city (ia_city intent_) context)
  else (set_state WAITING_LOCATION context, AskBookingCity).

(** ** Turns *)

(** What one turn feeds the state machine: the analysed intent and the
    two clock readings. *)
Record Turn : Type := mk_Turn {
  turn_intent : IntentAnalysis;
  turn_record_time : datetime;
  turn_now : datetime
}.

(** The context of one user and the Recorder trace. *)
Definition Session : Type := (AppointmentContext * list AppointmentRow)%type.

Definition step (s : Session) (t : Turn) : Session :=
  update_context_state (fst s) (turn_intent t) (turn_record_time t) (turn_now t) (snd s).

(** The turns of one user, in arrival order. *)
Definition run_turns (s : Session) (turns : list Turn) : Session :=
  fold_left step turns s.

End AppointmentService.

(* ===================================================================== *)
(** * context_manager.py *)
(* ===================================================================== *)

Module ContextManager.

Import PyDatetime Models Json.

(** What the file system has at a path. A path that is not in the map
    of the manager names no file, and a file can be created there.
    [Unparsable] is a file whose text [json.load] rejects, [Document] a
    file that holds a JSON document, [Undecodable] a file whose bytes
    are no UTF-8 text. [Uncreatable] is a path with no file at which
    none can be created, as when the directory of the path is missing:
    opening it for writing fails. A name the system refuses to look up
    at all, so that [exists] itself raises, is outside the model. *)
Inductive FileContent : Type :=
| Unparsable
| Document (j : json)
| Undecodable
| Uncreatable.

(** The manager: its directory, its cache of contexts, and the files
    of the directory by path. *)
Record ContextManager : Type := mk_ContextManager {
  history_dir : string;
  _contexts : gmap string AppointmentContext;
  files : gmap string FileContent
}.

Definition set_contexts (v : gmap string AppointmentContext) (cm : ContextManager) :=
  mk_ContextManager (history_dir cm) v (files cm).

Definition set_files (v : gmap string FileContent) (cm : ContextManager) :=
  mk_ContextManager (history_dir cm) (_contexts cm) v.

(** The identifier without its channel prefix. *)
Definition clean_user_id (user_id : string) : string :=
  if PyStr.contains ":" user_id then PyStr.after_last ":" user_id else user_id.

Definition context_file (cm : ContextManager) (user_id : string) : string :=
  history_dir cm +:+ "/" +:+ user_id +:+ "_context.json".

Definition history_file (cm : ContextManager) (user_id : string) : string :=
  history_dir cm +:+ "/" +:+ user_id +:+ "_history.json".

(** ** Writing a context *)

Definition optional_str_json (o : option string) : json :=
  match o with Some s => JStr s | None => JNull end.

(** [center.dict()] *)
Definition ServiceCenter_dict (c : ServiceCenter) : json :=
  JDict [ ("name", JStr (sc_name c)); ("city", JStr (sc_city c));
          ("address", JStr (sc_address c)); ("phone", JStr (sc_phone c)) ].

(** [slot.dict()] *)
Definition TimeSlot_dict (t : TimeSlot) : json :=
  JDict [ ("time", JStr (ts_time t)); ("date", JStr (ts_date t));
          ("available", JBool (ts_available t)) ].

(** [context.dict()] with the state replaced by its value and the
    timestamp by its ISO text: the document [_save_context_to_file]
    writes. *)
Definition context_dict (context : AppointmentContext) : json :=
  JDict [ ("user_id", JStr (user_id context));
          ("state", JStr (state_value (state context)));
          ("city", optional_str_json (city context));
          ("selected_center",
            match selected_center context with
            | Some c => ServiceCenter_dict c
            | None => JNull
            end);
          ("selected_time_slot",
            match selected_time_slot context with
            | Some t => TimeSlot_dict t
            | None => JNull
            end);
          ("appointment_saved", JBool (appointment_saved context));
          ("last_message_time", JStr (isoformat (last_message_time context))) ].

(** [open(path, "w")] followed by [json.dump(document, f)] inside a
    [try] whose handler prints the error: where no file can be
    created nothing changes. *)
Definition write_document (cm : ContextManager) (path : string) (document : json)
  : ContextManager :=
  match files cm !! path with
  | Some Uncreatable => cm
  | _ => set_files (<[path := Document document]> (files cm)) cm
  end.

Definition _save_context_to_file (cm : ContextManager) (user_id : string)
    (context : AppointmentContext) : ContextManager :=
  write_document cm (context_file cm user_id) (context_dict context).

(** ** Reading a context *)

(** Validation of a field declared [str]; [None] is a validation error. *)
Definition required_str (key : string) (d : list (string * json)) : option string :=
  match dict_get key d with
  | Some (JStr s) => Some s
  | _ => None
  end.

(** Validation of a field declared [Optional[str]] with default [None]. *)
Definition optional_str (key : string) (d : list (string * json))
  : option (option string) :=
  match dict_get key d with
  | None | Some JNull => Some None
  | Some (JStr s) => Some (Some s)
  | Some _ => None
  end.

(** Validation of a value for a field declared [bool]. *)
Definition validate_bool (v : json) : option bool :=
  match v with
  | JBool b => Some b
  | JInt z => if (z =? 0)%Z then Some false else if (z =? 1)%Z then Some true else None
  | JFloat (Finite q) =>
      if Qeq_bool q 0 then Some false else if Qeq_bool q 1 then Some true else None
  | JStr s =>
      let w := PyStr.lower s in
      if PyStr.in_list w ["0"; "off"; "f"; "false"; "n"; "no"] then Some false
      else if PyStr.in_list w ["1"; "on"; "t"; "true"; "y"; "yes"] then Some true
      else None
  | _ => None
  end.

(** A field declared [bool] with a default. *)
Definition bool_field (key : string) (dflt : bool) (d : list (string * json))
  : option bool :=
  match dict_get key d with
  | None => Some dflt
  | Some v => validate_bool v
  end.

(** Validation of a value for a field declared [ServiceCenter]. *)
Definition ServiceCenter_validate (v : json) : option ServiceCenter :=
  match v with
  | JDict d =>
      name ← required_str "name" d; city_ ← required_str "city" d;
      address ← required_str "address" d; phone ← required_str "phone" d;
      Some (mk_ServiceCenter name city_ address phone)
  | _ => None
  end.

(** Validation of a value for a field declared [TimeSlot]. *)
Definition TimeSlot_validate (v : json) : option TimeSlot :=
  match v with
  | JDict d =>
      time ← required_str "time" d; date ← required_str "date" d;
      available ← bool_field "available" true d;
      Some (mk_TimeSlot time date available)
  | _ => None
  end.

(** A field declared [Optional[T]] with default [None]. *)
Definition optional_model {T : Type} (validate : json -> option T) (key : string)
    (d : list (string * json)) : option (option T) :=
  match dict_get key d with
  | None | Some JNull => Some None
  | Some v => Some <$> validate v
  end.

(** The body of [_load_context_from_file] on the loaded document:
    the state and the timestamp are converted, then the context is
    built and validated. [None] is any of the errors the function
    catches; [now] is the clock for a document without timestamp. *)
Definition context_of_document (data : json) (now : datetime)
  : option AppointmentContext :=
  match data with
  | JDict d =>
      st ← match dict_get "state" d with
           | None => Some INITIAL
           | Some (JStr v) => state_of_value v
           | Some _ => None
           end;
      lmt ← match dict_get "last_message_time" d with
            | None => Some now
            | Some (JStr text) => fromisoformat text
            | Some _ => None
            end;
      uid ← required_str "user_id" d;
      city_ ← optional_str "city" d;
      center ← optional_model ServiceCenter_validate "selected_center" d;
      slot ← optional_model TimeSlot_validate "selected_time_slot" d;
      saved ← bool_field "appointment_saved" false d;
      Some (mk_AppointmentContext uid st city_ center slot saved lmt)
  | _ => None
  end.

Definition _load_context_from_file (cm : ContextManager) (user_id : string)
    (now : datetime) : option AppointmentContext :=
  match files cm !! context_file cm user_id with
  | None | Some Uncreatable => None
  | Some Unparsable => None
  | Some Undecodable => None
  | Some (Document data) => context_of_document data now
  end.

(** [get_context(user_id)]: the context and the manager with its cache
    filled. *)
Definition get_context (cm : ContextManager) (user_id : string) (now : datetime)
  : AppointmentContext * ContextManager :=
  let clean := clean_user_id user_id in
  match _contexts cm !! clean with
  | Some context => (context, cm)
  | None =>
      let context :=
        match _load_context_from_file cm clean now with
        | Some context => context
        | None => new_context clean now
        end in
      (context, set_contexts (<[clean := context]> (_contexts cm)) cm)
  end.

(** [reset_context(user_id)] *)
Definition reset_context (cm : ContextManager) (user_id : string) (now : datetime)
  : ContextManager :=
  let clean := clean_user_id user_id in
  let context := new_context clean now in
  _save_context_to_file (set_contexts (<[clean := context]> (_contexts cm)) cm)
    clean context.

(** The cache emptied, as after a restart of the process. *)
Definition clear_cache (cm : ContextManager) : ContextManager :=
  set_contexts ∅ cm.

(** ** History *)

(** [class ConversationHistory(BaseModel)] *)
Record ConversationHistory : Type := mk_ConversationHistory {
  timestamp : datetime;
  user_message : string;
  bot_response : string;
  context_summary : option json
}.

(** [_get_context_dict(user_id)] on the context of the user *)
Definition _get_context_dict (context : AppointmentContext) : json :=
  JDict [ ("state", JStr (state_value (state context)));
          ("city", optional_str_json (city context));
          ("has_selected_center",
            JBool (match selected_center context with Some _ => true | None => false end));
          ("has_selected_time",
            JBool (match selected_time_slot context with Some _ => true | None => false end)) ].

(** The dictionary [_append_to_history_file] builds from an entry. *)
Definition entry_dict (history_entry : ConversationHistory) : json :=
  JDict [ ("timestamp", JStr (isoformat (timestamp history_entry)));
          ("user_message", JStr (user_message history_entry));
          ("bot_response", JStr (bot_response history_entry));
          ("context", default JNull (context_summary history_entry)) ].

(** [l[-n:]] for a positive [n] *)
Definition last_n {A : Type} (n : nat) (l : list A) : list A :=
  drop (length l - n) l.

(** [_append_to_history_file(user_id, history_entry)]. [None] is an
    exception leaving the function: the file held a document that is
    no list, or bytes that are no text, whose [UnicodeDecodeError] the
    handler of the read does not catch. A failed write is caught and
    printed. *)
Definition _append_to_history_file (cm : ContextManager) (user_id : string)
    (history_entry : ConversationHistory) : option ContextManager :=
  history_data ←
    match files cm !! history_file cm user_id with
    | None | Some Uncreatable => Some []
    | Some Unparsable => Some []
    | Some Undecodable => None
    | Some (Document (JList l)) => Some l
    | Some (Document _) => None
    end;
  let history_data := history_data ++ [entry_dict history_entry] in
  let history_data :=
    if (50 <? length history_data)%nat then last_n 50 history_data
    else history_data in
  Some (write_document cm (history_file cm user_id) (JList history_data)).

(** [save_conversation(user_id, user_message, bot_response)] at time
    [now]. *)
Definition save_conversation (cm : ContextManager) (user_id user_msg bot_msg : string)
    (now : datetime) : option ContextManager :=
  let clean := clean_user_id user_id in
  let '(context, cm) := get_context cm clean now in
  let history_entry :=
    mk_ConversationHistory now user_msg bot_msg (Some (_get_context_dict context)) in
  _append_to_history_file cm clean history_entry.



(** A manager on a directory that holds no file and in which every
    file can be created. *)
Definition new_manager (dir : string) : ContextManager :=
  mk_ContextManager dir ∅ ∅.

End ContextManager.

(* ===================================================================== *)
(** * chatbot.py *)
(* ===================================================================== *)

Module Chatbot.

Import PyDatetime Models Json AppointmentService.

(** What [process_message(user_message, user_id)] does to the context
    of the user and to the Recorder trace: the intent is analysed on
    the context as it stands, then the state machine runs. [llm] is the
    outcome of the text-generation call of the analyser. *)
Definition process_message (s : Session) (llm : option string) (user_message : string)
    (record_time now : datetime) : Session :=
  let context := fst s in
  let intent_ := analyze_intent llm user_message context in
  update_context_state context intent_ record_time now (snd s).

End Chatbot.

(* ===================================================================== *)
(** * Vocabulary of the statements *)
(* ===================================================================== *)

Module Scenario.

Import PyDatetime Models Json AppointmentService ContextManager.

(** The seven intent labels. *)
Definition known_intents : list string :=
  ["booking"; "greeting"; "location"; "center_selection"; "time_selection";
   "confirmation"; "other"].

(** The confidence each rule of the keyword heuristics prescribes. *)
Definition prescribed_confidence (label : string) : pyfloat :=
  if String.eqb label "booking" then dec 8 1
  else if String.eqb label "greeting" then dec 9 1
  else if String.eqb label "location" then dec 7 1
  else if String.eqb label "time_selection" then dec 7 1
  else dec 5 1.

(** A confidence between 0 and 1. *)
Definition in_unit_interval (f : pyfloat) : Prop :=
  match f with
  | Finite q => (0 <= q)%Q /\ (q <= 1)%Q
  | _ => False
  end.

(** The flag and the trace agree. *)
Definition saved_iff_recorded (s : Session) : Prop :=
  length (snd s) = if appointment_saved (fst s) then 1 else 0.

Definition clock0 : datetime := mk_datetime 2025 7 17 9 0 0 0.

Definition riyadh_downtown : ServiceCenter :=
  mk_ServiceCenter "Lucid Service Center - Riyadh Downtown" "Riyadh"
    "King Fahd Road, Riyadh 12345" "+966-11-123-4567".

Definition makkah_center : ServiceCenter :=
  mk_ServiceCenter "Lucid Service Center - Makkah" "Makkah"
    "King Abdulaziz Road, Makkah 21955" "+966-12-345-6789".

Definition slot_10am_july_17 : TimeSlot := TimeSlot_of "10 AM" "July 17th".

(** The fresh session of user U1. *)
Definition U1_fresh : Session := (new_context "U1" clock0, []).

Definition turn_at_clock0 (intent_ : IntentAnalysis) : Turn :=
  mk_Turn intent_ clock0 clock0.

(** The three intents of the end-to-end scenario, and a confirmation. *)
Definition booking_in_riyadh : IntentAnalysis :=
  mk_IntentAnalysis "booking" (Some "Riyadh") None None (dec 8 1) None.

Definition choose_downtown : IntentAnalysis :=
  mk_IntentAnalysis "center_selection" None None (Some "downtown") (dec 9 1) None.

Definition at_10_am : IntentAnalysis :=
  mk_IntentAnalysis "time_selection" None (Some "10 AM") None (dec 7 1) None.

Definition confirm : IntentAnalysis :=
  mk_IntentAnalysis "confirmation" None None None (dec 9 1) None.

Definition three_turns : list Turn :=
  map turn_at_clock0 [booking_in_riyadh; choose_downtown; at_10_am].

(** The scenario with other labels on its second and third turns. *)
Definition three_turns_labelled (label2 label3 : string) : list Turn :=
  map turn_at_clock0
    [ booking_in_riyadh;
      mk_IntentAnalysis label2 None None (Some "downtown") (dec 9 1) None;
      mk_IntentAnalysis label3 None (Some "10 AM") None (dec 7 1) None ].

(** Whether the scenario, so labelled, ends in COMPLETED. *)
Definition completes (label2 label3 : string) : bool :=
  state_eqb (state (fst (run_turns U1_fresh (three_turns_labelled label2 label3))))
    COMPLETED.

(** A location intent naming Makkah. *)
Definition location_makkah : IntentAnalysis :=
  mk_IntentAnalysis "location" (Some "Makkah") None None (dec 7 1) None.

(** A context waiting for the location, no city known. *)
Definition waiting_for_location : AppointmentContext :=
  set_state WAITING_LOCATION (new_context "U1" clock0).



(** Sixty history entries, told apart by their microsecond. *)
Definition numbered_entry (n : nat) : ConversationHistory :=
  mk_ConversationHistory (mk_datetime 2025 7 17 9 0 0 (N.of_nat n)) "message" "response" None.





(** [s] between quote characters. *)
Definition quoted (s : string) : string := String dq (s +:+ String dq EmptyString).

(** A well-formed JSON object with a city and no intent. *)
Definition city_only_response : string :=
  "{" +:+ quoted "city" +:+ ": " +:+ quoted "Riyadh" +:+ "}".

(** A response whose label is no known intent and whose confidence is
    above 1. *)
Definition out_of_range_response : string := "intent: foo, confidence: 7.5".

(** The field [key] of a mapping is absent, null or text. *)
Definition text_or_absent (key : string) (d : list (string * json)) : Prop :=
  match dict_get key d with
  | None | Some JNull | Some (JStr _) => True
  | Some _ => False
  end.

End Scenario.

(* ===================================================================== *)
(** * appointment_service.py: the reply *)
(* ===================================================================== *)

Module Responses.

Import PyDatetime Models Json AppointmentService.

Definition newline : string := String "010" EmptyString.

(** The check mark that opens the confirmation, in UTF-8. *)
Definition check_mark : string :=
  String "226" (String "156" (String "133" EmptyString)).

(** [_generate_confirmation(context)] *)
Definition _generate_confirmation (context : AppointmentContext) : string :=
  match selected_center context, selected_time_slot context with
  | Some center, Some slot =>
      check_mark +:+ " Your service appointment is confirmed at "
      +:+ ServiceCenter_str center +:+ " on " +:+ TimeSlot_str slot +:+ "."
      +:+ newline +:+ newline
      +:+ "We'll send you a reminder before your appointment. "
      +:+ "If you need to reschedule, please call " +:+ sc_phone center +:+ ". "
      +:+ "Thank you for choosing Lucid Motors and have a wonderful day!"
  | _, _ => "I couldn't complete your booking. Please try again."
  end.

(** [generate_response(user_message, context, intent)]. [reply] is the
    outcome of the response chain, [None] when it raises; the message
    and the intent only reach the chain. *)
Definition generate_response (reply : option string) (context : AppointmentContext)
  : option string :=
  if state_eqb (state context) COMPLETED
     && is_set (selected_center context)
     && is_set (selected_time_slot context)
  then Some (_generate_confirmation context)
  else reply.

End Responses.

(* ===================================================================== *)
(** * appointment_service.py: the selection handlers *)
(* ===================================================================== *)

Module Handlers.

Import PyDatetime Models Json AppointmentService Responses.

(** [s.split()]: the words between runs of white space; [word] is the
    word being read. *)
Fixpoint split_from (word s : string) : list string :=
  match s with
  | EmptyString => if String.eqb word "" then [] else [word]
  | String c s' =>
      if PyStr.is_space c
      then if String.eqb word "" then split_from "" s' else word :: split_from "" s'
      else split_from (word +:+ String c EmptyString) s'
  end.

Definition split (s : string) : list string := split_from "" s.

(** [sep.join(parts)] *)
Fixpoint join (sep : string) (parts : list string) : string :=
  match parts with
  | [] => ""
  | [part] => part
  | part :: rest => part +:+ sep +:+ join sep rest
  end.

(** One pass of the first loop of [_format_time_slots]: the time is
    appended to the list of its date, a new date going last. *)
Fixpoint add_time (date time : string) (slots_by_date : list (string * list string))
  : list (string * list string) :=
  match slots_by_date with
  | [] => [(date, [time])]
  | (d, times) :: rest =>
      if String.eqb d date then (d, times ++ [time]) :: rest
      else (d, times) :: add_time date time rest
  end.

(** [_format_time_slots()] *)
Definition _format_time_slots : string :=
  let slots_by_date :=
    fold_left (fun d slot => add_time (ts_date slot) (ts_time slot) d)
      (take 3 AVAILABLE_TIME_SLOTS) [] in
  join "; "
    (map (fun entry => fst entry +:+ ": " +:+ join ", " (snd entry)) slots_by_date).

(** The loop of [_handle_center_selection]: the first centre one of
    whose name's words is in the message, or whose name and the message
    both have downtown, or both have north. *)
Fixpoint find_center (message_lower : string) (centers : list ServiceCenter)
  : option ServiceCenter :=
  match centers with
  | [] => None
  | center :: rest =>
      let name_lower := PyStr.lower (sc_name center) in
      if existsb (fun word => PyStr.contains word message_lower) (split name_lower)
      then Some center
      else if PyStr.contains "downtown" message_lower
              && PyStr.contains "downtown" name_lower
      then Some center
      else if PyStr.contains "north" message_lower && PyStr.contains "north" name_lower
      then Some center
      else find_center message_lower rest
  end.

(** [_handle_center_selection(user_message, context)]: the context as
    the handler leaves it, and the reply. *)
Definition _handle_center_selection (user_message : string)
    (context : AppointmentContext) : AppointmentContext * string :=
  match city context with
  | Some name =>
      if negb (PyStr.truthy (city context))
      then (context, "Please first let me know which city you're in.")
      else
        let centers := get_service_centers_by_city name in
        let selected_center :=
          match find_center (PyStr.lower user_message) centers with
          | Some center => Some center
          | None => head centers
          end in
        match selected_center with
        | Some center =>
            (set_state WAITING_TIME_SLOT (set_selected_center (Some center) context),
             "Perfect! I've selected " +:+ ServiceCenter_str center
             +:+ ". Here are the available time slots: " +:+ _format_time_slots
             +:+ ". What time works best for you?")
        | None =>
            (context, "Could you please specify which service center you'd prefer?")
        end
  | None => (context, "Please first let me know which city you're in.")
  end.

(** The loop of [_handle_time_selection]: the first slot whose time is
    in the message, or has one of the message's words in it. *)
Fixpoint find_slot (message_lower : string) (slots : list TimeSlot) : option TimeSlot :=
  match slots with
  | [] => None
  | slot :: rest =>
      let time_lower := PyStr.lower (ts_time slot) in
      if PyStr.contains time_lower message_lower then Some slot
      else if existsb (fun word => PyStr.contains word time_lower) (split message_lower)
      then Some slot
      else find_slot message_lower rest
  end.

(** [_handle_time_selection(user_message, context)] *)
Definition _handle_time_selection (user_message : string)
    (context : AppointmentContext) : AppointmentContext * string :=
  match find_slot (PyStr.lower user_message) AVAILABLE_TIME_SLOTS with
  | Some slot =>
      let context := set_state COMPLETED (set_selected_time_slot (Some slot) context) in
      (context, _generate_confirmation context)
  | None =>
      (context,
       "I didn't catch that time preference. Here are the available slots: "
       +:+ _format_time_slots +:+ ". Which one would you like?")
  end.

End Handlers.

(* ===================================================================== *)
(** * context_manager.py: reading the history back, clean-up *)
(* ===================================================================== *)

Module Archive.

Import PyDatetime Models Json ContextManager.

(** What a statement inside the [try] of [_load_recent_history] gives:
    a value, an exception the handler catches, or one it lets through. *)
Inductive Outcome (A : Type) : Type :=
| Returned (a : A)
| Caught
| Raised.

Arguments Returned {A} a.
Arguments Caught {A}.
Arguments Raised {A}.

(** [l[-limit:]] *)
Definition slice_from_end {A : Type} (limit : Z) (l : list A) : list A :=
  if (0 <? limit)%Z then drop (length l - Z.to_nat limit) l
  else drop (Z.to_nat (- limit)) l.

(** Validation of a value for the field [context], declared an optional
    dictionary. *)
Definition validate_summary (v : option json) : option (option json) :=
  match v with
  | None | Some JNull => Some None
  | Some (JDict d) => Some (Some (JDict d))
  | Some _ => None
  end.

(** One pass of the loop of [_load_recent_history]: the entry is
    indexed, its timestamp parsed, and the model built. A key that is
    missing, a timestamp that does not parse and a failed validation
    are caught; an entry that is no dictionary, or whose timestamp is
    no text, raises [TypeError], which is not. *)
Definition history_entry_of (entry : json) : Outcome ConversationHistory :=
  match entry with
  | JDict e =>
      match dict_get "timestamp" e with
      | None => Caught
      | Some (JStr text) =>
          match fromisoformat text with
          | None => Caught
          | Some ts =>
              match dict_get "user_message" e with
              | None => Caught
              | Some um =>
                  match dict_get "bot_response" e with
                  | None => Caught
                  | Some br =>
                      match um, br, validate_summary (dict_get "context" e) with
                      | JStr um, JStr br, Some summary =>
                          Returned (mk_ConversationHistory ts um br summary)
                      | _, _, _ => Caught
                      end
                  end
              end
          end
      | Some _ => Raised
      end
  | _ => Raised
  end.

(** The loop: it stops at the first entry that fails. *)
Fixpoint recent_entries (entries : list json) : Outcome (list ConversationHistory) :=
  match entries with
  | [] => Returned []
  | entry :: rest =>
      match history_entry_of entry with
      | Returned h =>
          match recent_entries rest with
          | Returned hs => Returned (h :: hs)
          | Caught => Caught
          | Raised => Raised
          end
      | Caught => Caught
      | Raised => Raised
      end
  end.

(** [_load_recent_history(user_id, limit)]; [None] is an exception
    leaving the function. A document that is a text is sliced and
    iterated by characters, none of which can be indexed by a key; a
    document that is a number, a boolean or null cannot be sliced; for a
    dictionary the slice is an unhashable key, the [TypeError] of
    Python before 3.12. *)
Definition _load_recent_history (cm : ContextManager) (user_id : string) (limit : Z)
  : option (list ConversationHistory) :=
  match files cm !! history_file cm user_id with
  | None | Some Uncreatable => Some []
  | Some Unparsable => Some []
  | Some Undecodable => Some []
  | Some (Document (JList history_data)) =>
      match recent_entries (slice_from_end limit history_data) with
      | Returned entries => Some entries
      | Caught => Some []
      | Raised => None
      end
  | Some (Document (JStr text)) =>
      match slice_from_end limit (list_ascii_of_string text) with
      | [] => Some []
      | _ :: _ => None
      end
  | Some (Document _) => None
  end.

(** [get_recent_history(user_id, limit)] *)
Definition get_recent_history (cm : ContextManager) (user_id : string) (limit : Z)
  : option (list ConversationHistory) :=
  _load_recent_history cm (clean_user_id user_id) limit.

(** ** Clean-up *)

(** Days before the first of January of year [y], counted from year 1. *)
Definition days_before_year (y : N) : N :=
  (let p := y - 1 in 365 * p + p / 4 - p / 100 + p / 400)%N.

(** Days of year [y] before the first of month [m]. *)
Definition days_before_month (y m : N) : N :=
  fold_right N.add 0%N
    (map (days_in_month y)
       (List.filter (fun k => (k <? m)%N) [1; 2; 3; 4; 5; 6; 7; 8; 9; 10; 11; 12]%N)).

(** [t.toordinal()] *)
Definition toordinal (t : datetime) : N :=
  (days_before_year (year t) + days_before_month (year t) (month t) + day t)%N.

(** The microseconds from the start of day 0 to [t]: naive timestamps
    compare as these numbers do, and a [timedelta] subtracts from
    them. *)
Definition microseconds_of (t : datetime) : Z :=
  Z.of_N ((((toordinal t * 24 + hour t) * 60 + minute t) * 60 + second t) * 1000000
          + microsecond t)%N.

Definition microseconds_per_day : Z := 86400000000.

Definition datetime_min : datetime := mk_datetime 1 1 1 0 0 0 0.

Definition datetime_max : datetime := mk_datetime 9999 12 31 23 59 59 999999.

(** [cleanup_old_contexts(days)] at time [now]; [None] is the
    [OverflowError] of a cut-off outside the years 1 to 9999. *)
Definition cleanup_old_contexts (cm : ContextManager) (days : Z) (now : datetime)
  : option ContextManager :=
  let cutoff_date := (microseconds_of now - days * microseconds_per_day)%Z in
  if ((microseconds_of datetime_min <=? cutoff_date)
      && (cutoff_date <=? microseconds_of datetime_max))%Z
  then
    Some (set_contexts
            (filter
               (fun entry =>
                  (microseconds_of (last_message_time (snd entry)) <? cutoff_date)%Z
                  = false)
               (_contexts cm))
            cm)
  else None.

End Archive.

(* ===================================================================== *)
(** * chatbot.py: a message through the whole service *)
(* ===================================================================== *)

Module LucidChatbot.

Import PyDatetime Models Json AppointmentService ContextManager Responses Archive.

(** The chatbot: its context manager and the trace of Recorder calls. *)
Record Bot : Type := mk_Bot {
  context_manager : ContextManager;
  recorder : list AppointmentRow
}.

(** The readings of the clock during one message: when a context is
    created, in the Recorder, at the end of the state update, and in
    the history entry. *)
Record Clock : Type := mk_Clock {
  at_creation : datetime;
  at_recording : datetime;
  at_update : datetime;
  at_history : datetime
}.

Definition apology : string :=
  "I'm sorry, I encountered an error. Please try again or contact our support team.".

(** [process_message(user_message, user_id)]. [analysis] and [reply]
    are the outcomes of the two chains, [None] when the chain raises.
    The context is the object the cache holds, so what the state update
    assigns is in the cache whether or not the rest of the function
    raises. *)
Definition process_message (bot : Bot) (analysis reply : option string)
    (user_message user_id : string) (clock : Clock) : string * Bot :=
  let '(context, cm) := get_context (context_manager bot) user_id (at_creation clock) in
  let intent_ := analyze_intent analysis user_message context in
  let '(context, calls) :=
    update_context_state context intent_ (at_recording clock) (at_update clock)
      (recorder bot) in
  let cm := set_contexts (<[clean_user_id user_id := context]> (_contexts cm)) cm in
  match generate_response reply context with
  | None => (apology, mk_Bot cm calls)
  | Some response =>
      match save_conversation cm user_id user_message response (at_history clock) with
      | None => (apology, mk_Bot cm calls)
      | Some cm' => (response, mk_Bot cm' calls)
      end
  end.

(** [reset_conversation(user_id)] at time [now] *)
Definition reset_conversation (bot : Bot) (user_id : string) (now : datetime)
  : string * Bot :=
  ("Your conversation has been reset. How can I help you today?",
   mk_Bot (reset_context (context_manager bot) user_id now) (recorder bot)).

(** [cleanup_old_data(days)] at time [now] *)
Definition cleanup_old_data (bot : Bot) (days : Z) (now : datetime) : option Bot :=
  cm ← cleanup_old_contexts (context_manager bot) days now;
  Some (mk_Bot cm (recorder bot)).

(** One incoming message with the outcomes of the two chains and the
    clock readings of its turn. *)
Record Incoming : Type := mk_Incoming {
  in_text : string;
  in_user : string;
  in_analysis : option string;
  in_reply : option string;
  in_clock : Clock
}.

Definition receive (bot : Bot) (m : Incoming) : Bot :=
  snd (process_message bot (in_analysis m) (in_reply m) (in_text m) (in_user m)
         (in_clock m)).

(** Messages of any users, in arrival order. *)
Definition receive_all (bot : Bot) (messages : list Incoming) : Bot :=
  fold_left receive messages bot.

(** The process stopped and started again on the same directory: the
    cache is empty, the files and the Recorder's table are as they
    were. *)
Definition restart (bot : Bot) : Bot :=
  mk_Bot (clear_cache (context_manager bot)) (recorder bot).

End LucidChatbot.

(* ===================================================================== *)
(** * Vocabulary of the further properties *)
(* ===================================================================== *)

Module Conversation.

Import PyDatetime Models Json AppointmentService Chatbot.

(** The selected centre, when there is one, is a centre of the city of
    the context; the selected slot, when there is one, is a slot of the
    catalogue. *)
Definition selections_in_catalogue (c : AppointmentContext) : Prop :=
  (forall center, selected_center c = Some center ->
     exists name, city c = Some name /\ In center (get_service_centers_by_city name))
  /\ (forall slot, selected_time_slot c = Some slot -> In slot AVAILABLE_TIME_SLOTS).

(** A row of the Recorder that names the user, the city of the context,
    a centre of that city and a slot of the catalogue. *)
Definition row_in_catalogue (uid : string) (c : AppointmentContext)
    (row : AppointmentRow) : Prop :=
  row_user_id row = uid
  /\ city c = Some (row_city row)
  /\ (exists center, In center (get_service_centers_by_city (row_city row))
                     /\ row_center row = ServiceCenter_str center)
  /\ (exists slot, In slot AVAILABLE_TIME_SLOTS
                   /\ row_date row = ts_date slot /\ row_time row = ts_time slot).

(** The part of a context the heuristics cannot move: no centre, not
    confirming, not completed, nothing saved. *)
Definition stuck_before_centre (c : AppointmentContext) : Prop :=
  selected_center c = None
  /\ state c <> CONFIRMING_APPOINTMENT /\ state c <> COMPLETED
  /\ appointment_saved c = false.

(** One incoming message and the two clock readings of its turn. *)
Record Message : Type := mk_Message {
  msg_text : string;
  msg_record_time : datetime;
  msg_now : datetime
}.

(** The messages of one user, in arrival order, every call of the
    text-generation chain failing. *)
Definition run_offline (s : Session) (messages : list Message) : Session :=
  fold_left
    (fun s m => process_message s None (msg_text m) (msg_record_time m) (msg_now m))
    messages s.

End Conversation.

Module Analysis.

Import PyDatetime Models Json AppointmentService.

(** The test of the cleaning loop of [analyze_intent] on one value. *)
Definition kept (value : json) : bool :=
  Json.truthy value && negb (prints_as_null value).

(** The label a mapping gives the analysis: its intent, when that is a
    text the cleaning loop keeps. *)
Definition usable_label (d : list (string * json)) : option string :=
  match dict_get "intent" d with
  | Some (JStr s) => if kept (JStr s) then Some s else None
  | _ => None
  end.

(** What is left of an optional text field: the text, unless it is
    empty or reads null or none. *)
Definition kept_text (o : option json) : option string :=
  match o with
  | Some (JStr s) => if kept (JStr s) then Some s else None
  | _ => None
  end.

(** What is left of the confidence: the number, unless it is zero or the
    field is absent or null, when it is the default 0.5. *)
Definition kept_confidence (o : option json) : pyfloat :=
  match o with
  | Some (JFloat f) => if float_truthy f then f else dec 5 1
  | Some (JInt z) => if (z =? 0)%Z then dec 5 1 else Finite (z # 1)
  | _ => dec 5 1
  end.

(** The confidence of a mapping is absent, null, a float, or an
    integer that [float(int)] converts. *)
Definition number_or_absent (key : string) (d : list (string * json)) : Prop :=
  match dict_get key d with
  | None | Some JNull | Some (JFloat _) => True
  | Some (JInt z) => (Z.abs z < Json.float_overflow)%Z
  | Some _ => False
  end.

(** A JSON response whose city reads None and whose confidence is 0. *)
Definition null_city_response : string :=
  "{" +:+ Scenario.quoted "intent" +:+ ": " +:+ Scenario.quoted "booking" +:+ ", "
  +:+ Scenario.quoted "city" +:+ ": " +:+ Scenario.quoted "None" +:+ ", "
  +:+ Scenario.quoted "confidence" +:+ ": 0}".

End Analysis.

Module Durability.

Import PyDatetime Models Json AppointmentService ContextManager Responses Archive.

(** A snapshot [get_context] cannot use: no file, a file that is no
    text or no JSON, a document that is no dictionary, or a dictionary
    whose state is none of the six values or whose user is missing or
    no text. *)
Definition unusable_snapshot (content : option FileContent) : Prop :=
  match content with
  | None | Some Unparsable | Some Undecodable | Some Uncreatable => True
  | Some (Document (JDict d)) =>
      (exists v, dict_get "state" d = Some v /\ forall s, v <> JStr (state_value s))
      \/ required_str "user_id" d = None
  | Some (Document _) => True
  end.

(** An entry [_append_to_history_file] can write and
    [_load_recent_history] can rebuild: its timestamp is a [datetime]
    value and its context is absent or a dictionary. *)
Definition storable (e : ConversationHistory) : Prop :=
  valid (timestamp e) = true
  /\ match context_summary e with
     | None | Some (JDict _) => True
     | Some _ => False
     end.

(** A dictionary that lacks one of the three keys the loop of
    [_load_recent_history] indexes, its timestamp, when it has one,
    being a text [isoformat] writes. *)
Definition missing_key (e : list (string * json)) : Prop :=
  dict_get "timestamp" e = None
  \/ (exists t, dict_get "timestamp" e = Some (JStr (isoformat t))
                /\ valid t = true
                /\ (dict_get "user_message" e = None \/ dict_get "bot_response" e = None)).

(** The rows of the Recorder that name a user. *)
Definition rows_of (u : string) (calls : list AppointmentRow) : list AppointmentRow :=
  List.filter (fun row => String.eqb (row_user_id row) u) calls.

(** The context is older than the cut-off of a clean-up run at [now]
    for [days] days. *)
Definition idle_since (context : AppointmentContext) (days : Z) (now : datetime) : Prop :=
  (microseconds_of (last_message_time context)
   < microseconds_of now - days * microseconds_per_day)%Z.

(** The cache and the Recorder agree on every user: a cached context
    carries the identifier it is cached under, and the user has one row
    when the context is flagged saved and none otherwise; a user that
    is not cached has no row. *)
Definition one_row_when_saved (bot : LucidChatbot.Bot) : Prop :=
  forall u,
    match _contexts (LucidChatbot.context_manager bot) !! u with
    | Some context =>
        user_id context = u
        /\ length (rows_of u (LucidChatbot.recorder bot))
           = if appointment_saved context then 1 else 0
    | None => rows_of u (LucidChatbot.recorder bot) = []
    end.


(** Appending an entry to the history of the user returns: no
    exception leaves [_append_to_history_file]. *)
Definition logging_returns (cm : ContextManager) (uid : string) : Prop :=
  forall e, _append_to_history_file cm uid e <> None.

(** A chatbot whose user U1 has chosen a centre and a slot and is asked
    to confirm. *)
Definition confirming_bot : LucidChatbot.Bot :=
  LucidChatbot.mk_Bot
    (mk_ContextManager "History"
       {[ "U1" := mk_AppointmentContext "U1" CONFIRMING_APPOINTMENT (Some "Riyadh")
                    (Some Scenario.riyadh_downtown) (Some Scenario.slot_10am_july_17)
                    false Scenario.clock0 ]}
       ∅)
    [].

(** An answer of the analysis chain that reads as a confirmation. *)
Definition confirmation_analysis : string :=
  "{" +:+ Scenario.quoted "intent" +:+ ": " +:+ Scenario.quoted "confirmation" +:+ "}".

(** The message yes of U1, confirmed by the analysis chain, the
    response chain failing. *)
Definition confirming_yes : string * LucidChatbot.Bot :=
  LucidChatbot.process_message confirming_bot (Some confirmation_analysis) None
    "yes" "U1"
    (LucidChatbot.mk_Clock Scenario.clock0 Scenario.clock0 Scenario.clock0 Scenario.clock0).

End Durability.

(* ===================================================================== *)
(** * Properties *)
(* ===================================================================== *)

Import PyDatetime Models Json AppointmentService ContextManager Chatbot Scenario.

(** ** Basic facts *)

Lemma state_eqb_eq (a b : ConversationState) : state_eqb a b = true <-> a = b.
Proof. destruct a, b; vm_compute; split; congruence. Qed.

Lemma state_eqb_refl (a : ConversationState) : state_eqb a a = true.
Proof. now apply state_eqb_eq. Qed.

Lemma dict_get_set {V : Type} (k k' : string) (v : V) (d : list (string * V)) :
  dict_get k (dict_set k' v d) = if String.eqb k' k then Some v else dict_get k d.
Proof.
  induction d as [|[k0 v0] d IH]; simpl.
  - destruct (String.eqb k' k); reflexivity.
  - destruct (String.eqb k0 k') eqn:E0; simpl.
    + apply String.eqb_eq in E0; subst k0.
      destruct (String.eqb k' k); reflexivity.
    + rewrite IH. destruct (String.eqb k' k) eqn:E1; [|reflexivity].
      apply String.eqb_eq in E1; subst k'. now rewrite E0.
Qed.

(** ** The state machine keeps what it does not assign *)

Section Preservation.

Variable intent_ : IntentAnalysis.
Variable context : AppointmentContext.

Lemma adopt_city_saved :
  appointment_saved (adopt_city intent_ context) = appointment_saved context.
Proof. unfold adopt_city. now destruct (_ && _). Qed.

Lemma adopt_center_saved :
  appointment_saved (adopt_center intent_ context) = appointment_saved context.
Proof.
  unfold adopt_center.
  destruct (center_preference intent_), (city context); try reflexivity.
  destruct (_ && _); [|reflexivity]. now destruct (match_center _ _).
Qed.

Lemma adopt_time_slot_saved :
  appointment_saved (adopt_time_slot intent_ context) = appointment_saved context.
Proof.
  unfold adopt_time_slot. destruct (time_preference intent_); [|reflexivity].
  destruct (PyStr.truthy _); [|reflexivity]. now destruct (match_slot _ _).
Qed.

Lemma advance_state_saved :
  appointment_saved (advance_state intent_ context) = appointment_saved context.
Proof.
  unfold advance_state.
  repeat match goal with
         | |- context [if ?b then _ else _] => destruct b
         end; reflexivity.
Qed.

End Preservation.

Lemma fill_slots_saved (intent_ : IntentAnalysis) (context : AppointmentContext) :
  appointment_saved (fill_slots intent_ context) = appointment_saved context.
Proof.
  unfold fill_slots.
  now rewrite advance_state_saved, adopt_time_slot_saved, adopt_center_saved,
    adopt_city_saved.
Qed.

(** One turn, by the guard of rule 5. *)
Lemma update_context_state_cases (context : AppointmentContext) (intent_ : IntentAnalysis)
    (record_time now : datetime) (calls : list AppointmentRow) :
  let filled := fill_slots intent_ context in
  update_context_state context intent_ record_time now calls =
    if must_record filled
    then (set_last_message_time now (set_appointment_saved true filled),
          calls ++ [appointment_row filled record_time])
    else (set_last_message_time now filled, calls).
Proof.
  unfold update_context_state, fill_slots, _record_appointment; simpl.
  now destruct (must_record _).
Qed.

Lemma must_record_true (c : AppointmentContext) :
  must_record c = true ->
  state c = COMPLETED /\ selected_center c <> None /\ selected_time_slot c <> None
  /\ appointment_saved c = false.
Proof.
  unfold must_record. intros H.
  apply andb_prop in H as [H Hsaved]. apply andb_prop in H as [H Hslot].
  apply andb_prop in H as [Hstate Hcenter]. apply state_eqb_eq in Hstate.
  repeat split; try assumption.
  - now destruct (selected_center c).
  - now destruct (selected_time_slot c).
  - now destruct (appointment_saved c).
Qed.

(** One turn keeps the flag and the trace agreeing. *)
Lemma step_saved_iff_recorded (s : Session) (t : Turn) :
  saved_iff_recorded s -> saved_iff_recorded (step s t).
Proof.
  unfold saved_iff_recorded, step. destruct s as [c calls]; simpl. intros H.
  rewrite update_context_state_cases; simpl.
  destruct (must_record _) eqn:E; simpl.
  - apply must_record_true in E as (_ & _ & _ & E).
    rewrite fill_slots_saved in E. rewrite E in H.
    rewrite length_app; simpl. lia.
  - now rewrite fill_slots_saved.
Qed.

Lemma run_turns_saved_iff_recorded (s : Session) (turns : list Turn) :
  saved_iff_recorded s -> saved_iff_recorded (run_turns s turns).
Proof.
  revert s. induction turns as [|t turns IH]; intros s H; simpl; [assumption|].
  apply IH. now apply step_saved_iff_recorded.
Qed.

(** ** C1 *)

(** C1. Over every sequence of turns of one user, starting from the
    fresh context: the Recorder has been called at most once; after each
    turn [appointment_saved] is true exactly when it has been called;
    the flag, once true, stays true; and on the turn where it becomes
    true the resulting state is COMPLETED with both the centre and the
    slot set, the turn adding exactly one call to the trace. *)
Theorem C1_recorded_at_most_once (uid : string) (t0 : datetime)
    (turns : list Turn) (t : Turn) :
  let s := run_turns (new_context uid t0, []) turns in
  let s' := step s t in
  length (snd s) <= 1
  /\ (appointment_saved (fst s) = true <-> length (snd s) = 1)
  /\ (appointment_saved (fst s) = true ->
      appointment_saved (fst s') = true /\ snd s' = snd s)
  /\ (appointment_saved (fst s) = false -> appointment_saved (fst s') = true ->
      state (fst s') = COMPLETED
      /\ selected_center (fst s') <> None
      /\ selected_time_slot (fst s') <> None
      /\ exists row, snd s' = snd s ++ [row]).
Proof.
  intros s s'.
  assert (Hs : saved_iff_recorded s)
    by (apply run_turns_saved_iff_recorded; reflexivity).
  unfold saved_iff_recorded in Hs.
  subst s'. unfold step. destruct s as [c calls]; simpl in *.
  rewrite update_context_state_cases; simpl.
  pose proof (fill_slots_saved (turn_intent t) c) as Hkeep.
  destruct (must_record _) eqn:E; simpl.
  - apply must_record_true in E as (Hstate & Hcenter & Hslot & Hsaved).
    rewrite Hkeep in Hsaved. rewrite Hsaved in Hs.
    split; [lia|]. split; [split; [congruence | lia]|].
    split; [congruence|]. intros _ _. eauto.
  - rewrite Hkeep.
    destruct (appointment_saved c).
    + split; [lia|]. split; [tauto|]. split; [tauto | congruence].
    + split; [lia|]. split; [split; [congruence | lia]|].
      split; congruence.
Qed.

(** ** C2 *)

(** The analyser on the first and third messages of the scenario, the
    text-generation call failing: the intents of the scenario, by the
    keyword heuristics. *)
Lemma scenario_intents_by_heuristics :
  analyze_intent None "I need to book a service in Riyadh" (fst U1_fresh)
    = booking_in_riyadh
  /\ analyze_intent None "10 AM"
       (fst (run_turns U1_fresh (map turn_at_clock0 [booking_in_riyadh; choose_downtown])))
     = at_10_am.
Proof. split; vm_compute; reflexivity. Qed.

(** The analyser on the second message, from a response that carries the
    centre preference. *)
Lemma scenario_intent_by_response :
  analyze_intent
    (Some "intent: center_selection, center_preference: downtown, confidence: 0.9")
    "downtown" (fst (run_turns U1_fresh [turn_at_clock0 booking_in_riyadh]))
  = choose_downtown.
Proof. vm_compute. reflexivity. Qed.

(** Whatever known label the second turn carries, the scenario with
    its third turn labelled time_selection does not end in COMPLETED. *)
Lemma scenario_never_completes_on_time_selection :
  forallb (fun label2 => negb (completes label2 "time_selection")) known_intents = true.
Proof. vm_compute. reflexivity. Qed.

(** C2, as stated, fails: after the three turns the state is not
    COMPLETED, the Recorder has not been called and the flag is false. *)
Lemma C2_counterexample :
  let s := run_turns U1_fresh three_turns in
  ~ (selected_center (fst s) = Some riyadh_downtown
     /\ selected_time_slot (fst s) = Some slot_10am_july_17
     /\ state (fst s) = COMPLETED
     /\ length (snd s) = 1
     /\ appointment_saved (fst s) = true).
Proof. vm_compute. intros (_ & _ & H & _). discriminate H. Qed.

(** C2, amended. From the fresh context of U1, the three turns (booking
    naming Riyadh, centre preference downtown, time preference 10 AM
    under the label time_selection) pass through
    WAITING_CENTER_SELECTION and WAITING_TIME_SLOT and end with the
    Riyadh Downtown centre and the 10 AM / July 17th slot selected, in
    state CONFIRMING_APPOINTMENT, the Recorder not called and the flag
    false; a following confirmation turn reaches COMPLETED, calls the
    Recorder exactly once and sets the flag. *)
Theorem C2_scenario_ends_confirming :
  let after1 := run_turns U1_fresh (firstn 1 three_turns) in
  let after2 := run_turns U1_fresh (firstn 2 three_turns) in
  let s := run_turns U1_fresh three_turns in
  let s' := step s (turn_at_clock0 confirm) in
  state (fst after1) = WAITING_CENTER_SELECTION
  /\ state (fst after2) = WAITING_TIME_SLOT
  /\ selected_center (fst s) = Some riyadh_downtown
  /\ selected_time_slot (fst s) = Some slot_10am_july_17
  /\ state (fst s) = CONFIRMING_APPOINTMENT
  /\ snd s = []
  /\ appointment_saved (fst s) = false
  /\ state (fst s') = COMPLETED
  /\ length (snd s') = 1
  /\ appointment_saved (fst s') = true.
Proof. vm_compute. repeat split. Qed.

(** ** C9 *)

(** What the location handler does for a city with one centre: the
    centre is selected and the state is WAITING_TIME_SLOT. *)
Lemma _handle_location_single_center (intent_ : IntentAnalysis)
    (context : AppointmentContext) (city_name : string) (center : ServiceCenter) :
  PyStr.or_else (ia_city intent_) (city context) = Some city_name ->
  get_service_centers_by_city city_name = [center] ->
  let context' := fst (_handle_location intent_ context) in
  state context' = WAITING_TIME_SLOT /\ selected_center context' = Some center.
Proof.
  intros Hcity Hcenters. unfold _handle_location. rewrite Hcity.
  destruct (negb (PyStr.truthy (Some city_name))) eqn:E.
  - simpl in E. destruct (String.eqb city_name "") eqn:E'; [|discriminate].
    apply String.eqb_eq in E'. subst. vm_compute in Hcenters. discriminate.
  - rewrite Hcenters. simpl. split; reflexivity.
Qed.

(** C9: the state machine at the failing input. Makkah has one centre;
    a location intent naming Makkah, on a fresh context, leaves the
    conversation in WAITING_CENTER_SELECTION with no centre selected,
    also when the intent comes from the analyser on the message; the
    location handler, on the same input, selects the centre and moves to
    WAITING_TIME_SLOT. *)
Theorem C9_single_center_not_skipped :
  let fresh := new_context "U1" clock0 in
  let after := fst (update_context_state fresh location_makkah clock0 clock0 []) in
  let by_message :=
    fst (process_message (waiting_for_location, []) None "Makkah" clock0 clock0) in
  let handled := fst (_handle_location location_makkah fresh) in
  get_service_centers_by_city "Makkah" = [makkah_center]
  /\ state after = WAITING_CENTER_SELECTION /\ selected_center after = None
  /\ state by_message = WAITING_CENTER_SELECTION /\ selected_center by_message = None
  /\ state handled = WAITING_TIME_SLOT /\ selected_center handled = Some makkah_center.
Proof. vm_compute. repeat split. Qed.

(** ** C10 *)

Lemma advance_state_location (intent_ : IntentAnalysis) (context : AppointmentContext) :
  intent intent_ = "location" ->
  advance_state intent_ context = set_state WAITING_CENTER_SELECTION context.
Proof. intros H. unfold advance_state. rewrite H. reflexivity. Qed.

Lemma adopt_center_city (intent_ : IntentAnalysis) (context : AppointmentContext) :
  city (adopt_center intent_ context) = city context.
Proof.
  unfold adopt_center.
  destruct (center_preference intent_); [|reflexivity].
  destruct (city context) eqn:E; [|now rewrite E].
  destruct (_ && _); [|assumption]. now destruct (match_center _ _).
Qed.

Lemma adopt_time_slot_city (intent_ : IntentAnalysis) (context : AppointmentContext) :
  city (adopt_time_slot intent_ context) = city context.
Proof.
  unfold adopt_time_slot. destruct (time_preference intent_); [|reflexivity].
  destruct (PyStr.truthy _); [|reflexivity]. now destruct (match_slot _ _).
Qed.

Lemma update_context_state_fields (context : AppointmentContext) (intent_ : IntentAnalysis)
    (record_time now : datetime) (calls : list AppointmentRow) :
  let context' := fst (update_context_state context intent_ record_time now calls) in
  state context' = state (fill_slots intent_ context)
  /\ city context' = city (fill_slots intent_ context)
  /\ selected_center context' = selected_center (fill_slots intent_ context)
  /\ selected_time_slot context' = selected_time_slot (fill_slots intent_ context).
Proof.
  simpl. rewrite update_context_state_cases.
  destruct (must_record _); simpl; repeat split.
Qed.

(** C10, as stated, fails in its account of the analyser: the message
    hello names no city, and sent while the state is WAITING_LOCATION it
    is analysed as a greeting, not as a location; the state machine then
    leaves the state at WAITING_LOCATION. *)
Lemma C10_counterexample :
  let a := _fallback_intent_analysis "hello" waiting_for_location in
  let s := process_message (waiting_for_location, []) None "hello" clock0 clock0 in
  state waiting_for_location = WAITING_LOCATION
  /\ find_city_from_text "hello" = None
  /\ intent a = "greeting"
  /\ intent a <> "location"
  /\ state (fst s) = WAITING_LOCATION
  /\ state (fst s) <> WAITING_CENTER_SELECTION.
Proof. vm_compute. repeat split; discriminate. Qed.

(** C10, amended. For every context and every intent labelled location,
    [update_context_state] sets the state to WAITING_CENTER_SELECTION,
    and leaves the city as it was when the intent carries none. The
    keyword heuristics give that label, with no city, to every message
    sent in WAITING_LOCATION that has no booking keyword, no greeting
    keyword and no recognizable city. So WAITING_CENTER_SELECTION is
    reached with the city unset: from the fresh context by a booking
    message without city and then such a message. *)
Theorem C10_location_without_city :
  (forall (context : AppointmentContext) (intent_ : IntentAnalysis)
          (record_time now : datetime) (calls : list AppointmentRow),
      intent intent_ = "location" ->
      let context' := fst (update_context_state context intent_ record_time now calls) in
      state context' = WAITING_CENTER_SELECTION
      /\ (PyStr.truthy (ia_city intent_) = false -> city context' = city context))
  /\ (forall (message : string) (context : AppointmentContext),
      state context = WAITING_LOCATION ->
      PyStr.any_in booking_keywords (PyStr.lower message) = false ->
      PyStr.any_in greeting_keywords (PyStr.lower message) = false ->
      find_city_from_text message = None ->
      _fallback_intent_analysis message context
      = mk_IntentAnalysis "location" None None None (dec 7 1) None)
  /\ (let s1 := process_message U1_fresh None "I want to book" clock0 clock0 in
      let s2 := process_message s1 None "in my town" clock0 clock0 in
      state (fst s1) = WAITING_LOCATION
      /\ state (fst s2) = WAITING_CENTER_SELECTION /\ city (fst s2) = None).
Proof.
  split; [|split].
  - intros context intent_ record_time now calls Hlabel context'.
    destruct (update_context_state_fields context intent_ record_time now calls)
      as (Hstate & Hcity & _).
    subst context'. rewrite Hstate, Hcity. unfold fill_slots.
    rewrite advance_state_location by assumption. simpl.
    split; [reflexivity|]. intros Hnone.
    rewrite adopt_time_slot_city, adopt_center_city.
    unfold adopt_city. now rewrite Hnone.
  - intros message context Hstate Hbook Hgreet Hcity.
    unfold _fallback_intent_analysis. rewrite Hbook, Hgreet, Hcity, Hstate.
    reflexivity.
  - vm_compute. repeat split.
Qed.

(** C10, at a concrete input: a context waiting for the location and the
    message in my town. *)
Lemma C10_location_without_city_witness :
  intent (_fallback_intent_analysis "in my town" waiting_for_location) = "location"
  /\ state (fst (update_context_state waiting_for_location
                   (_fallback_intent_analysis "in my town" waiting_for_location)
                   clock0 clock0 [])) = WAITING_CENTER_SELECTION.
Proof.
  split; [reflexivity|].
  apply (proj1 C10_location_without_city waiting_for_location
           (_fallback_intent_analysis "in my town" waiting_for_location)
           clock0 clock0 []).
  reflexivity.
Defined.

(** ** C6 *)

(** C6. The keyword heuristics are a function of the message and the
    context: whatever they are, the result is one [IntentAnalysis]
    whose label is one of the seven, whose confidence is the one the
    label prescribes (0.8, 0.9, 0.7, 0.7, 0.5) and lies between 0 and 1,
    and whose label is that of the first rule that applies, in the
    order booking, greeting, location, time_selection, other; the city
    is the directory match for booking and location, and the time
    preference is the whole message for time_selection. *)
Theorem C6_fallback_total (message : string) (context : AppointmentContext) :
  let a := _fallback_intent_analysis message context in
  let m := PyStr.lower message in
  let booking := PyStr.any_in booking_keywords m in
  let greeting := PyStr.any_in greeting_keywords m in
  let located :=
    PyStr.truthy (find_city_from_text message)
    || state_eqb (state context) WAITING_LOCATION in
  let timed :=
    PyStr.any_in time_keywords m || state_eqb (state context) WAITING_TIME_SLOT in
  In (intent a) known_intents
  /\ confidence a = prescribed_confidence (intent a)
  /\ in_unit_interval (confidence a)
  /\ intent a = (if booking then "booking" else if greeting then "greeting"
                 else if located then "location"
                 else if timed then "time_selection" else "other")
  /\ ia_city a = (if booking then find_city_from_text message
                  else if greeting then None
                  else if located then find_city_from_text message else None)
  /\ time_preference a = (if booking || greeting || located then None
                          else if timed then Some message else None)
  /\ center_preference a = None /\ reasoning a = None.
Proof.
  unfold _fallback_intent_analysis. cbv zeta.
  destruct (PyStr.any_in booking_keywords _);
    [|destruct (PyStr.any_in greeting_keywords _);
      [|destruct (_ || _);
        [|destruct (_ || _)]]];
    cbn [intent confidence ia_city time_preference center_preference reasoning
         IntentAnalysis_basic orb];
    (split; [vm_compute; tauto|]);
    (split; [reflexivity|]);
    (split; [vm_compute; split; discriminate|]);
    repeat split.
Qed.

(** ** C3 *)

Lemma dict_has_set_other {V : Type} (k k' : string) (v : V) (d : list (string * V)) :
  String.eqb k' k = false -> dict_has k (dict_set k' v d) = dict_has k d.
Proof. intros H. unfold dict_has. now rewrite dict_get_set, H. Qed.

Lemma extract_optional_keeps (name response : string) (d : list (string * json)) :
  String.eqb name "intent" = false ->
  dict_has "intent" (extract_optional name response d) = dict_has "intent" d.
Proof.
  intros H. unfold extract_optional.
  destruct (Re.search _ _) as [[[? g] ?]|]; [|reflexivity].
  destruct (negb _); [|reflexivity]. now apply dict_has_set_other.
Qed.

(** Strategy 4 succeeds exactly when its intent pattern matches, and
    what it returns has the field. *)
Lemma extract_fields_intent (response : string) :
  (Re.search (field_pattern "intent") response = None ->
   extract_fields response = None)
  /\ (forall d, extract_fields response = Some d -> dict_has "intent" d = true).
Proof.
  unfold extract_fields. split.
  - intros ->.
    match goal with
    | |- (if dict_has "intent" ?x then _ else _) = None =>
        assert (E : dict_has "intent" x = false)
    end.
    { destruct (Re.search confidence_pattern response) as [[[? g] ?]|];
        [rewrite dict_has_set_other by reflexivity|];
        rewrite !extract_optional_keeps by reflexivity; reflexivity. }
    now rewrite E.
  - intros d.
    match goal with
    | |- (if dict_has "intent" ?x then _ else _) = _ -> _ =>
        destruct (dict_has "intent" x) eqn:E
    end; [|discriminate].
    intros [= <-]. exact E.
Qed.

(** C3, as stated, fails: the response is a JSON object with a city and
    nothing in it reads as an intent field, yet the result is not
    [None] but a mapping, and the mapping has no intent. *)
Lemma C3_counterexample :
  PyStr.contains "intent" (PyStr.lower city_only_response) = false
  /\ Re.search (field_pattern "intent") city_only_response = None
  /\ sanitize_llm_json_response city_only_response <> JNull
  /\ exists d, sanitize_llm_json_response city_only_response = JDict d
               /\ dict_has "intent" d = false.
Proof.
  split; [reflexivity|]. split; [reflexivity|].
  split; [vm_compute; discriminate|].
  exists [("city", JStr "Riyadh")]. split; reflexivity.
Qed.

(** C3, amended. When none of the three parsing strategies (the whole
    response, a fenced block, a repaired brace candidate) yields JSON,
    the result is [None] for every response in which the intent pattern
    finds no field, and every mapping returned contains an intent
    field. What one of the three strategies parses, the strategies
    being tried in that order, is returned as it is: nothing looks for
    an intent field in it. *)
Theorem C3_fields_need_intent (response : string) :
  (parse_direct response = None ->
   parse_code_block response = None ->
   parse_json_like response = None ->
   (Re.search (field_pattern "intent") response = None ->
    sanitize_llm_json_response response = JNull)
   /\ (forall d, sanitize_llm_json_response response = JDict d ->
                 dict_has "intent" d = true))
  /\ (forall v, parse_direct response = Some v ->
                sanitize_llm_json_response response = v)
  /\ (forall v, parse_direct response = None ->
                parse_code_block response = Some v ->
                sanitize_llm_json_response response = v)
  /\ (forall v, parse_direct response = None ->
                parse_code_block response = None ->
                parse_json_like response = Some v ->
                sanitize_llm_json_response response = v).
Proof.
  split; [|split; [|split]].
  - intros H1 H2 H3. unfold sanitize_llm_json_response.
    rewrite H1, H2, H3.
    destruct (extract_fields_intent response) as [Hnone Hsome].
    destruct (String.eqb response ""); [split; [reflexivity | discriminate]|].
    split.
    + intros H. now rewrite (Hnone H).
    + intros d. destruct (extract_fields response) as [e|]; [|discriminate].
      intros [= <-]. now apply Hsome.
  - intros v H1. unfold sanitize_llm_json_response.
    destruct (String.eqb_spec response "") as [->|_]; [discriminate H1|].
    now rewrite H1.
  - intros v H1 H2. unfold sanitize_llm_json_response.
    destruct (String.eqb_spec response "") as [->|_]; [discriminate H2|].
    now rewrite H1, H2.
  - intros v H1 H2 H3. unfold sanitize_llm_json_response.
    destruct (String.eqb_spec response "") as [->|_]; [discriminate H3|].
    now rewrite H1, H2, H3.
Qed.

(** C3, at three concrete responses: one without intent field, one
    with, and a JSON object that strategy 1 parses. *)
Lemma C3_fields_need_intent_witness :
  sanitize_llm_json_response "the city: Riyadh" = JNull
  /\ dict_has "intent" [("intent", JStr "booking"); ("city", JStr "Riyadh")] = true
  /\ sanitize_llm_json_response city_only_response = JDict [("city", JStr "Riyadh")].
Proof.
  split; [|split].
  - apply (proj1 (C3_fields_need_intent "the city: Riyadh")); reflexivity.
  - apply (proj1 (C3_fields_need_intent "intent: booking, city: Riyadh"));
      reflexivity.
  - apply (proj1 (proj2 (C3_fields_need_intent city_only_response))). reflexivity.
Defined.

(** ** C5 *)

(** C5: recovery at the failing input. The response is a JSON array (or
    a JSON number): strategy 1 parses it and the function returns the
    list (or the number), which is neither a mapping nor [None]. The
    analyser then uses the keyword heuristics. *)
Theorem C5_returns_what_parses :
  sanitize_llm_json_response "[1]" = JList [JInt 1]
  /\ sanitize_llm_json_response "5" = JInt 5
  /\ (forall message context,
        analyze_intent (Some "[1]") message context
        = _fallback_intent_analysis message context).
Proof.
  split; [reflexivity|]. split; [reflexivity|].
  intros message context. unfold analyze_intent.
  replace (sanitize_llm_json_response "[1]") with (JList [JInt 1]) by reflexivity.
  reflexivity.
Qed.

(** ** C4 *)

Lemma validate_optional_str_text (key : string) (d : list (string * json)) :
  text_or_absent key d -> exists o, validate_optional_str (dict_get key d) = Some o.
Proof.
  unfold text_or_absent. destruct (dict_get key d) as [[]|]; simpl; intros H;
    try contradiction; eauto.
Qed.

(** C4, as stated, fails: recovery produces a mapping whose intent is
    none of the seven labels and whose confidence is above 1; the typed
    construction accepts it, and the analysis is that mapping, not the
    result of the keyword heuristics. *)
Lemma C4_counterexample :
  let context := new_context "U1" clock0 in
  let a := analyze_intent (Some out_of_range_response) "hello" context in
  sanitize_llm_json_response out_of_range_response
    = JDict [("intent", JStr "foo"); ("confidence", JFloat (Finite (15 # 2)))]
  /\ ~ In "foo" known_intents
  /\ ~ in_unit_interval (Finite (15 # 2))
  /\ intent a = "foo"
  /\ confidence a = Finite (15 # 2)
  /\ a <> _fallback_intent_analysis "hello" context.
Proof.
  vm_compute. repeat split; try reflexivity.
  - intros H. repeat destruct H as [H|H]; try discriminate H. exact H.
  - intros [_ H]. apply H. reflexivity.
  - discriminate.
Qed.

(** C4, amended. The typed construction checks presence and types only.
    A mapping it accepts has a text intent, which is the label of the
    analysis. A mapping with a text intent, a float confidence and
    optional fields that are absent or text is accepted, with that label
    and that confidence as they are, whatever the label and the value.
    When recovery gives a mapping and the construction rejects its
    cleaned form, the analysis is that of the keyword heuristics. *)
Theorem C4_construction_checks_types_only :
  (forall (d : list (string * json)) (a : IntentAnalysis),
      IntentAnalysis_validate d = Some a ->
      dict_get "intent" d = Some (JStr (intent a)))
  /\ (forall (d : list (string * json)) (label : string) (c : pyfloat),
      dict_get "intent" d = Some (JStr label) ->
      dict_get "confidence" d = Some (JFloat c) ->
      text_or_absent "city" d -> text_or_absent "time_preference" d ->
      text_or_absent "center_preference" d -> text_or_absent "reasoning" d ->
      exists a, IntentAnalysis_validate d = Some a
                /\ intent a = label /\ confidence a = c)
  /\ (forall (response message : string) (context : AppointmentContext)
             (d : list (string * json)),
      sanitize_llm_json_response response = JDict d ->
      IntentAnalysis_validate (clean_data d) = None ->
      analyze_intent (Some response) message context
      = _fallback_intent_analysis message context).
Proof.
  split; [|split].
  - intros d a. unfold IntentAnalysis_validate.
    destruct (dict_get "intent" d) as [[]|]; simpl; try discriminate.
    destruct (validate_optional_str (dict_get "city" d)); simpl; [|discriminate].
    destruct (validate_optional_str (dict_get "time_preference" d)); simpl;
      [|discriminate].
    destruct (validate_optional_str (dict_get "center_preference" d)); simpl;
      [|discriminate].
    destruct (match dict_get "confidence" d with None => _ | Some v => _ end); simpl;
      [|discriminate].
    destruct (validate_optional_str (dict_get "reasoning" d)); simpl; [|discriminate].
    intros [= <-]. reflexivity.
  - intros d label c Hintent Hconf Hcity Htime Hcenter Hwhy.
    unfold IntentAnalysis_validate. rewrite Hintent, Hconf. simpl.
    destruct (validate_optional_str_text _ _ Hcity) as [o1 ->].
    destruct (validate_optional_str_text _ _ Htime) as [o2 ->].
    destruct (validate_optional_str_text _ _ Hcenter) as [o3 ->].
    destruct (validate_optional_str_text _ _ Hwhy) as [o4 ->].
    simpl. eexists. split; [reflexivity|]. split; reflexivity.
  - intros response message context d Hd Hrejected.
    unfold analyze_intent. rewrite Hd, Hrejected.
    now destruct (Json.truthy (JDict d)).
Qed.

(** C4, at a concrete mapping: label foo, confidence 7.5. *)
Lemma C4_construction_checks_types_only_witness :
  exists a,
    IntentAnalysis_validate
      [("intent", JStr "foo"); ("confidence", JFloat (Finite (15 # 2)))] = Some a
    /\ intent a = "foo" /\ confidence a = Finite (15 # 2).
Proof.
  apply (proj1 (proj2 C4_construction_checks_types_only)); reflexivity || exact I.
Defined.

(** ** C8 *)













(** ** C7 *)

Lemma append_cons (c : ascii) (a b : string) : String c a +:+ b = String c (a +:+ b).
Proof. reflexivity. Qed.

Lemma append_nil (b : string) : EmptyString +:+ b = b.
Proof. reflexivity. Qed.

Lemma string_app_nil_r (a : string) : a +:+ EmptyString = a.
Proof.
  induction a as [|x a IH]; [reflexivity|].
  rewrite append_cons. now f_equal.
Qed.

Lemma string_app_assoc (a b c : string) : (a +:+ b) +:+ c = a +:+ (b +:+ c).
Proof.
  induction a as [|x a IH]; [reflexivity|].
  rewrite !append_cons. now f_equal.
Qed.

Lemma digit_char_ok (n : N) :
  PyStr.is_digit (digit_char n) = true
  /\ PyDatetime.digit_value (digit_char n) = (n mod 10)%N.
Proof.
  unfold digit_char.
  assert (H : (n mod 10 < 10)%N) by (apply N.mod_lt; discriminate).
  destruct (n mod 10)%N as [|p]; [split; reflexivity|].
  do 4 (destruct p as [p|p|]; try (exfalso; lia); try (split; reflexivity)).
Qed.

Lemma read_digits_add (w k : nat) (acc : N) (s : string) :
  read_digits (w + k) acc s
  = match read_digits w acc s with
    | Some (a, r) => read_digits k a r
    | None => None
    end.
Proof.
  revert acc s. induction w as [|w IH]; intros acc s; simpl; [reflexivity|].
  destruct s as [|c s]; [reflexivity|].
  destruct (PyStr.is_digit c); [apply IH | reflexivity].
Qed.

(** Reading back the digits that were written. *)
Lemma read_digits_digits (w : nat) :
  forall (n acc : N) (rest : string),
  (n < 10 ^ N.of_nat w)%N ->
  read_digits w acc (digits w n +:+ rest) = Some (acc * 10 ^ N.of_nat w + n, rest)%N.
Proof.
  induction w as [|w IH]; intros n acc rest Hn.
  - simpl in *. rewrite append_nil. f_equal. f_equal. lia.
  - replace (S w) with (w + 1) at 1 by lia.
    rewrite read_digits_add. cbn [digits].
    rewrite string_app_assoc, append_cons, append_nil.
    rewrite Nat2N.inj_succ, N.pow_succ_r' in *.
    rewrite IH by (apply N.Div0.div_lt_upper_bound; lia).
    cbn [read_digits].
    destruct (digit_char_ok n) as [-> ->].
    f_equal. f_equal.
    pose proof (N.div_mod n 10). lia.
Qed.

Lemma days_in_month_le (y m : N) : (days_in_month y m <= 31)%N.
Proof.
  unfold days_in_month.
  repeat match goal with
         | |- context [if ?b then _ else _] => destruct b
         end; lia.
Qed.

#[local] Opaque digits read_digits.

Ltac read_field :=
  rewrite read_digits_digits by (simpl; lia);
  rewrite ?append_cons, ?append_nil; simpl;
  rewrite ?N.mul_0_l, ?N.add_0_l.

(** [fromisoformat] reads back what [isoformat] writes. *)
Lemma fromisoformat_isoformat (t : datetime) :
  valid t = true -> fromisoformat (isoformat t) = Some t.
Proof.
  intros Hvalid. pose proof Hvalid as Hv. unfold valid in Hv.
  repeat (apply andb_prop in Hv as [Hv ?]).
  repeat match goal with
         | H : (_ <=? _)%N = true |- _ => apply N.leb_le in H
         | H : (_ <? _)%N = true |- _ => apply N.ltb_lt in H
         end.
  pose proof (days_in_month_le (year t) (month t)).
  destruct t as [y mo d h mi se us]. cbn [year month day hour minute second microsecond] in *.
  unfold fromisoformat, isoformat.
  cbn [year month day hour minute second microsecond].
  revert Hvalid. generalize valid. intros is_valid Hvalid.
  do 5 read_field.
  destruct (N.eqb_spec us 0) as [E|E].
  - read_field. subst us. now rewrite Hvalid.
  - read_field. rewrite <- (string_app_nil_r (digits 6 us)). read_field.
    now rewrite Hvalid.
Qed.





#[local] Transparent digits read_digits.


(* ===================================================================== *)
(** * Further properties *)
(* ===================================================================== *)

Import Conversation.

(** ** What the four rules assign *)

Ltac destruct_ifs :=
  repeat match goal with
         | |- context [if ?b then _ else _] => destruct b
         | |- context [match ?o with Some _ => _ | None => _ end] => destruct o
         end.

Lemma adopt_city_city (i : IntentAnalysis) (c : AppointmentContext) :
  city (adopt_city i c)
  = if PyStr.truthy (ia_city i) && negb (PyStr.truthy (city c)) then ia_city i
    else city c.
Proof. unfold adopt_city. now destruct (_ && _). Qed.

Lemma adopt_city_others (i : IntentAnalysis) (c : AppointmentContext) :
  user_id (adopt_city i c) = user_id c
  /\ state (adopt_city i c) = state c
  /\ selected_center (adopt_city i c) = selected_center c
  /\ selected_time_slot (adopt_city i c) = selected_time_slot c.
Proof. unfold adopt_city. now destruct (_ && _). Qed.

Lemma match_center_in (p : string) (l : list ServiceCenter) (c : ServiceCenter) :
  match_center p l = Some c ->
  In c l /\ PyStr.contains p (PyStr.lower (sc_name c)) = true.
Proof.
  induction l as [|x l IH]; simpl; [discriminate|].
  destruct (PyStr.contains p (PyStr.lower (sc_name x))) eqn:E.
  - intros [= <-]. auto.
  - intros H. destruct (IH H). auto.
Qed.

Lemma match_slot_in (p : string) (l : list TimeSlot) (t : TimeSlot) :
  match_slot p l = Some t ->
  In t l
  /\ (PyStr.contains (PyStr.lower (ts_time t)) p
      || PyStr.contains p (PyStr.lower (ts_time t))) = true.
Proof.
  induction l as [|x l IH]; simpl; [discriminate|].
  destruct (PyStr.contains (PyStr.lower (ts_time x)) p
            || PyStr.contains p (PyStr.lower (ts_time x))) eqn:E.
  - intros [= <-]. auto.
  - intros H. destruct (IH H). auto.
Qed.

(** Rule 2 keeps the centre or takes one of the city of the context. *)
Lemma adopt_center_center (i : IntentAnalysis) (c : AppointmentContext) :
  selected_center (adopt_center i c) = selected_center c
  \/ exists pref name center,
       center_preference i = Some pref /\ city c = Some name
       /\ selected_center (adopt_center i c) = Some center
       /\ In center (get_service_centers_by_city name)
       /\ PyStr.contains (PyStr.lower pref) (PyStr.lower (sc_name center)) = true.
Proof.
  unfold adopt_center.
  destruct (center_preference i) as [pref|]; [|now left].
  destruct (city c) as [name|] eqn:Ecity; [|now left].
  destruct (_ && _); [|now left].
  destruct (match_center _ _) as [center|] eqn:E; [|now left].
  right. exists pref, name, center. apply match_center_in in E as [? ?].
  repeat split; assumption || reflexivity.
Qed.

Lemma adopt_center_others (i : IntentAnalysis) (c : AppointmentContext) :
  user_id (adopt_center i c) = user_id c
  /\ state (adopt_center i c) = state c
  /\ selected_time_slot (adopt_center i c) = selected_time_slot c.
Proof.
  unfold adopt_center.
  destruct (center_preference i); [|auto].
  destruct (city c); [|auto].
  destruct (_ && _); [|auto]. now destruct (match_center _ _).
Qed.

(** Rule 3 keeps the slot or takes one of the catalogue. *)
Lemma adopt_time_slot_slot (i : IntentAnalysis) (c : AppointmentContext) :
  selected_time_slot (adopt_time_slot i c) = selected_time_slot c
  \/ exists pref slot,
       time_preference i = Some pref
       /\ selected_time_slot (adopt_time_slot i c) = Some slot
       /\ In slot AVAILABLE_TIME_SLOTS
       /\ (PyStr.contains (PyStr.lower (ts_time slot)) (PyStr.lower pref)
           || PyStr.contains (PyStr.lower pref) (PyStr.lower (ts_time slot))) = true.
Proof.
  unfold adopt_time_slot.
  destruct (time_preference i) as [pref|]; [|now left].
  destruct (PyStr.truthy _); [|now left].
  destruct (match_slot _ _) as [slot|] eqn:E; [|now left].
  right. exists pref, slot. apply match_slot_in in E as [? ?]. auto.
Qed.

Lemma adopt_time_slot_others (i : IntentAnalysis) (c : AppointmentContext) :
  user_id (adopt_time_slot i c) = user_id c
  /\ state (adopt_time_slot i c) = state c
  /\ selected_center (adopt_time_slot i c) = selected_center c.
Proof.
  unfold adopt_time_slot.
  destruct (time_preference i); [|auto].
  destruct (PyStr.truthy _); [|auto]. now destruct (match_slot _ _).
Qed.

Lemma advance_state_others (i : IntentAnalysis) (c : AppointmentContext) :
  user_id (advance_state i c) = user_id c
  /\ city (advance_state i c) = city c
  /\ selected_center (advance_state i c) = selected_center c
  /\ selected_time_slot (advance_state i c) = selected_time_slot c.
Proof. unfold advance_state. destruct_ifs; auto. Qed.

(** Rule 4 enters COMPLETED on the label confirmation only. *)
Lemma advance_state_completed (i : IntentAnalysis) (c : AppointmentContext) :
  state (advance_state i c) = COMPLETED ->
  state c = COMPLETED \/ intent i = "confirmation".
Proof.
  unfold advance_state.
  destruct (String.eqb (intent i) "greeting"); [destruct_ifs; simpl; auto; discriminate|].
  destruct (String.eqb (intent i) "booking"); [destruct_ifs; simpl; auto; discriminate|].
  destruct (String.eqb (intent i) "location"); [simpl; discriminate|].
  destruct (String.eqb (intent i) "center_selection"); [simpl; discriminate|].
  destruct (String.eqb (intent i) "time_selection");
    [destruct_ifs; simpl; auto; discriminate|].
  destruct (String.eqb_spec (intent i) "confirmation"); auto.
Qed.

Lemma fill_slots_user_id (i : IntentAnalysis) (c : AppointmentContext) :
  user_id (fill_slots i c) = user_id c.
Proof.
  unfold fill_slots.
  destruct (advance_state_others i
              (adopt_time_slot i (adopt_center i (adopt_city i c)))) as (-> & _).
  destruct (adopt_time_slot_others i (adopt_center i (adopt_city i c))) as (-> & _).
  destruct (adopt_center_others i (adopt_city i c)) as (-> & _).
  now destruct (adopt_city_others i c) as (-> & _).
Qed.

Lemma fill_slots_city (i : IntentAnalysis) (c : AppointmentContext) :
  city (fill_slots i c) = city (adopt_city i c).
Proof.
  unfold fill_slots.
  destruct (advance_state_others i
              (adopt_time_slot i (adopt_center i (adopt_city i c)))) as (_ & -> & _).
  now rewrite adopt_time_slot_city, adopt_center_city.
Qed.

Lemma fill_slots_center (i : IntentAnalysis) (c : AppointmentContext) :
  selected_center (fill_slots i c) = selected_center (adopt_center i (adopt_city i c)).
Proof.
  unfold fill_slots.
  destruct (advance_state_others i
              (adopt_time_slot i (adopt_center i (adopt_city i c)))) as (_ & _ & -> & _).
  now destruct (adopt_time_slot_others i (adopt_center i (adopt_city i c)))
    as (_ & _ & ->).
Qed.

Lemma fill_slots_slot (i : IntentAnalysis) (c : AppointmentContext) :
  selected_time_slot (fill_slots i c)
  = selected_time_slot (adopt_time_slot i (adopt_center i (adopt_city i c))).
Proof.
  unfold fill_slots.
  now destruct (advance_state_others i
                  (adopt_time_slot i (adopt_center i (adopt_city i c))))
    as (_ & _ & _ & ->).
Qed.

Lemma fill_slots_completed (i : IntentAnalysis) (c : AppointmentContext) :
  state (fill_slots i c) = COMPLETED ->
  state c = COMPLETED \/ intent i = "confirmation".
Proof.
  unfold fill_slots. intros H. apply advance_state_completed in H as [H|H]; [|auto].
  left.
  destruct (adopt_time_slot_others i (adopt_center i (adopt_city i c))) as (_ & E1 & _).
  destruct (adopt_center_others i (adopt_city i c)) as (_ & E2 & _).
  destruct (adopt_city_others i c) as (_ & E3 & _).
  congruence.
Qed.

Lemma update_context_state_user_id (c : AppointmentContext) (i : IntentAnalysis)
    (t1 t2 : datetime) (calls : list AppointmentRow) :
  user_id (fst (update_context_state c i t1 t2 calls)) = user_id c.
Proof.
  rewrite update_context_state_cases.
  destruct (must_record _); simpl; apply fill_slots_user_id.
Qed.

(** ** The city, once known, is kept *)

Lemma fill_slots_city_kept (i : IntentAnalysis) (c : AppointmentContext) :
  PyStr.truthy (city c) = true -> city (fill_slots i c) = city c.
Proof.
  intros H. rewrite fill_slots_city, adopt_city_city, H.
  now rewrite andb_false_r.
Qed.

(** Once the context has a non-empty city, no sequence of turns changes
    it, whatever city the later intents carry. *)
Theorem city_never_replaced (s : Session) (turns : list Turn) :
  PyStr.truthy (city (fst s)) = true ->
  city (fst (run_turns s turns)) = city (fst s).
Proof.
  revert s. induction turns as [|t turns IH]; intros s H; [reflexivity|].
  change (run_turns s (t :: turns)) with (run_turns (step s t) turns).
  assert (E : city (fst (step s t)) = city (fst s)).
  { unfold step.
    destruct (update_context_state_fields (fst s) (turn_intent t)
                (turn_record_time t) (turn_now t) (snd s)) as (_ & -> & _).
    now apply fill_slots_city_kept. }
  rewrite IH; [exact E | now rewrite E].
Qed.

(** At the scenario: after the booking in Riyadh, a location intent
    naming Makkah leaves the city at Riyadh. *)
Lemma city_never_replaced_witness :
  city (fst (run_turns (run_turns U1_fresh [turn_at_clock0 booking_in_riyadh])
                       [turn_at_clock0 location_makkah]))
  = Some "Riyadh".
Proof.
  apply (city_never_replaced (run_turns U1_fresh [turn_at_clock0 booking_in_riyadh])
           [turn_at_clock0 location_makkah]).
  reflexivity.
Defined.

(** ** A found city is a served city *)

Lemma find_city_in_titles (keys : list string) (text_lower c : string) :
  find_city_in keys text_lower = Some c -> In c (map PyStr.title keys).
Proof.
  induction keys as [|k keys IH]; simpl; [discriminate|].
  destruct (PyStr.contains k text_lower); [intros [= <-]; now left | auto].
Qed.

(** Whatever the text, a city [find_city_from_text] returns is not
    empty, has at least one centre in the directory, and is found again
    in its own name. *)
Theorem found_city_is_served (text c : string) :
  find_city_from_text text = Some c ->
  c <> "" /\ get_service_centers_by_city c <> [] /\ find_city_from_text c = Some c.
Proof.
  unfold find_city_from_text. intros H. apply find_city_in_titles in H.
  vm_compute in H.
  repeat (destruct H as [<-|H];
          [repeat split; vm_compute; (discriminate || reflexivity)|]).
  contradiction.
Qed.

(** At the first message of the scenario. *)
Lemma found_city_is_served_witness :
  get_service_centers_by_city "Riyadh" <> [].
Proof.
  apply (found_city_is_served "I need to book a service in Riyadh" "Riyadh").
  reflexivity.
Defined.

Lemma served_city_truthy (name : string) (center : ServiceCenter) :
  In center (get_service_centers_by_city name) -> PyStr.truthy (Some name) = true.
Proof.
  simpl. destruct (String.eqb_spec name ""); [|reflexivity].
  subst name. intros H. vm_compute in H. contradiction.
Qed.

(** ** Selections come from the catalogues *)

Lemma fill_slots_selections (i : IntentAnalysis) (c : AppointmentContext) :
  selections_in_catalogue c -> selections_in_catalogue (fill_slots i c).
Proof.
  intros [Hcenter Hslot]. split.
  - intros center. rewrite fill_slots_center, fill_slots_city.
    destruct (adopt_center_center i (adopt_city i c))
      as [E | (pref & name & center' & _ & Hcity & E & Hin & _)]; rewrite E.
    + destruct (adopt_city_others i c) as (_ & _ & -> & _). intros H.
      destruct (Hcenter _ H) as (name & Hcity & Hin). exists name.
      split; [|assumption]. rewrite adopt_city_city, Hcity.
      rewrite (served_city_truthy _ _ Hin). now rewrite andb_false_r.
    + intros [= <-]. exists name. auto.
  - intros slot. rewrite fill_slots_slot.
    destruct (adopt_time_slot_slot i (adopt_center i (adopt_city i c)))
      as [E | (pref & slot' & _ & E & Hin & _)]; rewrite E.
    + destruct (adopt_center_others i (adopt_city i c)) as (_ & _ & ->).
      destruct (adopt_city_others i c) as (_ & _ & _ & ->). apply Hslot.
    + now intros [= <-].
Qed.

Lemma step_selections (s : Session) (t : Turn) :
  selections_in_catalogue (fst s) -> selections_in_catalogue (fst (step s t)).
Proof.
  intros H. unfold step.
  destruct (update_context_state_fields (fst s) (turn_intent t)
              (turn_record_time t) (turn_now t) (snd s)) as (_ & E1 & E2 & E3).
  apply (fill_slots_selections (turn_intent t)) in H. destruct H as [Hc Hs].
  split.
  - intros center. rewrite E2, E1. apply Hc.
  - intros slot. rewrite E3. apply Hs.
Qed.

(** Whatever the turns of a conversation that starts on a fresh context,
    the centre it has selected is one of the centres the directory lists
    for the city of the context, and the slot it has selected is one of
    the catalogue. *)
Theorem selections_from_catalogues (uid : string) (t0 : datetime) (turns : list Turn) :
  selections_in_catalogue (fst (run_turns (new_context uid t0, []) turns)).
Proof.
  assert (H : selections_in_catalogue (fst (new_context uid t0, @nil AppointmentRow)))
    by (split; intros ? H; discriminate H).
  revert H. generalize (new_context uid t0, @nil AppointmentRow).
  induction turns as [|t turns IH]; intros s H; [exact H|].
  change (run_turns s (t :: turns)) with (run_turns (step s t) turns).
  apply IH. now apply step_selections.
Qed.

(** ** Recording needs a confirmation *)

Lemma step_completed_or_recorded (s : Session) (t : Turn) :
  state (fst (step s t)) = COMPLETED \/ snd (step s t) <> [] ->
  (state (fst s) = COMPLETED \/ snd s <> [])
  \/ intent (turn_intent t) = "confirmation".
Proof.
  unfold step. destruct s as [c calls]. simpl fst. simpl snd.
  rewrite update_context_state_cases. cbv zeta.
  destruct (must_record _) eqn:E; simpl.
  - intros _. apply must_record_true in E as (E & _).
    apply fill_slots_completed in E as [E|E]; auto.
  - intros [H|H]; [|auto].
    apply fill_slots_completed in H as [H|H]; auto.
Qed.

Lemma run_completed_or_recorded (turns : list Turn) :
  forall s : Session,
  state (fst (run_turns s turns)) = COMPLETED \/ snd (run_turns s turns) <> [] ->
  (state (fst s) = COMPLETED \/ snd s <> [])
  \/ Exists (fun t => intent (turn_intent t) = "confirmation") turns.
Proof.
  induction turns as [|t turns IH]; intros s H; [now left|].
  change (run_turns s (t :: turns)) with (run_turns (step s t) turns) in H.
  apply IH in H as [H|H]; [|right; now apply Exists_cons_tl].
  apply step_completed_or_recorded in H as [H|H]; [now left|].
  right. now apply Exists_cons_hd.
Qed.

(** In a conversation that starts on a fresh context, the state
    COMPLETED is reached, and the Recorder is called, only if some turn
    carried the label confirmation: slots and centres filled by the
    other labels never complete a booking. *)
Theorem recording_needs_confirmation (uid : string) (t0 : datetime)
    (turns : list Turn) :
  let s := run_turns (new_context uid t0, []) turns in
  state (fst s) = COMPLETED \/ snd s <> [] ->
  Exists (fun t => intent (turn_intent t) = "confirmation") turns.
Proof.
  intros s H. apply run_completed_or_recorded in H as [[H|H]|H].
  - discriminate H.
  - now contradiction H.
  - exact H.
Qed.

(** At the scenario followed by a confirmation. *)
Lemma recording_needs_confirmation_witness :
  Exists (fun t => intent (turn_intent t) = "confirmation")
    (three_turns ++ [turn_at_clock0 confirm]).
Proof.
  apply (recording_needs_confirmation "U1" clock0
           (three_turns ++ [turn_at_clock0 confirm])).
  left. reflexivity.
Defined.

(** ** What the Recorder is given *)

Lemma row_in_catalogue_kept (uid : string) (c c' : AppointmentContext)
    (row : AppointmentRow) :
  (PyStr.truthy (city c) = true -> city c' = city c) ->
  row_in_catalogue uid c row -> row_in_catalogue uid c' row.
Proof.
  intros Hkeep (Hu & Hcity & (center & Hin & Hc) & Hslot).
  split; [assumption|]. split; [|split; [exists center; auto | assumption]].
  rewrite Hkeep; [assumption|]. rewrite Hcity. now apply (served_city_truthy _ center).
Qed.

Lemma appointment_row_in_catalogue (c : AppointmentContext) (now : datetime) :
  selections_in_catalogue c ->
  selected_center c <> None -> selected_time_slot c <> None ->
  row_in_catalogue (user_id c) c (appointment_row c now).
Proof.
  intros [Hc Hs] Hcenter Hslot. unfold row_in_catalogue, appointment_row.
  destruct (selected_center c) as [center|] eqn:Ec; [|contradiction].
  destruct (selected_time_slot c) as [slot|] eqn:Es; [|contradiction].
  destruct (Hc _ eq_refl) as (name & Hcity & Hin).
  pose proof (Hs _ eq_refl) as Hin'.
  cbn [row_user_id row_city row_center row_date row_time].
  rewrite Hcity. unfold PyStr.or_else.
  rewrite (served_city_truthy _ _ Hin). cbn [default].
  split; [reflexivity|]. split; [reflexivity|].
  split; [exists center | exists slot]; auto.
Qed.

Lemma step_rows (uid : string) (s : Session) (t : Turn) :
  user_id (fst s) = uid ->
  selections_in_catalogue (fst s) ->
  Forall (row_in_catalogue uid (fst s)) (snd s) ->
  Forall (row_in_catalogue uid (fst (step s t))) (snd (step s t)).
Proof.
  intros Hu Hsel Hrows.
  assert (Hkeep : PyStr.truthy (city (fst s)) = true ->
                  city (fst (step s t)) = city (fst s)).
  { intros H. unfold step.
    destruct (update_context_state_fields (fst s) (turn_intent t)
                (turn_record_time t) (turn_now t) (snd s)) as (_ & -> & _).
    now apply fill_slots_city_kept. }
  assert (Hold : Forall (row_in_catalogue uid (fst (step s t))) (snd s)).
  { eapply Forall_impl; [exact Hrows|]. intros row. now apply row_in_catalogue_kept. }
  pose proof (fill_slots_selections (turn_intent t) _ Hsel) as Hfilled.
  revert Hold. unfold step. destruct s as [c calls]. simpl fst in *. simpl snd in *.
  rewrite update_context_state_cases. cbv zeta.
  destruct (must_record _) eqn:E; simpl.
  - intros Hold. apply Forall_app_2; [assumption|].
    constructor; [|constructor].
    apply must_record_true in E as (_ & Hce & Hsl & _).
    pose proof (appointment_row_in_catalogue _ (turn_record_time t) Hfilled Hce Hsl)
      as H.
    rewrite fill_slots_user_id, Hu in H.
    destruct H as (H1 & H2 & H3 & H4). repeat split; assumption.
  - auto.
Qed.

(** Whatever the turns of a conversation that starts on a fresh context,
    every row given to the Recorder names the user of the context, the
    city the context still has, a centre the directory lists for that
    city and a slot of the catalogue. *)
Theorem recorded_rows_in_catalogue (uid : string) (t0 : datetime) (turns : list Turn) :
  let s := run_turns (new_context uid t0, []) turns in
  user_id (fst s) = uid /\ Forall (row_in_catalogue uid (fst s)) (snd s).
Proof.
  cbv zeta.
  assert (H : user_id (fst (new_context uid t0, @nil AppointmentRow)) = uid
              /\ selections_in_catalogue (fst (new_context uid t0, @nil AppointmentRow))
              /\ Forall (row_in_catalogue uid (fst (new_context uid t0, @nil AppointmentRow)))
                   (snd (new_context uid t0, @nil AppointmentRow))).
  { split; [reflexivity|]. split; [split; intros ? H; discriminate H | constructor]. }
  revert H. generalize (new_context uid t0, @nil AppointmentRow).
  induction turns as [|t turns IH]; intros s (Hu & Hsel & Hrows); [auto|].
  change (run_turns s (t :: turns)) with (run_turns (step s t) turns).
  apply IH. split; [|split].
  - unfold step. now rewrite update_context_state_user_id.
  - now apply step_selections.
  - now apply step_rows.
Qed.

(** ** Selections are never cleared *)

Lemma fill_slots_center_kept (i : IntentAnalysis) (c : AppointmentContext) :
  is_set (selected_center c) = true ->
  is_set (selected_center (fill_slots i c)) = true.
Proof.
  rewrite fill_slots_center.
  destruct (adopt_center_center i (adopt_city i c))
    as [E | (_ & _ & center & _ & _ & E & _)]; rewrite E; [|reflexivity].
  now destruct (adopt_city_others i c) as (_ & _ & -> & _).
Qed.

Lemma fill_slots_slot_kept (i : IntentAnalysis) (c : AppointmentContext) :
  is_set (selected_time_slot c) = true ->
  is_set (selected_time_slot (fill_slots i c)) = true.
Proof.
  rewrite fill_slots_slot.
  destruct (adopt_time_slot_slot i (adopt_center i (adopt_city i c)))
    as [E | (_ & slot & _ & E & _)]; rewrite E; [|reflexivity].
  destruct (adopt_center_others i (adopt_city i c)) as (_ & _ & ->).
  now destruct (adopt_city_others i c) as (_ & _ & _ & ->).
Qed.

(** No sequence of turns clears a selection: a context with a selected
    centre has a selected centre after the turns, and likewise for the
    slot. *)
Theorem selections_never_cleared (s : Session) (turns : list Turn) :
  (is_set (selected_center (fst s)) = true ->
   is_set (selected_center (fst (run_turns s turns))) = true)
  /\ (is_set (selected_time_slot (fst s)) = true ->
      is_set (selected_time_slot (fst (run_turns s turns))) = true).
Proof.
  revert s. induction turns as [|t turns IH]; intros s; [auto|].
  change (run_turns s (t :: turns)) with (run_turns (step s t) turns).
  destruct (IH (step s t)) as [IHc IHs].
  destruct (update_context_state_fields (fst s) (turn_intent t)
              (turn_record_time t) (turn_now t) (snd s)) as (_ & _ & Ec & Es).
  split; intros H.
  - apply IHc. unfold step. rewrite Ec. now apply fill_slots_center_kept.
  - apply IHs. unfold step. rewrite Es. now apply fill_slots_slot_kept.
Qed.

(** At the scenario: the centre selected on the second turn is still
    selected after a greeting and a location intent naming Makkah. *)
Lemma selections_never_cleared_witness :
  is_set (selected_center
            (fst (run_turns (run_turns U1_fresh (firstn 2 three_turns))
                    [turn_at_clock0 (IntentAnalysis_basic "greeting" (dec 9 1));
                     turn_at_clock0 location_makkah]))) = true.
Proof.
  apply (selections_never_cleared (run_turns U1_fresh (firstn 2 three_turns))).
  reflexivity.
Defined.

(** ** Conversations without the text-generation chain *)

Lemma analyze_intent_offline (message : string) (c : AppointmentContext) :
  analyze_intent None message c = _fallback_intent_analysis message c.
Proof. reflexivity. Qed.

(** The keyword heuristics never carry a centre preference, and give
    one of five labels. *)
Lemma fallback_shape (message : string) (c : AppointmentContext) :
  let a := _fallback_intent_analysis message c in
  center_preference a = None
  /\ (intent a = "booking" \/ intent a = "greeting" \/ intent a = "location"
      \/ intent a = "time_selection" \/ intent a = "other").
Proof.
  unfold _fallback_intent_analysis. cbv zeta.
  destruct (PyStr.any_in booking_keywords _); [simpl; auto|].
  destruct (PyStr.any_in greeting_keywords _); [simpl; auto|].
  destruct (_ || _); [simpl; auto 6|].
  destruct (_ || _); simpl; auto 6.
Qed.

Lemma fill_slots_stuck (i : IntentAnalysis) (c : AppointmentContext) :
  center_preference i = None ->
  (intent i = "booking" \/ intent i = "greeting" \/ intent i = "location"
   \/ intent i = "time_selection" \/ intent i = "other") ->
  stuck_before_centre c -> stuck_before_centre (fill_slots i c).
Proof.
  intros Hpref Hlabel (Hcenter & Hconf & Hcomp & Hsaved).
  assert (Ecenter : selected_center (fill_slots i c) = None).
  { rewrite fill_slots_center. unfold adopt_center. rewrite Hpref.
    now destruct (adopt_city_others i c) as (_ & _ & -> & _). }
  split; [assumption|]. rewrite fill_slots_saved.
  assert (Est : state (adopt_time_slot i (adopt_center i (adopt_city i c))) = state c).
  { destruct (adopt_time_slot_others i (adopt_center i (adopt_city i c))) as (_ & -> & _).
    destruct (adopt_center_others i (adopt_city i c)) as (_ & -> & _).
    now destruct (adopt_city_others i c) as (_ & -> & _). }
  assert (Ece : selected_center (adopt_time_slot i (adopt_center i (adopt_city i c)))
                = None).
  { rewrite <- Ecenter, fill_slots_center.
    now destruct (adopt_time_slot_others i (adopt_center i (adopt_city i c)))
      as (_ & _ & ->). }
  unfold fill_slots, advance_state.
  destruct Hlabel as [E|[E|[E|[E|E]]]]; rewrite E; simpl; rewrite ?Ece; simpl;
    destruct_ifs; simpl; rewrite ?Est; repeat split; assumption || discriminate.
Qed.

Lemma process_message_offline_stuck (s : Session) (m : Message) :
  stuck_before_centre (fst s) -> snd s = [] ->
  let s' := process_message s None (msg_text m) (msg_record_time m) (msg_now m) in
  stuck_before_centre (fst s') /\ snd s' = [].
Proof.
  intros Hstuck Hcalls. unfold process_message. cbv zeta.
  rewrite analyze_intent_offline.
  destruct (fallback_shape (msg_text m) (fst s)) as [Hpref Hlabel].
  pose proof (fill_slots_stuck _ _ Hpref Hlabel Hstuck) as (Hc & H1 & H2 & H3).
  rewrite update_context_state_cases. cbv zeta.
  assert (E : must_record (fill_slots (_fallback_intent_analysis (msg_text m) (fst s))
                             (fst s)) = false).
  { unfold must_record. rewrite Hc. now rewrite andb_false_r. }
  rewrite E. simpl. repeat split; assumption.
Qed.

(** With every call of the text-generation chain failing, a
    conversation that starts on a fresh context never selects a centre,
    never reaches CONFIRMING_APPOINTMENT or COMPLETED, and never calls
    the Recorder, whatever the user writes. *)
Theorem offline_never_books (uid : string) (t0 : datetime) (messages : list Message) :
  let s := run_offline (new_context uid t0, []) messages in
  selected_center (fst s) = None
  /\ state (fst s) <> CONFIRMING_APPOINTMENT
  /\ state (fst s) <> COMPLETED
  /\ appointment_saved (fst s) = false
  /\ snd s = [].
Proof.
  cbv zeta.
  assert (H : stuck_before_centre (fst (new_context uid t0, @nil AppointmentRow))
              /\ snd (new_context uid t0, @nil AppointmentRow) = [])
    by (repeat split; discriminate).
  revert H. generalize (new_context uid t0, @nil AppointmentRow).
  induction messages as [|m messages IH]; intros s [Hstuck Hcalls].
  - destruct Hstuck as (? & ? & ? & ?). repeat split; assumption.
  - change (run_offline s (m :: messages))
      with (run_offline
              (process_message s None (msg_text m) (msg_record_time m) (msg_now m))
              messages).
    apply IH. now apply process_message_offline_stuck.
Qed.

Lemma found_city_truthy (text c : string) :
  find_city_from_text text = Some c -> PyStr.truthy (Some c) = true.
Proof.
  unfold find_city_from_text. intros H. apply find_city_in_titles in H.
  vm_compute in H.
  repeat (destruct H as [<-|H]; [reflexivity|]). contradiction.
Qed.

(** With the text-generation chain failing, a first message that has a
    booking keyword and names a city of the directory puts a fresh
    context in WAITING_CENTER_SELECTION with that city, no centre and no
    slot, also when the city has a single centre and when the message
    carries a time. *)
Theorem booking_message_with_city (uid message c : string) (t0 t1 t2 : datetime) :
  PyStr.any_in booking_keywords (PyStr.lower message) = true ->
  find_city_from_text message = Some c ->
  let s := process_message (new_context uid t0, []) None message t1 t2 in
  state (fst s) = WAITING_CENTER_SELECTION
  /\ city (fst s) = Some c
  /\ selected_center (fst s) = None
  /\ selected_time_slot (fst s) = None
  /\ snd s = [].
Proof.
  intros Hbook Hcity. pose proof (found_city_truthy _ _ Hcity) as Htruthy.
  unfold process_message. cbv zeta. rewrite analyze_intent_offline.
  unfold _fallback_intent_analysis. rewrite Hbook, Hcity.
  unfold update_context_state, adopt_city, adopt_center, adopt_time_slot.
  cbn [ia_city center_preference time_preference intent fst snd new_context city].
  rewrite Htruthy. cbn [PyStr.truthy negb andb].
  unfold advance_state.
  cbn [intent String.eqb Ascii.eqb Bool.eqb set_city city selected_center
       selected_time_slot state].
  rewrite Htruthy. simpl. repeat split.
Qed.

(** At the first message of the scenario. *)
Lemma booking_message_with_city_witness :
  state (fst (process_message (new_context "U1" clock0, []) None
                "I need to book a service in Riyadh" clock0 clock0))
  = WAITING_CENTER_SELECTION.
Proof.
  apply (booking_message_with_city "U1" "I need to book a service in Riyadh"
           "Riyadh" clock0 clock0 clock0); reflexivity.
Defined.

(** ** The analysis of a recovered mapping *)

Import Analysis.

Lemma dict_set_keys {V : Type} (k : string) (v : V) (d : list (string * V)) :
  NoDup (map fst d) ->
  NoDup (map fst (dict_set k v d))
  /\ (forall k', In k' (map fst (dict_set k v d)) -> k' = k \/ In k' (map fst d)).
Proof.
  induction d as [|[k0 v0] d IH]; simpl; intros Hnd.
  - split; [apply NoDup_singleton|]. intros k' [<-|[]]. now left.
  - apply NoDup_cons in Hnd as [Hnotin Hnd].
    destruct (String.eqb k0 k) eqn:E; simpl.
    + split; [now apply NoDup_cons|]. intros k' H. now right.
    + destruct (IH Hnd) as [IH1 IH2]. split.
      * apply NoDup_cons. split; [|assumption].
        rewrite list_elem_of_In. intros Hin.
        destruct (IH2 _ Hin) as [->|Hin'].
        -- now rewrite String.eqb_refl in E.
        -- apply Hnotin. now rewrite list_elem_of_In.
      * intros k' [<-|H]; [right; now left|].
        destruct (IH2 _ H); [now left | right; now right].
Qed.

Lemma dict_get_absent {V : Type} (k : string) (d : list (string * V)) :
  ~ In k (map fst d) -> dict_get k d = None.
Proof.
  induction d as [|[k0 v0] d IH]; simpl; [reflexivity|]. intros H.
  destruct (String.eqb_spec k0 k); [exfalso; auto|]. apply IH. auto.
Qed.

(** Looking a key up in the cleaned mapping. *)
Lemma dict_get_fold_clean (k : string) (d : list (string * json)) :
  forall acc : list (string * json),
  NoDup (map fst d) ->
  dict_get k
    (fold_left
       (fun cleaned_data '(key, value) =>
          if Json.truthy value && negb (prints_as_null value)
          then dict_set key value cleaned_data else cleaned_data) d acc)
  = match dict_get k d with
    | Some v => if kept v then Some v else dict_get k acc
    | None => dict_get k acc
    end.
Proof.
  induction d as [|[k0 v0] d IH]; intros acc Hnd; simpl; [reflexivity|].
  apply NoDup_cons in Hnd as [Hnotin Hnd]. rewrite IH by assumption.
  destruct (String.eqb_spec k0 k) as [->|Hne].
  - rewrite dict_get_absent by (now rewrite <- list_elem_of_In).
    unfold kept. destruct (_ && _); [|reflexivity].
    now rewrite dict_get_set, String.eqb_refl.
  - assert (E : dict_get k
                  (if Json.truthy v0 && negb (prints_as_null v0)
                   then dict_set k0 v0 acc else acc) = dict_get k acc).
    { destruct (_ && _); [|reflexivity]. rewrite dict_get_set.
      destruct (String.eqb_spec k0 k); [contradiction | reflexivity]. }
    rewrite E. reflexivity.
Qed.

Lemma dict_get_clean_data (k : string) (d : list (string * json)) :
  NoDup (map fst d) ->
  dict_get k (clean_data d)
  = match dict_get k d with
    | Some v => if kept v then Some v else None
    | None => None
    end.
Proof. intros H. unfold clean_data. now rewrite dict_get_fold_clean. Qed.

(** The objects [json.loads] builds have distinct keys. *)
Ltac destruct_match_in H :=
  repeat match type of H with
         | context [match ?x with _ => _ end] => destruct x eqn:?; try discriminate H
         end.

#[local] Opaque Json.scan_string Json.skip_ws.

Lemma scan_members_keys (fuel : nat) :
  forall (s : string) (acc : list (string * json)) (v : json) (r : string),
  Json.scan_members fuel s acc = Some (v, r) ->
  NoDup (map fst acc) ->
  exists d, v = JDict d /\ NoDup (map fst d).
Proof.
  induction fuel as [|fuel IH]; intros s acc v r H Hnd; [discriminate H|].
  simpl in H. destruct s as [|c rest]; [discriminate H|].
  destruct (Ascii.eqb c "034"); [|discriminate H].
  destruct (Json.scan_string _ rest) as [[key r0]|]; [|discriminate H].
  simpl in H.
  destruct (Json.skip_ws r0) as [|c1 r1]; [discriminate H|].
  destruct (Ascii.eqb_spec c1 ":") as [->|Hc1];
    [|destruct c1 as [[] [] [] [] [] [] [] []]; try discriminate H; now contradiction Hc1].
  destruct (Json.scan_value fuel (Json.skip_ws r1)) as [[v1 r2]|]; [|discriminate H].
  simpl in H.
  destruct (Json.skip_ws r2) as [|c2 r3]; [discriminate H|].
  destruct (dict_set_keys key v1 acc Hnd) as [Hnd' _].
  destruct (Ascii.eqb_spec c2 "}") as [->|Hc2].
  - injection H as <- <-. eauto.
  - destruct (Ascii.eqb_spec c2 ",") as [->|Hc3].
    + eapply IH; eassumption.
    + destruct c2 as [[] [] [] [] [] [] [] []]; try discriminate H;
        contradiction.
Qed.

Lemma scan_elements_list (fuel : nat) :
  forall (s : string) (acc : list json) (v : json) (r : string),
  Json.scan_elements fuel s acc = Some (v, r) -> exists l, v = JList l.
Proof.
  induction fuel as [|fuel IH]; intros s acc v r H; [discriminate H|].
  simpl in H.
  destruct (Json.scan_value fuel s) as [[v1 r1]|]; [|discriminate H].
  simpl in H.
  destruct (Json.skip_ws r1) as [|c2 r3]; [discriminate H|].
  destruct (Ascii.eqb_spec c2 "]") as [->|Hc2].
  - injection H as <- <-. eauto.
  - destruct (Ascii.eqb_spec c2 ",") as [->|Hc3].
    + eapply IH; eassumption.
    + destruct c2 as [[] [] [] [] [] [] [] []]; try discriminate H;
        contradiction.
Qed.

Lemma scan_number_not_dict (s r : string) (d : list (string * json)) :
  Json.scan_number s <> Some (JDict d, r).
Proof.
  unfold Json.scan_number. intros H.
  destruct (match s with String "-" r0 => (true, r0) | _ => (false, s) end)
    as [negative s1].
  destruct (Json.scan_int s1) as [[int_ds s2]|]; [|discriminate H]. simpl in H.
  destruct (Json.scan_frac s2) as [frac_ds s3].
  destruct (Json.scan_exp s3) as [e s4].
  destruct frac_ds, e; discriminate H.
Qed.

Lemma scan_value_keys (fuel : nat) (s r : string) (d : list (string * json)) :
  Json.scan_value fuel s = Some (JDict d, r) -> NoDup (map fst d).
Proof.
  destruct fuel as [|fuel]; intros H; [discriminate H|].
  simpl in H. destruct s as [|c rest]; [discriminate H|].
  destruct (Ascii.eqb c "034").
  { destruct (Json.scan_string _ rest) as [[? ?]|]; discriminate H. }
  destruct (Ascii.eqb c "{").
  { assert (Hm : forall s', Json.scan_members fuel s' [] = Some (JDict d, r) ->
                            NoDup (map fst d)).
    { intros s' Hs. apply scan_members_keys in Hs as (d' & [= ->] & Hd);
        [assumption | apply NoDup_nil_2]. }
    destruct (Json.skip_ws rest) as [|c1 r1]; [now apply (Hm EmptyString)|].
    destruct (Ascii.eqb_spec c1 "}") as [->|Hc1].
    - injection H as <- <-. apply NoDup_nil_2.
    - destruct c1 as [[] [] [] [] [] [] [] []];
        try (exact (Hm _ H)); contradiction. }
  destruct (Ascii.eqb c "[").
  { assert (Hl : forall s', Json.scan_elements fuel s' [] <> Some (JDict d, r)).
    { intros s' Hs. apply scan_elements_list in Hs as (l & Hs). discriminate Hs. }
    destruct (Json.skip_ws rest) as [|c1 r1]; [now apply Hl in H|].
    destruct (Ascii.eqb_spec c1 "]") as [->|Hc1]; [discriminate H|].
    destruct c1 as [[] [] [] [] [] [] [] []];
      try (exact (False_ind _ (Hl _ H))); contradiction. }
  unfold Json.literal in H.
  repeat match type of H with
         | (if ?b then _ else _) = _ => destruct b; try discriminate H
         end.
  now apply scan_number_not_dict in H.
Qed.

Lemma loads_keys (s : string) (d : list (string * json)) :
  Json.loads s = Some (JDict d) -> NoDup (map fst d).
Proof.
  unfold Json.loads. intros H.
  destruct (Json.scan_value _ _) as [[v rest]|] eqn:E; [|discriminate H].
  simpl in H. destruct (Json.skip_ws rest); [|discriminate H].
  injection H as ->. now apply scan_value_keys in E.
Qed.

#[local] Transparent Json.scan_string Json.skip_ws.

Lemma first_repaired_keys (candidates : list string) (d : list (string * json)) :
  first_repaired candidates = Some (JDict d) -> NoDup (map fst d).
Proof.
  induction candidates as [|x l IH]; simpl; [discriminate|].
  destruct (Json.loads (repair x)) eqn:E; [|assumption].
  intros [= ->]. now apply loads_keys in E.
Qed.

Lemma extract_optional_keys (name response : string) (d : list (string * json)) :
  NoDup (map fst d) -> NoDup (map fst (extract_optional name response d)).
Proof.
  intros H. unfold extract_optional.
  destruct (Re.search _ _) as [[[? g] ?]|]; [|assumption].
  destruct (negb _); [|assumption]. now apply dict_set_keys.
Qed.

Lemma extract_fields_keys (response : string) (d : list (string * json)) :
  extract_fields response = Some d -> NoDup (map fst d).
Proof.
  unfold extract_fields.
  match goal with
  | |- (if dict_has "intent" ?x then _ else _) = _ -> _ =>
      assert (H : NoDup (map fst x)); [|destruct (dict_has "intent" x)]
  end.
  - destruct (Re.search confidence_pattern response) as [[[? g] ?]|];
      [apply dict_set_keys|];
      do 3 apply extract_optional_keys;
      (destruct (Re.search (field_pattern "intent") response) as [[[? g'] ?]|];
       [apply NoDup_singleton | apply NoDup_nil_2]).
  - now intros [= <-].
  - discriminate.
Qed.

(** The mappings recovery returns have distinct keys. *)
Lemma sanitize_keys (response : string) (d : list (string * json)) :
  sanitize_llm_json_response response = JDict d -> NoDup (map fst d).
Proof.
  unfold sanitize_llm_json_response, parse_direct, parse_code_block, parse_json_like.
  destruct (String.eqb response ""); [discriminate|].
  destruct (Json.loads (PyStr.strip response)) eqn:E1;
    [intros ->; now apply loads_keys in E1|].
  destruct (Re.search code_block_pattern response) as [[[? g] ?]|].
  - destruct (Json.loads (Re.group 1 g)) eqn:E2;
      [intros ->; now apply loads_keys in E2|].
    destruct (first_repaired _) eqn:E3;
      [intros ->; now apply first_repaired_keys in E3|].
    destruct (extract_fields response) eqn:E4; [|discriminate].
    intros [= <-]. now apply extract_fields_keys in E4.
  - destruct (first_repaired _) eqn:E3;
      [intros ->; now apply first_repaired_keys in E3|].
    destruct (extract_fields response) eqn:E4; [|discriminate].
    intros [= <-]. now apply extract_fields_keys in E4.
Qed.

Lemma validate_optional_str_clean (key : string) (d : list (string * json)) :
  NoDup (map fst d) -> text_or_absent key d ->
  validate_optional_str (dict_get key (clean_data d))
  = Some (kept_text (dict_get key d)).
Proof.
  intros Hnd. rewrite dict_get_clean_data by assumption.
  unfold text_or_absent, kept_text.
  destruct (dict_get key d) as [[]|]; try contradiction; intros _;
    try reflexivity.
  now destruct (kept (JStr s)).
Qed.

Lemma validate_confidence_clean (d : list (string * json)) :
  NoDup (map fst d) -> number_or_absent "confidence" d ->
  match dict_get "confidence" (clean_data d) with
  | None => Some (dec 5 1)
  | Some v => validate_float v
  end = Some (kept_confidence (dict_get "confidence" d)).
Proof.
  intros Hnd. rewrite dict_get_clean_data by assumption.
  unfold number_or_absent, kept_confidence, kept.
  destruct (dict_get "confidence" d) as [[]|]; try contradiction; intros H;
    try reflexivity.
  - apply Z.ltb_lt in H.
    cbn [Json.truthy prints_as_null andb negb]. rewrite andb_true_r.
    destruct (z =? 0)%Z; cbn [negb]; [reflexivity|].
    cbn [validate_float]. now rewrite H.
  - simpl. rewrite andb_true_r. now destruct (float_truthy f).
Qed.

(** When recovery gives a mapping whose intent is missing, is no text,
    is empty, or reads null or none in any letter case, the analysis is
    that of the keyword heuristics. *)
Theorem unusable_intent_falls_back (response message : string)
    (context : AppointmentContext) (d : list (string * json)) :
  sanitize_llm_json_response response = JDict d ->
  usable_label d = None ->
  analyze_intent (Some response) message context
  = _fallback_intent_analysis message context.
Proof.
  intros Hd Hlabel. pose proof (sanitize_keys _ _ Hd) as Hnd.
  unfold analyze_intent. rewrite Hd.
  destruct (Json.truthy (JDict d)); [|reflexivity].
  assert (E : IntentAnalysis_validate (clean_data d) = None).
  { unfold IntentAnalysis_validate.
    rewrite (dict_get_clean_data "intent") by assumption.
    unfold usable_label in Hlabel.
    destruct (dict_get "intent" d) as [v|]; [|reflexivity].
    destruct v; try (destruct (kept _); reflexivity).
    destruct (kept (JStr s)); [discriminate Hlabel | reflexivity]. }
  now rewrite E.
Qed.

(** At a response whose intent reads null. *)
Lemma unusable_intent_falls_back_witness :
  analyze_intent (Some "intent: null") "hello" (new_context "U1" clock0)
  = _fallback_intent_analysis "hello" (new_context "U1" clock0).
Proof.
  apply (unusable_intent_falls_back "intent: null" "hello" (new_context "U1" clock0)
           [("intent", JStr "null")]); reflexivity.
Defined.

(** When recovery gives a mapping with a usable intent, with optional
    fields that are absent, null or text and a confidence that is
    absent, null or a number, the analysis carries that intent; an
    optional text that is empty or reads null or none is dropped; a
    confidence of zero, like a missing one, becomes the default 0.5. *)
Theorem analysis_of_recovered_mapping (response message label : string)
    (context : AppointmentContext) (d : list (string * json)) :
  sanitize_llm_json_response response = JDict d ->
  usable_label d = Some label ->
  text_or_absent "city" d -> text_or_absent "time_preference" d ->
  text_or_absent "center_preference" d -> text_or_absent "reasoning" d ->
  number_or_absent "confidence" d ->
  analyze_intent (Some response) message context
  = mk_IntentAnalysis label
      (kept_text (dict_get "city" d))
      (kept_text (dict_get "time_preference" d))
      (kept_text (dict_get "center_preference" d))
      (kept_confidence (dict_get "confidence" d))
      (kept_text (dict_get "reasoning" d)).
Proof.
  intros Hd Hlabel Hcity Htime Hcenter Hwhy Hconf.
  pose proof (sanitize_keys _ _ Hd) as Hnd.
  unfold analyze_intent. rewrite Hd.
  assert (Ed : Json.truthy (JDict d) = true).
  { unfold usable_label in Hlabel. destruct d; [discriminate Hlabel | reflexivity]. }
  rewrite Ed.
  assert (E : IntentAnalysis_validate (clean_data d)
              = Some (mk_IntentAnalysis label
                        (kept_text (dict_get "city" d))
                        (kept_text (dict_get "time_preference" d))
                        (kept_text (dict_get "center_preference" d))
                        (kept_confidence (dict_get "confidence" d))
                        (kept_text (dict_get "reasoning" d)))).
  { unfold IntentAnalysis_validate.
    rewrite !validate_optional_str_clean by assumption.
    rewrite validate_confidence_clean by assumption.
    rewrite (dict_get_clean_data "intent") by assumption.
    unfold usable_label in Hlabel.
    destruct (dict_get "intent" d) as [[]|]; try discriminate Hlabel.
    destruct (kept (JStr s)); [|discriminate Hlabel].
    injection Hlabel as ->. reflexivity. }
  now rewrite E.
Qed.

(** At a response whose city reads None and whose confidence is 0. *)
Lemma analysis_of_recovered_mapping_witness :
  analyze_intent (Some null_city_response) "hello" (new_context "U1" clock0)
  = mk_IntentAnalysis "booking" None None None (dec 5 1) None.
Proof.
  apply (analysis_of_recovered_mapping null_city_response "hello" "booking"
           (new_context "U1" clock0)
           [("intent", JStr "booking"); ("city", JStr "None"); ("confidence", JInt 0)]);
    reflexivity || exact I.
Defined.

(** ** The context manager *)

Import Responses Archive.

Lemma contains_colon_cons (c : ascii) (s : string) :
  PyStr.contains ":" (String c s) = Ascii.eqb ":" c || PyStr.contains ":" s.
Proof. simpl. now rewrite andb_true_r. Qed.

Lemma after_last_no_colon (s : string) :
  PyStr.contains ":" (PyStr.after_last ":" s) = false.
Proof.
  induction s as [|c s IH]; [reflexivity|].
  cbn [PyStr.after_last].
  destruct (Ascii.eqb c ":") eqn:Ec; [exact IH|].
  destruct (PyStr.contains ":" s) eqn:Es; [exact IH|].
  rewrite contains_colon_cons, Es, Ascii.eqb_sym, Ec. reflexivity.
Qed.

Lemma after_last_id (s : string) :
  PyStr.contains ":" s = false -> PyStr.after_last ":" s = s.
Proof.
  destruct s as [|c s]; [reflexivity|].
  rewrite contains_colon_cons. intros H. apply orb_false_elim in H as [Hc Hs].
  cbn [PyStr.after_last]. now rewrite Ascii.eqb_sym, Hc, Hs.
Qed.

Lemma contains_colon_app (p s : string) :
  PyStr.contains ":" (p +:+ String ":" s) = true.
Proof.
  induction p as [|c p IH].
  - change ("" +:+ String ":" s) with (String ":" s).
    rewrite contains_colon_cons. reflexivity.
  - rewrite append_cons, contains_colon_cons, IH. apply orb_true_r.
Qed.

Lemma after_last_app (p s : string) :
  PyStr.after_last ":" (p +:+ String ":" s) = PyStr.after_last ":" s.
Proof.
  induction p as [|c p IH].
  - change ("" +:+ String ":" s) with (String ":" s).
    cbn [PyStr.after_last]. reflexivity.
  - rewrite append_cons. cbn [PyStr.after_last].
    rewrite contains_colon_app, IH. now destruct (Ascii.eqb c ":").
Qed.

Lemma clean_user_id_no_colon (u : string) :
  PyStr.contains ":" (clean_user_id u) = false.
Proof.
  unfold clean_user_id. destruct (PyStr.contains ":" u) eqn:E; [|exact E].
  apply after_last_no_colon.
Qed.

Lemma clean_user_id_plain (u : string) :
  PyStr.contains ":" u = false -> clean_user_id u = u.
Proof. intros H. unfold clean_user_id. now rewrite H. Qed.

Lemma clean_user_id_idem (u : string) :
  clean_user_id (clean_user_id u) = clean_user_id u.
Proof. apply clean_user_id_plain, clean_user_id_no_colon. Qed.

Lemma clean_user_id_prefixed (p u : string) :
  PyStr.contains ":" u = false -> clean_user_id (p +:+ ":" +:+ u) = u.
Proof.
  intros H. unfold clean_user_id.
  change (":" +:+ u) with (String ":" u).
  rewrite contains_colon_app, after_last_app. now apply after_last_id.
Qed.

(** An identifier that carries a channel prefix, as in
    whatsapp:+966..., and the bare identifier after the prefix name the
    same user: [get_context] gives both the same context and leaves the
    manager in the same state, and so do [reset_context] and
    [get_recent_history]. The bare identifier is its own canonical
    form. *)
Theorem channel_prefix_is_ignored (channel u : string) :
  PyStr.contains ":" u = false ->
  clean_user_id (channel +:+ ":" +:+ u) = u
  /\ clean_user_id u = u
  /\ (forall cm now,
        get_context cm (channel +:+ ":" +:+ u) now = get_context cm u now)
  /\ (forall cm now,
        reset_context cm (channel +:+ ":" +:+ u) now = reset_context cm u now)
  /\ (forall cm limit,
        get_recent_history cm (channel +:+ ":" +:+ u) limit
        = get_recent_history cm u limit).
Proof.
  intros H.
  pose proof (clean_user_id_prefixed channel u H) as Ep.
  pose proof (clean_user_id_plain u H) as Eu.
  repeat split; try assumption; intros.
  - unfold get_context. now rewrite Ep, Eu.
  - unfold reset_context. now rewrite Ep, Eu.
  - unfold get_recent_history. now rewrite Ep, Eu.
Qed.

(** At the WhatsApp form of a telephone number. *)
Lemma channel_prefix_is_ignored_witness :
  clean_user_id "whatsapp:+966500000000" = "+966500000000".
Proof.
  exact (proj1 (channel_prefix_is_ignored "whatsapp" "+966500000000" eq_refl)).
Defined.

Lemma get_context_hit (cm : ContextManager.ContextManager) (u : string)
    (now : datetime) (context : AppointmentContext) :
  _contexts cm !! clean_user_id u = Some context ->
  get_context cm u now = (context, cm).
Proof. intros H. unfold get_context. now rewrite H. Qed.

Lemma get_context_spec (cm : ContextManager.ContextManager) (u : string)
    (now : datetime) :
  files (snd (get_context cm u now)) = files cm
  /\ history_dir (snd (get_context cm u now)) = history_dir cm
  /\ _contexts (snd (get_context cm u now)) !! clean_user_id u
     = Some (fst (get_context cm u now)).
Proof.
  unfold get_context.
  destruct (_contexts cm !! clean_user_id u) as [context|] eqn:Hc; simpl.
  - auto.
  - now rewrite lookup_insert_eq.
Qed.

Lemma get_context_miss (cm : ContextManager.ContextManager) (u : string)
    (now : datetime) :
  _contexts cm !! clean_user_id u = None ->
  fst (get_context cm u now)
  = default (new_context (clean_user_id u) now)
      (_load_context_from_file cm (clean_user_id u) now).
Proof.
  intros H. unfold get_context. rewrite H. simpl.
  now destruct (_load_context_from_file cm (clean_user_id u) now).
Qed.

(** Whatever an identifier looks like, its canonical form holds no
    colon, and canonical forms are fixed: the keys of the cache and the
    names of the files never carry a channel prefix. Once a context is
    handed out it stays the answer for every identifier with the same
    canonical form, at any later time and whatever the files hold by
    then: the snapshot of a cached user is not read again. *)
Theorem cached_context_is_the_answer (cm : ContextManager.ContextManager)
    (u u' : string) (now now' : datetime) (later : gmap string FileContent) :
  clean_user_id u' = clean_user_id u ->
  PyStr.contains ":" (clean_user_id u) = false
  /\ clean_user_id (clean_user_id u) = clean_user_id u
  /\ files (snd (get_context cm u now)) = files cm
  /\ get_context (snd (get_context cm u now)) u' now' = get_context cm u now
  /\ fst (get_context (set_files later (snd (get_context cm u now))) u' now')
     = fst (get_context cm u now).
Proof.
  intros E.
  split; [apply clean_user_id_no_colon|].
  split; [apply clean_user_id_idem|].
  destruct (get_context_spec cm u now) as (Hf & _ & Hc).
  destruct (get_context cm u now) as [context cm'] eqn:Hg. simpl in *.
  split; [assumption|].
  rewrite <- E in Hc.
  split; [now apply get_context_hit|].
  now rewrite (get_context_hit (set_files later cm') u' now' context).
Qed.

(** With the two forms of one telephone number, on an empty directory. *)
Lemma cached_context_is_the_answer_witness :
  fst (get_context
         (set_files ∅ (snd (get_context (new_manager "History") "whatsapp:+1" clock0)))
         "+1" clock0)
  = fst (get_context (new_manager "History") "whatsapp:+1" clock0).
Proof.
  exact (proj2 (proj2 (proj2 (proj2
    (cached_context_is_the_answer (new_manager "History") "whatsapp:+1" "+1"
       clock0 clock0 ∅ eq_refl))))).
Defined.

Import Durability.

(** ** Files *)

Lemma string_length_app (a b : string) :
  String.length (a +:+ b) = String.length a + String.length b.
Proof.
  induction a as [|c a IH]; [reflexivity|].
  rewrite append_cons. simpl. now rewrite IH.
Qed.

Lemma string_app_inv_head (p a b : string) : p +:+ a = p +:+ b -> a = b.
Proof.
  induction p as [|c p IH]; [now rewrite !append_nil|].
  rewrite !append_cons. intros H. injection H as H. now apply IH.
Qed.

Lemma string_app_inv_tail (a b s t : string) :
  String.length s = String.length t -> a +:+ s = b +:+ t -> a = b /\ s = t.
Proof.
  intros Hlen. revert b.
  induction a as [|c a IH]; intros [|c' b]; rewrite ?append_nil, ?append_cons; intros H.
  - now split.
  - exfalso. apply (f_equal String.length) in H. simpl in H.
    rewrite string_length_app in H. lia.
  - exfalso. apply (f_equal String.length) in H. simpl in H.
    rewrite string_length_app in H. lia.
  - injection H as -> H. destruct (IH b H) as [-> ->]. now split.
Qed.

Lemma context_file_inj (cm : ContextManager.ContextManager) (u u' : string) :
  context_file cm u = context_file cm u' -> u = u'.
Proof.
  unfold context_file. intros H.
  apply string_app_inv_head, string_app_inv_head in H.
  now apply string_app_inv_tail in H as [H _].
Qed.

Lemma history_file_inj (cm : ContextManager.ContextManager) (u u' : string) :
  history_file cm u = history_file cm u' -> u = u'.
Proof.
  unfold history_file. intros H.
  apply string_app_inv_head, string_app_inv_head in H.
  now apply string_app_inv_tail in H as [H _].
Qed.

Lemma context_file_not_history (cm : ContextManager.ContextManager) (u u' : string) :
  context_file cm u <> history_file cm u'.
Proof.
  unfold context_file, history_file. intros H.
  apply string_app_inv_head, string_app_inv_head in H.
  apply string_app_inv_tail in H as [_ H]; [discriminate H | reflexivity].
Qed.

Lemma state_of_value_inv (v : string) (s : ConversationState) :
  state_of_value v = Some s -> state_value s = v.
Proof.
  unfold state_of_value. intros H. apply find_some in H as [_ H].
  now apply String.eqb_eq in H.
Qed.



(** A user who is not in the cache and whose snapshot cannot be used
    gets a new initial context, silently; the file is left as it is, so
    the next restart meets the same snapshot. *)
Theorem unusable_snapshot_gives_new_context (cm : ContextManager.ContextManager)
    (u : string) (now : datetime) :
  _contexts cm !! clean_user_id u = None ->
  unusable_snapshot (files cm !! context_file cm (clean_user_id u)) ->
  fst (get_context cm u now) = new_context (clean_user_id u) now
  /\ files (snd (get_context cm u now)) = files cm.
Proof.
  intros Hmiss Hbad. split; [|apply get_context_spec].
  unfold get_context. rewrite Hmiss. simpl.
  unfold _load_context_from_file.
  destruct (files cm !! context_file cm (clean_user_id u)) as [[|data| |]|];
    try reflexivity.
  destruct data; try reflexivity. simpl in Hbad.
  match goal with |- context [JDict ?d] => rename d into members end.
  replace (context_of_document (JDict members) now) with (@None AppointmentContext);
    [reflexivity|].
  symmetry. unfold context_of_document.
  destruct Hbad as [(v & Hv & Hno) | Huid].
  - rewrite Hv. destruct v; try reflexivity.
    destruct (state_of_value s) as [st|] eqn:Est; [|reflexivity].
    apply state_of_value_inv in Est. now destruct (Hno st); rewrite Est.
  - rewrite Huid.
    destruct (match dict_get "state" members with
              | Some (JStr v) => state_of_value v
              | Some _ => None
              | None => Some INITIAL
              end); [|reflexivity]. simpl.
    destruct (match dict_get "last_message_time" members with
              | Some (JStr text) => fromisoformat text
              | Some _ => None
              | None => Some now
              end); reflexivity.
Qed.

(** At a snapshot whose state is not one of the six values. *)
Lemma unusable_snapshot_gives_new_context_witness :
  fst (get_context
         (mk_ContextManager "History" ∅
            {[ "History/U1_context.json" :=
                 Document (JDict [("user_id", JStr "U1"); ("state", JStr "done")]) ]})
         "U1" clock0)
  = new_context "U1" clock0.
Proof.
  refine (proj1 (unusable_snapshot_gives_new_context
    (mk_ContextManager "History" ∅
       {[ "History/U1_context.json" :=
            Document (JDict [("user_id", JStr "U1"); ("state", JStr "done")]) ]})
    "U1" clock0 _ _)).
  - reflexivity.
  - vm_compute. left. exists (JStr "done"). split; [reflexivity|].
    intros []; discriminate.
Defined.

Lemma write_document_other (cm : ContextManager.ContextManager)
    (path p : string) (document : json) :
  p <> path -> files (write_document cm path document) !! p = files cm !! p.
Proof.
  intros H. unfold write_document.
  destruct (files cm !! path) as [[]|]; try reflexivity;
    simpl; now rewrite lookup_insert_ne by congruence.
Qed.

Lemma write_document_keeps (cm : ContextManager.ContextManager)
    (path : string) (document : json) :
  history_dir (write_document cm path document) = history_dir cm
  /\ _contexts (write_document cm path document) = _contexts cm.
Proof. unfold write_document. now destruct (files cm !! path) as [[]|]. Qed.

Lemma _append_to_history_file_shape (cm cm' : ContextManager.ContextManager)
    (u : string) (e : ConversationHistory) :
  _append_to_history_file cm u e = Some cm' ->
  exists l, cm' = write_document cm (history_file cm u) (JList l).
Proof.
  unfold _append_to_history_file. intros H.
  destruct (files cm !! history_file cm u) as [[|[]| |]|]; simpl in H;
    try discriminate H; injection H as <-; eauto.
Qed.

(** Identifiers without a slash name files of the history directory
    itself; for two such users that differ, what is written for one
    changes nothing of the other: an appended history entry leaves the
    other's history and every snapshot as they were, and a saved
    snapshot leaves the other's snapshot and every history as they
    were. *)
Theorem users_files_are_separate (cm cm' : ContextManager.ContextManager)
    (u u' : string) (e : ConversationHistory) (c : AppointmentContext) :
  PyStr.contains "/" u = false -> PyStr.contains "/" u' = false ->
  u <> u' ->
  _append_to_history_file cm u e = Some cm' ->
  (forall limit, _load_recent_history cm' u' limit = _load_recent_history cm u' limit)
  /\ (forall v now, _load_context_from_file cm' v now = _load_context_from_file cm v now)
  /\ (forall now, _load_context_from_file (_save_context_to_file cm u c) u' now
                  = _load_context_from_file cm u' now)
  /\ (forall v limit, _load_recent_history (_save_context_to_file cm u c) v limit
                      = _load_recent_history cm v limit).
Proof.
  intros _ _ Hne Happ.
  apply _append_to_history_file_shape in Happ as (l & ->).
  repeat split; intros.
  - unfold _load_recent_history, history_file.
    rewrite (proj1 (write_document_keeps cm _ _)).
    fold (history_file cm u) (history_file cm u').
    rewrite write_document_other; [reflexivity|].
    intros H. apply history_file_inj in H. congruence.
  - unfold _load_context_from_file, context_file.
    rewrite (proj1 (write_document_keeps cm _ _)).
    fold (context_file cm v).
    rewrite write_document_other; [reflexivity|].
    apply context_file_not_history.
  - unfold _load_context_from_file, _save_context_to_file, context_file.
    rewrite (proj1 (write_document_keeps cm _ _)).
    fold (context_file cm u) (context_file cm u').
    rewrite write_document_other; [reflexivity|].
    intros H. apply context_file_inj in H. congruence.
  - unfold _load_recent_history, _save_context_to_file, history_file.
    rewrite (proj1 (write_document_keeps cm _ _)).
    fold (history_file cm v).
    rewrite write_document_other; [reflexivity|].
    intros H. symmetry in H. now apply context_file_not_history in H.
Qed.

(** With two users where every file can be created. *)
Lemma users_files_are_separate_witness :
  _load_recent_history
    (set_files {[ "History/U1_history.json" := Document (JList [entry_dict (numbered_entry 0)]) ]}
       (new_manager "History")) "U2" 3%Z
  = _load_recent_history (new_manager "History") "U2" 3%Z.
Proof.
  refine (proj1 (users_files_are_separate (new_manager "History") _ "U1" "U2"
                   (numbered_entry 0) (new_context "U1" clock0) _ _ _ _) 3%Z).
  - reflexivity.
  - reflexivity.
  - discriminate.
  - reflexivity.
Defined.

(** ** Reading the history back *)

Lemma history_entry_of_entry_dict (e : ConversationHistory) :
  storable e -> history_entry_of (entry_dict e) = Returned e.
Proof.
  intros [Hvalid Hsummary]. destruct e as [ts um br summary]. simpl in *.
  unfold history_entry_of, entry_dict. simpl.
  rewrite fromisoformat_isoformat by assumption.
  destruct summary as [[]|]; try contradiction; reflexivity.
Qed.









Lemma recent_entries_caught (good : list ConversationHistory) (bad : json)
    (rest : list json) :
  Forall storable good ->
  history_entry_of bad = Caught ->
  recent_entries (map entry_dict good ++ bad :: rest) = Caught.
Proof.
  intros Hgood Hbad. induction Hgood as [|e l He _ IH]; cbn [map app recent_entries].
  - now rewrite Hbad.
  - now rewrite history_entry_of_entry_dict, IH.
Qed.

Lemma missing_key_caught (e : list (string * json)) :
  missing_key e -> history_entry_of (JDict e) = Caught.
Proof.
  intros [H | (t & Ht & Hvalid & H)]; unfold history_entry_of.
  - now rewrite H.
  - rewrite Ht, fromisoformat_isoformat by assumption.
    destruct H as [H | H]; rewrite H; [reflexivity|].
    now destruct (dict_get "user_message" e).
Qed.

(** One entry that lacks a required key, anywhere among the entries
    asked for, makes [_load_recent_history] return an empty list: the
    entries before it, which are sound, are not returned either. *)
Theorem one_bad_entry_hides_history (cm : ContextManager.ContextManager)
    (uid : string) (good : list ConversationHistory) (e : list (string * json))
    (rest : list json) (limit : Z) :
  files cm !! history_file cm uid
  = Some (Document (JList (map entry_dict good ++ JDict e :: rest))) ->
  Forall storable good ->
  missing_key e ->
  (limit = 0 \/ Z.of_nat (length rest) < limit)%Z ->
  _load_recent_history cm uid limit = Some [].
Proof.
  intros Hfile Hgood Hbad Hlimit.
  unfold _load_recent_history. rewrite Hfile.
  assert (E : exists good', Forall storable good'
             /\ slice_from_end limit (map entry_dict good ++ JDict e :: rest)
                = map entry_dict good' ++ JDict e :: rest).
  { unfold slice_from_end. destruct Hlimit as [-> | Hlt].
    - exists good. now split.
    - destruct (0 <? limit)%Z eqn:Epos; [|apply Z.ltb_ge in Epos; lia].
      exists (drop (length (map entry_dict good ++ JDict e :: rest) - Z.to_nat limit) good).
      split; [now apply Forall_drop|].
      rewrite length_app, length_map. simpl length.
      rewrite drop_app_le by (rewrite length_map; lia).
      now rewrite <- skipn_map. }
  destruct E as (good' & Hgood' & ->).
  rewrite recent_entries_caught; auto using missing_key_caught.
Qed.

(** With a sound entry followed by one that has no timestamp. *)
Lemma one_bad_entry_hides_history_witness :
  _load_recent_history
    (set_files
       {[ "History/U1_history.json" :=
            Document (JList [entry_dict (numbered_entry 0);
                             JDict [("user_message", JStr "hello")]]) ]}
       (new_manager "History"))
    "U1" 3
  = Some [].
Proof.
  apply (one_bad_entry_hides_history _ "U1" [numbered_entry 0]
           [("user_message", JStr "hello")] [] 3).
  - reflexivity.
  - repeat constructor.
  - left. reflexivity.
  - right. simpl. lia.
Defined.

(** ** Clean-up *)

(** A clean-up that returns touches no file. For every user it either
    changes nothing or does what a restart does: a cached context that
    is older than the cut-off is dropped, so that the next
    [get_context] reads the snapshot or starts anew; any other context
    stays in the cache. *)
Theorem cleanup_is_a_partial_restart (cm cm' : ContextManager.ContextManager)
    (days : Z) (now : datetime) :
  cleanup_old_contexts cm days now = Some cm' ->
  files cm' = files cm
  /\ history_dir cm' = history_dir cm
  /\ forall u,
       match _contexts cm !! clean_user_id u with
       | Some context =>
           (idle_since context days now ->
            forall now', fst (get_context cm' u now')
                         = fst (get_context (clear_cache cm) u now'))
           /\ (~ idle_since context days now ->
               forall now', get_context cm' u now' = (context, cm'))
       | None =>
           forall now', fst (get_context cm' u now') = fst (get_context cm u now')
       end.
Proof.
  unfold cleanup_old_contexts. intros H.
  destruct (_ && _); [|discriminate H]. injection H as <-.
  split; [reflexivity|]. split; [reflexivity|]. intros u.
  set (keep := fun entry : string * AppointmentContext =>
                 (microseconds_of (last_message_time (snd entry))
                  <? microseconds_of now - days * microseconds_per_day)%Z = false).
  destruct (_contexts cm !! clean_user_id u) as [context|] eqn:Hc.
  - split.
    + intros Hidle now'. rewrite !get_context_miss; [reflexivity| |].
      * simpl. apply lookup_empty.
      * simpl. apply map_lookup_filter_None. right. intros c Hc'.
        rewrite Hc in Hc'. injection Hc' as <-. cbn [snd].
        unfold idle_since in Hidle. apply Z.ltb_lt in Hidle.
        unfold keep. cbn [snd]. now rewrite Hidle.
    + intros Hfresh now'. apply get_context_hit. simpl.
      apply map_lookup_filter_Some. split; [assumption|]. unfold keep. cbn [snd].
      apply Z.ltb_ge. unfold idle_since in Hfresh. lia.
  - intros now'. rewrite !get_context_miss; [reflexivity|assumption|].
    simpl. apply map_lookup_filter_None. now left.
Qed.

(** A context last touched at the time of a clean-up for seven days
    stays in the cache. *)
Lemma cleanup_is_a_partial_restart_witness :
  exists cm',
    cleanup_old_contexts
      (mk_ContextManager "History" {[ "U1" := new_context "U1" clock0 ]} ∅) 7 clock0
    = Some cm'
    /\ get_context cm' "U1" clock0 = (new_context "U1" clock0, cm').
Proof.
  eexists. split; [reflexivity|].
  refine (proj2 (proj2 (proj2 (cleanup_is_a_partial_restart
                                 (mk_ContextManager "History"
                                    {[ "U1" := new_context "U1" clock0 ]} ∅)
                                 _ 7 clock0 eq_refl)) "U1") _ clock0).
  unfold idle_since. vm_compute. discriminate.
Defined.

(** ** A message through the whole service *)

Lemma save_conversation_cached (cm : ContextManager.ContextManager)
    (u msg response : string) (now : datetime) (c : AppointmentContext) :
  _contexts cm !! clean_user_id u = Some c ->
  save_conversation cm u msg response now
  = _append_to_history_file cm (clean_user_id u)
      (mk_ConversationHistory now msg response (Some (_get_context_dict c))).
Proof.
  intros H. unfold save_conversation.
  rewrite (get_context_hit cm (clean_user_id u) now c); [reflexivity|].
  now rewrite clean_user_id_idem.
Qed.

(** Whether an append raises depends on the history file alone. *)
Lemma _append_to_history_file_raises (cm cm2 : ContextManager.ContextManager)
    (uid : string) (e e2 : ConversationHistory) :
  files cm2 = files cm -> history_dir cm2 = history_dir cm ->
  _append_to_history_file cm uid e = None ->
  _append_to_history_file cm2 uid e2 = None.
Proof.
  intros Hfiles Hdir. unfold _append_to_history_file, history_file.
  rewrite Hfiles, Hdir.
  now destruct (files cm !! _) as [[|[]| |]|].
Qed.

(** What a message does, by parts: the state machine runs on the
    context [get_context] hands out, its result is the cached context
    of the user, and either the apology is returned and no file is
    written, or a response is returned and logged. *)
Lemma process_message_spec (bot : LucidChatbot.Bot) (analysis reply : option string)
    (msg u : string) (clock : LucidChatbot.Clock) :
  let cm := LucidChatbot.context_manager bot in
  let uc := clean_user_id u in
  let got := get_context cm u (LucidChatbot.at_creation clock) in
  let s' := process_message (fst got, LucidChatbot.recorder bot) analysis msg
              (LucidChatbot.at_recording clock) (LucidChatbot.at_update clock) in
  let cm2 := set_contexts (<[uc := fst s']> (_contexts (snd got))) (snd got) in
  let entry := fun response =>
    mk_ConversationHistory (LucidChatbot.at_history clock) msg response
      (Some (_get_context_dict (fst s'))) in
  let out := LucidChatbot.process_message bot analysis reply msg u clock in
  LucidChatbot.recorder (snd out) = snd s'
  /\ _contexts (LucidChatbot.context_manager (snd out))
     = <[uc := fst s']> (_contexts (snd got))
  /\ ((fst out = LucidChatbot.apology
       /\ LucidChatbot.context_manager (snd out) = cm2
       /\ (generate_response reply (fst s') = None
           \/ exists response,
                generate_response reply (fst s') = Some response
                /\ _append_to_history_file cm2 uc (entry response) = None))
      \/ (exists response,
            generate_response reply (fst s') = Some response
            /\ fst out = response
            /\ _append_to_history_file cm2 uc (entry response)
               = Some (LucidChatbot.context_manager (snd out)))).
Proof.
  cbv zeta. unfold LucidChatbot.process_message, process_message.
  destruct (get_context (LucidChatbot.context_manager bot) u
              (LucidChatbot.at_creation clock)) as [c cm1].
  cbn [fst snd] in *.
  destruct (update_context_state c _ _ _ _) as [c' calls'].
  cbn [fst snd].
  destruct (generate_response reply c') as [response|]; cbn [fst snd].
  - rewrite (save_conversation_cached _ u msg response _ c')
      by (simpl; apply lookup_insert_eq).
    destruct (_append_to_history_file _ _ _) as [cm3|] eqn:E; cbn [fst snd].
    + apply _append_to_history_file_shape in E as E'. destruct E' as (l & ->).
      split; [reflexivity|].
      split; [cbn [LucidChatbot.context_manager];
              now rewrite (proj2 (write_document_keeps _ _ _))|].
      right. eauto.
    + split; [reflexivity|]. split; [reflexivity|]. left.
      split; [reflexivity|]. split; [reflexivity|]. right. eauto.
  - split; [reflexivity|]. split; [reflexivity|]. left. auto.
Qed.

Lemma receive_snapshots (bot : LucidChatbot.Bot) (m : LucidChatbot.Incoming) :
  forall v now,
    _load_context_from_file (LucidChatbot.context_manager (LucidChatbot.receive bot m)) v now
    = _load_context_from_file (LucidChatbot.context_manager bot) v now.
Proof.
  intros v now. unfold LucidChatbot.receive.
  pose proof (process_message_spec bot (LucidChatbot.in_analysis m)
                (LucidChatbot.in_reply m) (LucidChatbot.in_text m)
                (LucidChatbot.in_user m) (LucidChatbot.in_clock m)) as H.
  cbv zeta in H. destruct H as (_ & _ & H).
  pose proof (get_context_spec (LucidChatbot.context_manager bot)
                (LucidChatbot.in_user m)
                (LucidChatbot.at_creation (LucidChatbot.in_clock m)))
    as (Hfiles & Hdir & _).
  destruct H as [(_ & -> & _) | (response & _ & _ & H)].
  - unfold _load_context_from_file, context_file. simpl. now rewrite Hfiles, Hdir.
  - apply _append_to_history_file_shape in H as (l & ->).
    unfold _load_context_from_file, context_file.
    rewrite (proj1 (write_document_keeps _ _ _)).
    match goal with
    | |- context [write_document ?a (history_file ?a ?b) _] =>
        fold (context_file a v);
        rewrite (write_document_other a (history_file a b) (context_file a v))
          by apply context_file_not_history
    end.
    unfold context_file. simpl. now rewrite Hfiles, Hdir.
Qed.

Lemma receive_all_snapshots (messages : list LucidChatbot.Incoming) :
  forall (bot : LucidChatbot.Bot) v now,
    _load_context_from_file
      (LucidChatbot.context_manager (LucidChatbot.receive_all bot messages)) v now
    = _load_context_from_file (LucidChatbot.context_manager bot) v now.
Proof.
  induction messages as [|m messages IH]; intros bot v now; [reflexivity|].
  change (LucidChatbot.receive_all bot (m :: messages))
    with (LucidChatbot.receive_all (LucidChatbot.receive bot m) messages).
  now rewrite IH, receive_snapshots.
Qed.

(** No message writes a snapshot. Whatever the messages received, of
    whatever users, with whatever outcomes of the two chains: after a
    restart every user's context is what a restart before the messages
    would have given; on a directory that was empty it is a new initial
    context, whose [appointment_saved] is false, while the rows the
    Recorder wrote stay. *)
Theorem messages_write_no_snapshot (bot : LucidChatbot.Bot)
    (messages : list LucidChatbot.Incoming) (dir u : string) (now : datetime)
    (calls : list AppointmentRow) :
  fst (get_context
         (LucidChatbot.context_manager
            (LucidChatbot.restart (LucidChatbot.receive_all bot messages))) u now)
  = fst (get_context (LucidChatbot.context_manager (LucidChatbot.restart bot)) u now)
  /\ fst (get_context
            (LucidChatbot.context_manager
               (LucidChatbot.restart
                  (LucidChatbot.receive_all
                     (LucidChatbot.mk_Bot (new_manager dir) calls) messages))) u now)
     = new_context (clean_user_id u) now
  /\ LucidChatbot.recorder (LucidChatbot.restart (LucidChatbot.receive_all bot messages))
     = LucidChatbot.recorder (LucidChatbot.receive_all bot messages).
Proof.
  assert (H : forall b,
            fst (get_context
                   (LucidChatbot.context_manager
                      (LucidChatbot.restart (LucidChatbot.receive_all b messages))) u now)
            = fst (get_context (LucidChatbot.context_manager (LucidChatbot.restart b))
                     u now)).
  { intros b. rewrite !get_context_miss by (simpl; apply lookup_empty).
    change (_load_context_from_file
              (LucidChatbot.context_manager
                 (LucidChatbot.restart (LucidChatbot.receive_all b messages)))
              (clean_user_id u) now)
      with (_load_context_from_file
              (LucidChatbot.context_manager (LucidChatbot.receive_all b messages))
              (clean_user_id u) now).
    now rewrite receive_all_snapshots. }
  split; [apply H|]. split; [|reflexivity].
  rewrite H. rewrite get_context_miss by (simpl; apply lookup_empty).
  unfold _load_context_from_file. simpl. now rewrite lookup_empty.
Qed.

Lemma rows_of_app (u : string) (a b : list AppointmentRow) :
  rows_of u (a ++ b) = rows_of u a ++ rows_of u b.
Proof. apply List.filter_app. Qed.

Lemma rows_of_single (u : string) (c : AppointmentContext) (t : datetime) :
  rows_of u [appointment_row c t]
  = if String.eqb (user_id c) u then [appointment_row c t] else [].
Proof. reflexivity. Qed.

Lemma rows_of_update (u : string) (c : AppointmentContext) (i : IntentAnalysis)
    (t1 t2 : datetime) (calls : list AppointmentRow) :
  let s' := update_context_state c i t1 t2 calls in
  (u <> user_id c -> rows_of u (snd s') = rows_of u calls)
  /\ (length (rows_of (user_id c) calls) = (if appointment_saved c then 1 else 0) ->
      length (rows_of (user_id c) (snd s'))
      = if appointment_saved (fst s') then 1 else 0).
Proof.
  cbv zeta. rewrite update_context_state_cases. cbv zeta.
  destruct (must_record (fill_slots i c)) eqn:E; cbn [fst snd].
  - apply must_record_true in E as (_ & _ & _ & E). rewrite fill_slots_saved in E.
    rewrite !rows_of_app, !rows_of_single, fill_slots_user_id.
    split.
    + intros Hne. destruct (String.eqb_spec (user_id c) u) as [Heq|_];
        [now destruct Hne | apply app_nil_r].
    + rewrite E. intros H. rewrite String.eqb_refl, length_app, H. reflexivity.
  - split; [reflexivity|]. simpl. now rewrite fill_slots_saved.
Qed.

Lemma receive_one_row (bot : LucidChatbot.Bot) (m : LucidChatbot.Incoming) :
  (forall v now, _load_context_from_file (LucidChatbot.context_manager bot) v now = None) ->
  one_row_when_saved bot -> one_row_when_saved (LucidChatbot.receive bot m).
Proof.
  intros Hnone Hinv. unfold LucidChatbot.receive.
  pose proof (process_message_spec bot (LucidChatbot.in_analysis m)
                (LucidChatbot.in_reply m) (LucidChatbot.in_text m)
                (LucidChatbot.in_user m) (LucidChatbot.in_clock m)) as H.
  cbv zeta in H. destruct H as (Hrec & Hcache & _).
  set (uc := clean_user_id (LucidChatbot.in_user m)) in *.
  set (got := get_context (LucidChatbot.context_manager bot) (LucidChatbot.in_user m)
                (LucidChatbot.at_creation (LucidChatbot.in_clock m))) in *.
  assert (Hgot : user_id (fst got) = uc
                 /\ length (rows_of uc (LucidChatbot.recorder bot))
                    = (if appointment_saved (fst got) then 1 else 0)
                 /\ forall u, u <> uc ->
                      _contexts (snd got) !! u
                      = _contexts (LucidChatbot.context_manager bot) !! u).
  { pose proof (Hinv uc) as Hu. subst got. unfold get_context. fold uc.
    destruct (_contexts (LucidChatbot.context_manager bot) !! uc) as [c|] eqn:Hc.
    - cbn [fst snd]. destruct Hu as [Hu1 Hu2]. auto.
    - rewrite Hnone. cbn [fst snd]. rewrite Hu. simpl.
      split; [reflexivity|]. split; [reflexivity|].
      intros u Hne. now apply lookup_insert_ne. }
  destruct Hgot as (Huid & Hrows & Hother).
  unfold process_message in Hrec, Hcache. cbn [fst snd] in Hrec, Hcache.
  intros u. unfold one_row_when_saved in Hinv.
  rewrite Hrec, Hcache.
  match type of Hrec with
  | _ = snd (update_context_state ?c ?i ?t1 ?t2 ?calls) =>
      pose proof (rows_of_update u c i t1 t2 calls) as Hup;
      pose proof (update_context_state_user_id c i t1 t2 calls) as Hsame
  end.
  cbv zeta in Hup. rewrite Huid in Hup, Hsame. destruct Hup as [Hup1 _].
  destruct (decide (u = uc)) as [->|Hne].
  - rewrite lookup_insert_eq. split; [assumption|].
    match type of Hrec with
    | _ = snd (update_context_state ?c ?i ?t1 ?t2 ?calls) =>
        pose proof (rows_of_update uc c i t1 t2 calls) as Hup
    end.
    cbv zeta in Hup. rewrite Huid in Hup. now apply Hup.
  - rewrite lookup_insert_ne by congruence. rewrite (Hother u Hne).
    rewrite (Hup1 Hne). apply Hinv.
Qed.

(** On a directory that was empty, however the messages of several
    users are interleaved and whatever the two chains answer, no user
    gets a second row: the Recorder's table holds at most one row per
    user, exactly one for a user whose cached context is flagged saved
    and none for any other. *)
Theorem no_user_recorded_twice (dir u : string)
    (messages : list LucidChatbot.Incoming) :
  length (rows_of u
            (LucidChatbot.recorder
               (LucidChatbot.receive_all
                  (LucidChatbot.mk_Bot (new_manager dir) []) messages))) <= 1
  /\ one_row_when_saved
       (LucidChatbot.receive_all (LucidChatbot.mk_Bot (new_manager dir) []) messages).
Proof.
  assert (H : forall bot,
            (forall v now,
               _load_context_from_file (LucidChatbot.context_manager bot) v now = None) ->
            one_row_when_saved bot ->
            one_row_when_saved (LucidChatbot.receive_all bot messages)).
  { induction messages as [|m messages IH]; intros bot Hnone Hinv; [assumption|].
    change (LucidChatbot.receive_all bot (m :: messages))
      with (LucidChatbot.receive_all (LucidChatbot.receive bot m) messages).
    apply IH.
    - intros v now. now rewrite receive_snapshots.
    - now apply receive_one_row. }
  assert (Hfinal : one_row_when_saved
            (LucidChatbot.receive_all (LucidChatbot.mk_Bot (new_manager dir) []) messages)).
  { apply H.
    - intros v now. unfold _load_context_from_file. simpl. now rewrite lookup_empty.
    - intros v. simpl. now rewrite lookup_empty. }
  split; [|assumption].
  specialize (Hfinal u).
  destruct (_contexts _ !! u) as [c|].
  - destruct Hfinal as [_ ->]. destruct (appointment_saved c); lia.
  - rewrite Hfinal. simpl. lia.
Qed.


(** On the turn on which the Recorder is called, the cached context is
    COMPLETED with centre and slot and flagged saved, and the answer is
    never text of the response chain, whose outcome plays no part: it
    is the confirmation text built from the centre and the slot of the
    context when appending to the history of the user returns, and the
    apology when it raises, the row having been written either way. *)
Theorem recording_turn_is_confirmed (bot : LucidChatbot.Bot)
    (analysis reply : option string) (msg u : string) (clock : LucidChatbot.Clock) :
  LucidChatbot.recorder (snd (LucidChatbot.process_message bot analysis reply msg u clock))
  <> LucidChatbot.recorder bot ->
  exists c,
    _contexts (LucidChatbot.context_manager
                 (snd (LucidChatbot.process_message bot analysis reply msg u clock)))
      !! clean_user_id u = Some c
    /\ state c = COMPLETED
    /\ selected_center c <> None /\ selected_time_slot c <> None
    /\ appointment_saved c = true
    /\ (fst (LucidChatbot.process_message bot analysis reply msg u clock)
        = _generate_confirmation c
        \/ fst (LucidChatbot.process_message bot analysis reply msg u clock)
           = LucidChatbot.apology)
    /\ (logging_returns (LucidChatbot.context_manager bot) (clean_user_id u) ->
        fst (LucidChatbot.process_message bot analysis reply msg u clock)
        = _generate_confirmation c)
    /\ (~ logging_returns (LucidChatbot.context_manager bot) (clean_user_id u) ->
        fst (LucidChatbot.process_message bot analysis reply msg u clock)
        = LucidChatbot.apology).
Proof.
  intros Hgrew.
  pose proof (process_message_spec bot analysis reply msg u clock) as H.
  cbv zeta in H. destruct H as (Hrec & Hcache & Hout).
  pose proof (get_context_spec (LucidChatbot.context_manager bot) u
                (LucidChatbot.at_creation clock)) as (Hfiles & Hdir & _).
  unfold process_message in Hrec, Hcache, Hout. cbn [fst snd] in Hrec, Hcache, Hout.
  rewrite Hrec in Hgrew. rewrite Hcache, lookup_insert_eq.
  revert Hgrew Hout. rewrite update_context_state_cases. cbv zeta.
  destruct (must_record _) eqn:E; cbn [fst snd]; [|intros Hgrew; now destruct Hgrew].
  intros _ Hout.
  apply must_record_true in E as (Hstate & Hcenter & Hslot & _).
  eexists. split; [reflexivity|]. cbn [state selected_center selected_time_slot
    appointment_saved set_last_message_time set_appointment_saved].
  split; [assumption|]. split; [assumption|]. split; [assumption|].
  split; [reflexivity|].
  assert (Hgen : forall r (c := set_last_message_time (LucidChatbot.at_update clock)
                            (set_appointment_saved true
                               (fill_slots (analyze_intent analysis msg
                                  (fst (get_context (LucidChatbot.context_manager bot) u
                                          (LucidChatbot.at_creation clock))))
                                  (fst (get_context (LucidChatbot.context_manager bot) u
                                          (LucidChatbot.at_creation clock)))))),
            generate_response r c = Some (_generate_confirmation c)).
  { intros r c. unfold generate_response. subst c. simpl.
    rewrite Hstate. simpl.
    destruct (selected_center _); [|contradiction].
    destruct (selected_time_slot _); [|contradiction]. reflexivity. }
  destruct Hout as [(Hap & _ & [Hnone | (response & Hresp & Hraise)])
                   | (response & Hresp & Hfst & Happ)].
  - rewrite Hgen in Hnone. discriminate Hnone.
  - split; [now right|]. split; [|intros _; assumption].
    intros Hlog. exfalso.
    match type of Hraise with
    | _append_to_history_file ?cm2 ?uc ?e = None =>
        apply (Hlog e);
        apply (_append_to_history_file_raises cm2
                 (LucidChatbot.context_manager bot) uc e e); [| |exact Hraise]
    end; simpl; congruence.
  - rewrite Hgen in Hresp. injection Hresp as <-.
    split; [now left|]. split; [intros _; assumption|].
    intros Hlog. exfalso. apply Hlog. intros e He.
    match type of Happ with
    | _append_to_history_file ?cm2 ?uc ?e2 = Some _ =>
        rewrite (_append_to_history_file_raises
                   (LucidChatbot.context_manager bot) cm2 uc e e2) in Happ;
          [discriminate Happ| | |exact He]
    end; simpl; congruence.
Qed.

(** On the confirming message of a user who has chosen a centre and a
    slot, the response chain failing. *)
Lemma recording_turn_is_confirmed_witness :
  fst confirming_yes
  = _generate_confirmation
      (mk_AppointmentContext "U1" COMPLETED (Some "Riyadh") (Some riyadh_downtown)
         (Some slot_10am_july_17) true clock0).
Proof.
  destruct (recording_turn_is_confirmed confirming_bot (Some confirmation_analysis) None
              "yes" "U1" (LucidChatbot.mk_Clock clock0 clock0 clock0 clock0))
    as (c & Hc & _ & _ & _ & _ & _ & Hreply & _).
  - vm_compute. discriminate.
  - vm_compute in Hc. injection Hc as <-.
    apply Hreply. intros e. vm_compute. discriminate.
Defined.



(** ** The selection handlers *)

Import Handlers.

Lemma find_center_in (message_lower : string) (centers : list ServiceCenter)
    (center : ServiceCenter) :
  find_center message_lower centers = Some center -> In center centers.
Proof.
  induction centers as [|c centers IH]; simpl; [discriminate|].
  destruct (existsb _ _); [intros [= <-]; now left|].
  destruct (_ && _); [intros [= <-]; now left|].
  destruct (_ && _); [intros [= <-]; now left|].
  intros H. right. now apply IH.
Qed.

Lemma dict_get_centers_forall (P : list ServiceCenter -> Prop)
    (d : list (string * list ServiceCenter)) (key : string) :
  Forall (fun entry => P (snd entry)) d -> P [] -> P (dict_get_centers d key).
Proof.
  intros Hd Hnil. induction Hd as [|[k v] d Hv _ IH]; simpl; [assumption|].
  now destruct (String.eqb k key).
Qed.

(** The name of the first centre of every city has the word center. *)
Lemma first_center_word (name : string) (first : ServiceCenter)
    (rest : list ServiceCenter) :
  get_service_centers_by_city name = first :: rest ->
  In "center" (split (PyStr.lower (sc_name first))).
Proof.
  unfold get_service_centers_by_city.
  pose (P := fun l : list ServiceCenter =>
               match l with
               | [] => True
               | c :: _ => In "center" (split (PyStr.lower (sc_name c)))
               end).
  assert (H : P (dict_get_centers SERVICE_CENTERS (PyStr.lower name))).
  { apply dict_get_centers_forall; [|exact I].
    unfold SERVICE_CENTERS.
    repeat (constructor; [vm_compute; tauto|]). constructor. }
  intros E. rewrite E in H. exact H.
Qed.

(** [_handle_center_selection] leaves the context as it is when it has
    no city or the city has no centre. Otherwise it always selects a
    centre, one of the centres of the city of the context, and moves to
    WAITING_TIME_SLOT; when the message contains the word center, as in
    a message asking for the north center, the centre selected is the
    first one of the city, every centre name having that word. *)
Theorem center_selection_takes_a_centre_of_the_city (user_message : string)
    (context : AppointmentContext) :
  match match city context with
        | Some name => get_service_centers_by_city name
        | None => []
        end with
  | [] => fst (_handle_center_selection user_message context) = context
  | first :: rest =>
      exists center,
        In center (first :: rest)
        /\ fst (_handle_center_selection user_message context)
           = set_state WAITING_TIME_SLOT (set_selected_center (Some center) context)
        /\ (PyStr.contains "center" (PyStr.lower user_message) = true -> center = first)
  end.
Proof.
  unfold _handle_center_selection.
  destruct (city context) as [name|] eqn:Hcity; [|reflexivity].
  destruct (get_service_centers_by_city name) as [|first rest] eqn:Hcenters.
  - destruct (negb _); [reflexivity|]. now destruct (find_center _ []) eqn:E.
  - assert (Ht : PyStr.truthy (Some name) = true)
      by (apply (served_city_truthy name first); rewrite Hcenters; now left).
    rewrite Ht. cbn [negb].
    destruct (find_center (PyStr.lower user_message) (first :: rest))
      as [center|] eqn:Hfind.
    + exists center. split; [now apply find_center_in in Hfind|].
      split; [reflexivity|]. intros Hword.
      cbn [find_center] in Hfind.
      assert (E : existsb (fun word => PyStr.contains word (PyStr.lower user_message))
                    (split (PyStr.lower (sc_name first))) = true).
      { apply existsb_exists. exists "center".
        split; [now apply (first_center_word name first rest) | assumption]. }
      rewrite E in Hfind. now injection Hfind.
    + exists first. split; [now left|]. split; [reflexivity|]. reflexivity.
Qed.

Lemma find_slot_in (message_lower : string) (slots : list TimeSlot) (slot : TimeSlot) :
  find_slot message_lower slots = Some slot -> In slot slots.
Proof.
  induction slots as [|s slots IH]; simpl; [discriminate|].
  destruct (PyStr.contains _ _); [intros [= <-]; now left|].
  destruct (existsb _ _); [intros [= <-]; now left|].
  intros H. right. now apply IH.
Qed.

(** [_handle_time_selection] either finds no slot and leaves the
    context as it is, or selects a slot of the catalogue and sets the
    state to COMPLETED, in which case the flag [appointment_saved] is
    as it was, and the reply, when no centre is selected, says the
    booking could not be completed. A message one of whose words is a
    part of the first slot's time, as the word am is, selects the first
    slot of the catalogue, whatever time the message names. *)
Theorem time_selection_takes_a_slot_of_the_catalogue (user_message : string)
    (context : AppointmentContext) :
  (fst (_handle_time_selection user_message context) = context
   \/ exists slot,
        In slot AVAILABLE_TIME_SLOTS
        /\ fst (_handle_time_selection user_message context)
           = set_state COMPLETED (set_selected_time_slot (Some slot) context)
        /\ (selected_center context = None ->
            snd (_handle_time_selection user_message context)
            = "I couldn't complete your booking. Please try again."))
  /\ appointment_saved (fst (_handle_time_selection user_message context))
     = appointment_saved context
  /\ forall word,
       In word (split (PyStr.lower user_message)) ->
       PyStr.contains word "10 am" = true ->
       fst (_handle_time_selection user_message context)
       = set_state COMPLETED
           (set_selected_time_slot (Some (TimeSlot_of "10 AM" "July 17th")) context).
Proof.
  unfold _handle_time_selection. split; [|split].
  - destruct (find_slot _ _) as [slot|] eqn:E; [right | now left].
    exists slot. split; [now apply find_slot_in in E|]. split; [reflexivity|].
    intros Hnone. cbn [snd]. unfold _generate_confirmation.
    cbn [selected_center set_state set_selected_time_slot]. now rewrite Hnone.
  - now destruct (find_slot _ _).
  - intros word Hin Hword.
    assert (E : find_slot (PyStr.lower user_message) AVAILABLE_TIME_SLOTS
                = Some (TimeSlot_of "10 AM" "July 17th")).
    { unfold AVAILABLE_TIME_SLOTS. cbn [find_slot].
      change (PyStr.lower (ts_time (TimeSlot_of "10 AM" "July 17th"))) with "10 am".
      destruct (PyStr.contains "10 am" (PyStr.lower user_message)); [reflexivity|].
      assert (Ex : existsb (fun w => PyStr.contains w "10 am")
                     (split (PyStr.lower user_message)) = true)
        by (apply existsb_exists; eauto).
      now rewrite Ex. }
    now rewrite E.
Qed.
